(** * Attendance timekeeper: check-in / check-out lifecycle, reports and export

    A shallow embedding of the attendance tracker of the student attendance
    application and the properties of its record lifecycle.

    Source files embedded here:
    - [src/context/AttendanceContext.tsx]: the tracker backed by the remote
      [attendance] table (module [Remote]);
    - the earlier tracker that keeps its records in [localStorage]
      (module [Local]);
    - [src/context/AuthContext.tsx]: the session store (module [Auth]);
    - the reports page with its CSV export and summary (module [Reports]);
    - the two dashboards (modules [Dashboard] and [LegacyDashboard]).

    Conventions.  A JavaScript [Date] is the integer number of milliseconds
    since the epoch that [getTime()] returns (only valid dates occur: every
    [Date] of the program comes from [new Date()] or from a timestamp the
    program wrote itself).  React state is threaded explicitly: an operation
    takes the state its closure was created in and returns the state after its
    setters have run, together with the toasts and console messages it
    produced.  An [async] operation is cut at its [await]: the part before it
    returns the request sent to the table, the part after it consumes the
    response.  Counts, sums and differences of times are integers; the one
    division of the summary is done on binary64 floats, as the page does it. *)

From Stdlib Require Import ZArith List String Ascii Lia Bool.
From Stdlib Require Import DecimalString DecimalZ DecimalPos.
From Stdlib Require Import Floats Uint63.
From stdpp Require Import base option list gmap strings sorting.

Local Open Scope Z_scope.

(** ** JavaScript built-ins used by the program *)

Module JS.

(** A valid [Date], as its epoch milliseconds. *)
Definition Date := Z.

(** [String(n)] / [`${n}`] for an integer-valued number below [1e21]. *)
Definition Number_toString (n : Z) : string :=
  NilZero.string_of_int (Z.to_int n).

(** [s.split(sep)[0]]: the part of [s] before the first [sep]. *)
Fixpoint split_head (sep : ascii) (s : string) : string :=
  match s with
  | EmptyString => EmptyString
  | String c s' =>
      if Ascii.eqb c sep then EmptyString else String c (split_head sep s')
  end.

(** White space skipped by [parseInt] (the ASCII part of [StrWhiteSpaceChar]). *)
Definition is_white (c : ascii) : bool :=
  let n := N_of_ascii c in
  (N.eqb n 32 || (N.leb 9 n && N.leb n 13))%bool.

Fixpoint trimStart (s : string) : string :=
  match s with
  | String c s' => if is_white c then trimStart s' else s
  | EmptyString => EmptyString
  end.

(** Value of a digit in radix up to 36; [None] when [c] is not alphanumeric. *)
Definition digit_val (c : ascii) : option Z :=
  let n := Z.of_N (N_of_ascii c) in
  if (48 <=? n) && (n <=? 57) then Some (n - 48)
  else if (97 <=? n) && (n <=? 122) then Some (n - 87)
  else if (65 <=? n) && (n <=? 90) then Some (n - 55)
  else None.

(** The longest prefix of radix-[radix] digits, accumulated; [acc] is [None]
    until a digit has been read, which is how [parseInt] ends in [NaN]. *)
Fixpoint parse_digits (radix : Z) (acc : option Z) (s : string) : option Z :=
  match s with
  | EmptyString => acc
  | String c s' =>
      match digit_val c with
      | Some d =>
          if d <? radix
          then parse_digits radix (Some (default 0 acc * radix + d)) s'
          else acc
      | None => acc
      end
  end.

(** The optional sign that [parseInt] reads first. *)
Definition read_sign (s : string) : Z * string :=
  match s with
  | String c s' =>
      if Ascii.eqb c "-" then (-1, s')
      else if Ascii.eqb c "+" then (1, s')
      else (1, s)
  | EmptyString => (1, s)
  end.

(** The radix: sixteen after [0x] or [0X], ten otherwise. *)
Definition read_radix (s : string) : Z * string :=
  match s with
  | String c0 (String c1 s') =>
      if Ascii.eqb c0 "0" && (Ascii.eqb c1 "x" || Ascii.eqb c1 "X")
      then (16, s') else (10, s)
  | _ => (10, s)
  end.

(** [parseInt(s)] with no radix argument; [None] is [NaN]. *)
Definition parseInt (s : string) : option Z :=
  let '(sign, s) := read_sign (trimStart s) in
  let '(radix, s) := read_radix s in
  option_map (Z.mul sign) (parse_digits radix None s).

(** Left padding with zeros, as the ISO date fields are written. *)
Fixpoint zeros (n : nat) : string :=
  match n with O => EmptyString | S n' => String "0" (zeros n') end.

Definition pad (width : nat) (n : Z) : string :=
  let s := Number_toString n in
  zeros (width - String.length s) +:+ s.

(** The proleptic Gregorian date of a day number counted from 1970-01-01. *)
Definition civil_of_days (days : Z) : Z * Z * Z :=
  let z := days + 719468 in
  let era := z / 146097 in
  let doe := z - era * 146097 in
  let yoe := (doe - doe / 1460 + doe / 36524 - doe / 146096) / 365 in
  let doy := doe - (365 * yoe + yoe / 4 - yoe / 100) in
  let mp := (5 * doy + 2) / 153 in
  let d := doy - (153 * mp + 2) / 5 + 1 in
  let m := if mp <? 10 then mp + 3 else mp - 9 in
  let y := yoe + era * 400 + (if m <=? 2 then 1 else 0) in
  (y, m, d).

(** [t.toISOString().split('T')[0]]: the UTC calendar day of [t] as
    [YYYY-MM-DD] (years outside 0..9999 take the expanded six-digit form). *)
Definition toISODate (t : Date) : string :=
  let '(y, m, d) := civil_of_days (t / 86400000) in
  let year :=
    if (0 <=? y) && (y <=? 9999) then pad 4 y
    else (if y <? 0 then "-" else "+") +:+ pad 6 (Z.abs y) in
  year +:+ "-" +:+ pad 2 m +:+ "-" +:+ pad 2 d.

(** The number [n] as the double the program computes with. Exact for
    [|n| <= 2^53], which covers every count and sum the pages handle. *)
Definition Number_of_Z (n : Z) : float :=
  if n <? 0 then PrimFloat.opp (PrimFloat.of_uint63 (Uint63.of_Z (- n)))
  else PrimFloat.of_uint63 (Uint63.of_Z n).

(** The integer [k] for which [k / 10 - x] is as close to zero as possible,
    the larger one when two are equally close, for [x = m * 2^e >= 0]
    (step 10.a of [Number.prototype.toFixed]). *)
Definition nearest_tenths (m e : Z) : Z :=
  if 0 <=? e then 10 * m * 2 ^ e
  else (20 * m + 2 ^ (- e)) / 2 ^ (- e + 1).

(** The digits of [k] tenths with the decimal point in place. *)
Definition tenths_toString (k : Z) : string :=
  Number_toString (k / 10) +:+ "." +:+ Number_toString (k mod 10).

(** [x.toFixed(1)].  [None] stands for the one case left out: a finite
    magnitude of [1e21] or more, where [toFixed] falls back to [String(x)]. *)
Definition toFixed1 (x : float) : option string :=
  match Prim2SF x with
  | S754_nan => Some "NaN"
  | S754_infinity s => Some (if s then "-Infinity" else "Infinity")
  | S754_zero _ => Some "0.0"
  | S754_finite s m e =>
      let k := nearest_tenths (Z.pos m) e in
      if 10 ^ 22 <=? k then None
      else Some ((if s then "-" else "") +:+ tenths_toString k)
  end.

End JS.

Arguments JS.toISODate : simpl never.

(** ** The session store (src/context/AuthContext.tsx) *)

Module Auth.

Record User := { id : string; email : string; name : string }.

(** What [localStorage.getItem('user')] holds: nothing, a string on which
    [JSON.parse] throws, or the serialised user. *)
Inductive StoredUser :=
| Unparsable (raw : string)
| Serialized (u : User).

Inductive Event :=
| console_error (msg : string).

Record Session := { user : option User; stored : option StoredUser }.

(** The mount effect of [AuthProvider]: restore the user from storage. *)
Definition restore (s : Session) : Session * list Event :=
  match stored s with
  | None => (s, [])
  | Some (Unparsable raw) =>
      if String.eqb raw "" then (s, [])
      else ({| user := user s; stored := None |},
            [console_error "Failed to parse user from localStorage"])
  | Some (Serialized u) => ({| user := Some u; stored := stored s |}, [])
  end.

Definition logout (s : Session) : Session :=
  {| user := None; stored := None |}.

End Auth.

(** Toasts, shared by both trackers. *)

Inductive Variant := Default | Destructive.

Record Toast :=
  { variant : option Variant; title : string; description : string }.

(** The rendering of times and days that depends on the browser's locale. *)
Record Locale :=
  { toLocaleTimeString : JS.Date -> string;
    toLocaleDateString : JS.Date -> string }.

(** ** The operations of the session store (src/context/AuthContext.tsx) *)

Module AuthProvider.

(** [isAuthenticated: !!user] *)
Definition isAuthenticated (s : Auth.Session) : bool :=
  bool_decide (is_Some (Auth.user s)).

(** [login], after its mock delay: any email and password are accepted. *)
Definition login (email password : string) (s : Auth.Session)
  : Auth.Session * list Toast :=
  let mockUser :=
    {| Auth.id := "1"; Auth.email := email;
       Auth.name := JS.split_head "@" email |} in
  ({| Auth.user := Some mockUser;
      Auth.stored := Some (Auth.Serialized mockUser) |},
   [{| variant := None; title := "Login successful";
       description := "Welcome back, " +:+ Auth.name mockUser +:+ "!" |}]).

(** [register]; [stamp] is the [Date.now()] that becomes the identifier. *)
Definition register (name email password : string) (stamp : JS.Date)
    (s : Auth.Session) : Auth.Session * list Toast :=
  let mockUser :=
    {| Auth.id := JS.Number_toString stamp; Auth.email := email;
       Auth.name := name |} in
  ({| Auth.user := Some mockUser;
      Auth.stored := Some (Auth.Serialized mockUser) |},
   [{| variant := None; title := "Registration successful";
       description := "Welcome, " +:+ name +:+ "!" |}]).

(** [logout] with its toast. *)
Definition logout (s : Auth.Session) : Auth.Session * list Toast :=
  (Auth.logout s,
   [{| variant := None; title := "Logged out";
       description := "You have been successfully logged out." |}]).

(** A page load: the state starts empty, the storage is as it was left,
    and the mount effect runs. *)
Definition reload (s : Auth.Session) : Auth.Session * list Auth.Event :=
  Auth.restore {| Auth.user := None; Auth.stored := Auth.stored s |}.

End AuthProvider.

(** ** The persistence collaborator: the [attendance] table

    The table is a service outside the program.  It is modelled as the list
    of its rows, with the meaning that the query builder gives to the calls
    the program makes: [eq], [gte] and [lte] keep the rows whose column
    compares so with the value, [order] sorts, [limit] cuts, [insert] adds a
    row and [update] rewrites the matching ones.  Day keys are [YYYY-MM-DD]
    strings, for which the order of strings is the order of days. *)

Module Supabase.

(** A row as the table returns it.  The two timestamp columns are kept as
    the instants they denote; [new Date(column)] reads them back. *)
Record Row :=
  { id : string;
    user_id : string;
    check_in_time : JS.Date;
    check_out_time : option JS.Date;
    date : string }.

(** [{ data, error }]. *)
Record Response (A : Type) := { data : option A; error : option string }.
Arguments data {A} _.
Arguments error {A} _.

Definition ok {A} (a : A) : Response A := {| data := Some a; error := None |}.
Definition failed {A} (e : string) : Response A :=
  {| data := None; error := Some e |}.

Inductive Column := col_id | col_user_id | col_date.

Definition get (c : Column) (r : Row) : string :=
  match c with
  | col_id => id r
  | col_user_id => user_id r
  | col_date => date r
  end.

(** The filters of the query builder that the program uses. *)
Inductive Filter :=
| eq (c : Column) (v : string)
| gte (c : Column) (v : string)
| lte (c : Column) (v : string).

Record Select :=
  { filters : list Filter;
    order : option (Column * bool);    (* column, ascending *)
    limit : option nat }.

Definition holds (f : Filter) (r : Row) : bool :=
  match f with
  | eq c v => String.eqb (get c r) v
  | gte c v => String.leb v (get c r)
  | lte c v => String.leb (get c r) v
  end.

Definition matches (fs : list Filter) (r : Row) : bool :=
  forallb (fun f => holds f r) fs.

(** The order of [.order(c, { ascending })] on two rows. *)
Definition before (c : Column) (ascending : bool) (a b : Row) : Prop :=
  if ascending then String.leb (get c a) (get c b) = true
  else String.leb (get c b) (get c a) = true.

Global Instance before_dec c asc a b : Decision (before c asc a b).
Proof. unfold before. destruct asc; apply _. Defined.

(** What a [select('*')] with these filters, order and limit returns. *)
Definition select (table : list Row) (q : Select) : list Row :=
  let found := List.filter (matches (filters q)) table in
  let sorted :=
    match order q with
    | Some (c, asc) => merge_sort (before c asc) found
    | None => found
    end in
  match limit q with
  | Some n => take n sorted
  | None => sorted
  end.

(** [maybeSingle()]: no data for no row, an error for more than one. *)
Definition maybeSingle (rows : list Row) : Response Row :=
  match rows with
  | [] => {| data := None; error := None |}
  | [row] => ok row
  | _ => failed "JSON object requested, multiple (or no) rows returned"
  end.

(** The answer to a call: [net] is the error of a call that does not get
    through, [None] when the table answers with [r]. *)
Definition answer {A} (net : option string) (r : Response A) : Response A :=
  match net with
  | Some e => failed e
  | None => r
  end.

(** The requests that write. *)
Record Insert := { new_user_id : string; new_check_in_time : JS.Date; new_date : string }.
Record Update := { target_id : string; set_check_out_time : JS.Date }.

(** [insert([...]).select().single()]: the table stores the row under the
    identifier it assigns and returns it. *)
Definition insert (fresh_id : string) (table : list Row) (q : Insert)
  : list Row * Response Row :=
  let row := {| id := fresh_id; user_id := new_user_id q;
                check_in_time := new_check_in_time q;
                check_out_time := None; date := new_date q |} in
  (table ++ [row], ok row).

Definition set_check_out (q : Update) (r : Row) : Row :=
  if String.eqb (id r) (target_id q)
  then {| id := id r; user_id := user_id r; check_in_time := check_in_time r;
          check_out_time := Some (set_check_out_time q); date := date r |}
  else r.

(** [update({...}).eq('id', ...).select().single()]: the rows with that
    identifier are updated and returned; [single()] turns anything but
    exactly one row into an error, and the table keeps its content then. *)
Definition update (table : list Row) (q : Update) : list Row * Response Row :=
  let table' := map (set_check_out q) table in
  match List.filter (fun r => String.eqb (id r) (target_id q)) table' with
  | [row] => (table', ok row)
  | _ => (table, failed "JSON object requested, multiple (or no) rows returned")
  end.

End Supabase.

(** ** The tracker on the remote table (src/context/AttendanceContext.tsx) *)

Module Remote.

Record AttendanceRecord :=
  { id : string;
    user_id : string;
    check_in_time : JS.Date;
    check_out_time : option JS.Date;
    date : string }.

Record DateRange := { from : option JS.Date; to : option JS.Date }.

(** The state of [AttendanceProvider], with the user that [useAuth] hands it. *)
Record State :=
  { user : option Auth.User;
    todayRecord : option AttendanceRecord;
    recentRecords : list AttendanceRecord;
    isLoading : bool }.

Definition initial : State :=
  {| user := None; todayRecord := None; recentRecords := []; isLoading := false |}.

Definition setTodayRecord (r : option AttendanceRecord) (s : State) : State :=
  {| user := user s; todayRecord := r;
     recentRecords := recentRecords s; isLoading := isLoading s |}.

Definition setRecentRecords (l : list AttendanceRecord) (s : State) : State :=
  {| user := user s; todayRecord := todayRecord s;
     recentRecords := l; isLoading := isLoading s |}.

Definition setIsLoading (b : bool) (s : State) : State :=
  {| user := user s; todayRecord := todayRecord s;
     recentRecords := recentRecords s; isLoading := b |}.

Definition setUser (u : option Auth.User) (s : State) : State :=
  {| user := u; todayRecord := todayRecord s;
     recentRecords := recentRecords s; isLoading := isLoading s |}.

Inductive Event :=
| toast (t : Toast)
| console_error (msg : string).

(** [{ ...row, check_in_time: new Date(row.check_in_time),
       check_out_time: row.check_out_time ? new Date(row.check_out_time) : null }] *)
Definition format (row : Supabase.Row) : AttendanceRecord :=
  {| id := Supabase.id row;
     user_id := Supabase.user_id row;
     check_in_time := Supabase.check_in_time row;
     check_out_time := Supabase.check_out_time row;
     date := Supabase.date row |}.

(** The record [checkOut] builds: [check_out_time: new Date(data.check_out_time)]
    without the test, and [new Date(null)] is the epoch. *)
Definition format_checked_out (row : Supabase.Row) : AttendanceRecord :=
  {| id := Supabase.id row;
     user_id := Supabase.user_id row;
     check_in_time := Supabase.check_in_time row;
     check_out_time := Some (default 0 (Supabase.check_out_time row));
     date := Supabase.date row |}.

(** [isCheckedIn: !!todayRecord && !todayRecord.check_out_time] *)
Definition isCheckedIn (s : State) : bool :=
  match todayRecord s with
  | Some r => negb (bool_decide (is_Some (check_out_time r)))
  | None => false
  end.

Section Tracker.

Variable L : Locale.

Definition already_checked_in (r : AttendanceRecord) : Toast :=
  {| variant := Some Default;
     title := "Already checked in";
     description := "You checked in at "
       +:+ toLocaleTimeString L (check_in_time r) +:+ " today." |}.

Definition checked_in (now : JS.Date) : Toast :=
  {| variant := None;
     title := "Checked in successfully";
     description := "You checked in at " +:+ toLocaleTimeString L now +:+ "." |}.

Definition check_in_failed : Toast :=
  {| variant := Some Destructive;
     title := "Check-in failed";
     description := "Could not record your check-in." |}.

Definition already_checked_out (t : JS.Date) : Toast :=
  {| variant := Some Default;
     title := "Already checked out";
     description := "You checked out at "
       +:+ toLocaleTimeString L t +:+ " today." |}.

Definition checked_out (now : JS.Date) : Toast :=
  {| variant := None;
     title := "Checked out successfully";
     description := "You checked out at " +:+ toLocaleTimeString L now +:+ "." |}.

Definition check_out_failed : Toast :=
  {| variant := Some Destructive;
     title := "Check-out failed";
     description := "Could not record your check-out." |}.

Definition error_loading (what : string) : Toast :=
  {| variant := Some Destructive;
     title := "Error loading attendance";
     description := what |}.

(** *** checkIn *)

(** A [checkIn] suspended at its [await]: what its closure holds. *)
Record CheckInCall :=
  { ci_now : JS.Date; ci_recentRecords : list AttendanceRecord }.

(** [checkIn] up to the [await]: the guards, then the insert is sent. *)
Definition checkIn_begin (now : JS.Date) (s : State)
  : State * list Event * option (CheckInCall * Supabase.Insert) :=
  match user s with
  | None => (s, [], None)
  | Some u =>
      let s1 := setIsLoading true s in
      match todayRecord s with
      | Some r =>
          (setIsLoading false s1, [toast (already_checked_in r)], None)
      | None =>
          (s1, [],
           Some ({| ci_now := now; ci_recentRecords := recentRecords s |},
                 {| Supabase.new_user_id := Auth.id u;
                    Supabase.new_check_in_time := now;
                    Supabase.new_date := JS.toISODate now |}))
      end
  end.

(** [checkIn] after the [await], run on the state of that moment. *)
Definition checkIn_resume (c : CheckInCall)
    (r : Supabase.Response Supabase.Row) (s : State) : State * list Event :=
  match Supabase.error r, Supabase.data r with
  | None, Some data =>
      let newRecord := format data in
      (setIsLoading false
         (setRecentRecords (newRecord :: ci_recentRecords c)
            (setTodayRecord (Some newRecord) s)),
       [toast (checked_in (ci_now c))])
  | _, _ =>
      (setIsLoading false s,
       [console_error "Check-in failed"; toast check_in_failed])
  end.

(** One [checkIn] run to completion with nothing in between. *)
Definition checkIn (now : JS.Date) (r : Supabase.Response Supabase.Row)
    (s : State) : State * list Event :=
  match checkIn_begin now s with
  | (s1, evs, None) => (s1, evs)
  | (s1, evs, Some (c, _)) =>
      let '(s2, evs2) := checkIn_resume c r s1 in (s2, evs ++ evs2)
  end.

(** *** checkOut *)

Record CheckOutCall :=
  { co_now : JS.Date; co_recentRecords : list AttendanceRecord }.

Definition checkOut_begin (now : JS.Date) (s : State)
  : State * list Event * option (CheckOutCall * Supabase.Update) :=
  match user s, todayRecord s with
  | Some u, Some today =>
      let s1 := setIsLoading true s in
      match check_out_time today with
      | Some t =>
          (setIsLoading false s1, [toast (already_checked_out t)], None)
      | None =>
          (s1, [],
           Some ({| co_now := now; co_recentRecords := recentRecords s |},
                 {| Supabase.target_id := id today;
                    Supabase.set_check_out_time := now |}))
      end
  | _, _ => (s, [], None)
  end.

Definition replace_by_id (updated : AttendanceRecord)
    (l : list AttendanceRecord) : list AttendanceRecord :=
  map (fun record =>
         if String.eqb (id record) (id updated) then updated else record) l.

Definition checkOut_resume (c : CheckOutCall)
    (r : Supabase.Response Supabase.Row) (s : State) : State * list Event :=
  match Supabase.error r, Supabase.data r with
  | None, Some data =>
      let updatedRecord := format_checked_out data in
      (setIsLoading false
         (setRecentRecords (replace_by_id updatedRecord (co_recentRecords c))
            (setTodayRecord (Some updatedRecord) s)),
       [toast (checked_out (co_now c))])
  | _, _ =>
      (setIsLoading false s,
       [console_error "Check-out failed"; toast check_out_failed])
  end.

Definition checkOut (now : JS.Date) (r : Supabase.Response Supabase.Row)
    (s : State) : State * list Event :=
  match checkOut_begin now s with
  | (s1, evs, None) => (s1, evs)
  | (s1, evs, Some (c, _)) =>
      let '(s2, evs2) := checkOut_resume c r s1 in (s2, evs ++ evs2)
  end.

(** *** loadAttendanceRecords and the effect on the user *)

Definition load_failed : list Event :=
  [console_error "Failed to load attendance records";
   toast (error_loading "Could not load your attendance records.")].

(** [loadAttendanceRecords], its two selects answered by [rToday]
    ([maybeSingle()]: no data when there is no row) and [rRecent]. *)
Definition loadAttendanceRecords
    (rToday : Supabase.Response Supabase.Row)
    (rRecent : Supabase.Response (list Supabase.Row))
    (s : State) : State * list Event :=
  match user s with
  | None => (s, [])
  | Some u =>
      let s1 := setIsLoading true s in
      match Supabase.error rToday with
      | Some _ => (setIsLoading false s1, load_failed)
      | None =>
          let s2 := setTodayRecord (option_map format (Supabase.data rToday)) s1 in
          match Supabase.error rRecent with
          | Some _ => (setIsLoading false s2, load_failed)
          | None =>
              let s3 :=
                match Supabase.data rRecent with
                | Some recentData => setRecentRecords (map format recentData) s2
                | None => s2
                end in
              (setIsLoading false s3, [])
          end
      end
  end.

(** The two selects of [loadAttendanceRecords]. *)
Definition todayQuery (u : Auth.User) (today : string) : Supabase.Select :=
  {| Supabase.filters :=
       [Supabase.eq Supabase.col_user_id (Auth.id u);
        Supabase.eq Supabase.col_date today];
     Supabase.order := None;
     Supabase.limit := None |}.

Definition recentQuery (u : Auth.User) (since : string) : Supabase.Select :=
  {| Supabase.filters :=
       [Supabase.eq Supabase.col_user_id (Auth.id u);
        Supabase.gte Supabase.col_date since];
     Supabase.order := Some (Supabase.col_date, false);
     Supabase.limit := Some 10%nat |}.

(** [loadAttendanceRecords] at the moment [now] against the table; [since]
    is the day key of [thirtyDaysAgo], which the page computes in local
    time. *)
Definition load (now : JS.Date) (since : string)
    (netToday netRecent : option string) (table : list Supabase.Row)
    (s : State) : State * list Event :=
  match user s with
  | None => (s, [])
  | Some u =>
      loadAttendanceRecords
        (Supabase.answer netToday
           (Supabase.maybeSingle
              (Supabase.select table (todayQuery u (JS.toISODate now)))))
        (Supabase.answer netRecent
           (Supabase.ok (Supabase.select table (recentQuery u since))))
        s
  end.

(** The effect [useEffect(..., [user])], run when [useAuth] hands the
    provider the user [u]. *)
Definition onUserChange (u : option Auth.User)
    (rToday : Supabase.Response Supabase.Row)
    (rRecent : Supabase.Response (list Supabase.Row))
    (s : State) : State * list Event :=
  let s := setUser u s in
  match u with
  | Some _ => loadAttendanceRecords rToday rRecent s
  | None => (setRecentRecords [] (setTodayRecord None s), [])
  end.

(** *** fetchAttendanceByDateRange *)

Definition rangeQuery (u : Auth.User) (fromDate toDate : string)
  : Supabase.Select :=
  {| Supabase.filters :=
       [Supabase.eq Supabase.col_user_id (Auth.id u);
        Supabase.gte Supabase.col_date fromDate;
        Supabase.lte Supabase.col_date toDate];
     Supabase.order := Some (Supabase.col_date, false);
     Supabase.limit := None |}.

Definition fetch_begin (range : DateRange) (s : State)
  : State * option Supabase.Select :=
  match user s, from range, to range with
  | Some u, Some f, Some t =>
      (setIsLoading true s,
       Some (rangeQuery u (JS.toISODate f) (JS.toISODate t)))
  | _, _, _ => (s, None)
  end.

Definition fetch_resume (r : Supabase.Response (list Supabase.Row))
    (s : State) : State * list Event * list AttendanceRecord :=
  match Supabase.error r with
  | Some _ =>
      (setIsLoading false s,
       [console_error "Failed to fetch attendance by date range";
        toast (error_loading
          "Could not load your attendance records for the selected date range.")],
       [])
  | None =>
      (setIsLoading false s, [],
       match Supabase.data r with
       | Some data => map format data
       | None => []
       end)
  end.

(** The call run against the table; [net] is the error of a call that
    does not get through, [None] when the table answers. *)
Definition fetchAttendanceByDateRange (net : option string)
    (table : list Supabase.Row) (range : DateRange) (s : State)
  : State * list Event * list AttendanceRecord :=
  match fetch_begin range s with
  | (s1, None) => (s1, [], [])
  | (s1, Some q) =>
      fetch_resume
        (Supabase.answer net (Supabase.ok (Supabase.select table q))) s1
  end.

(** *** Runs *)

(** An invocation with the answer the table gives to its request. *)
Inductive Call :=
| call_checkIn (now : JS.Date) (r : Supabase.Response Supabase.Row)
| call_checkOut (now : JS.Date) (r : Supabase.Response Supabase.Row).

Definition step (c : Call) (s : State) : State * list Event :=
  match c with
  | call_checkIn now r => checkIn now r s
  | call_checkOut now r => checkOut now r s
  end.

(** Invocations one after the other, each on the state the previous left. *)
Fixpoint run (cs : list Call) (s : State) : State * list Event :=
  match cs with
  | [] => (s, [])
  | c :: cs' =>
      let '(s1, evs1) := step c s in
      let '(s2, evs2) := run cs' s1 in
      (s2, evs1 ++ evs2)
  end.

(** The same against a table: an invocation names the identifier the
    table will assign and whether the call gets through. *)
Inductive Action :=
| do_checkIn (now : JS.Date) (fresh_id : string) (net : option string)
| do_checkOut (now : JS.Date) (net : option string).

Definition act (a : Action) (st : State * list Supabase.Row)
  : State * list Supabase.Row * list Event :=
  let '(s, table) := st in
  match a with
  | do_checkIn now fresh_id net =>
      match checkIn_begin now s with
      | (s1, evs, None) => (s1, table, evs)
      | (s1, evs, Some (c, q)) =>
          let '(table', r) :=
            match net with
            | Some e => (table, Supabase.failed e)
            | None => Supabase.insert fresh_id table q
            end in
          let '(s2, evs2) := checkIn_resume c r s1 in
          (s2, table', evs ++ evs2)
      end
  | do_checkOut now net =>
      match checkOut_begin now s with
      | (s1, evs, None) => (s1, table, evs)
      | (s1, evs, Some (c, q)) =>
          let '(table', r) :=
            match net with
            | Some e => (table, Supabase.failed e)
            | None => Supabase.update table q
            end in
          let '(s2, evs2) := checkOut_resume c r s1 in
          (s2, table', evs ++ evs2)
      end
  end.

Fixpoint perform (acts : list Action) (st : State * list Supabase.Row)
  : State * list Supabase.Row :=
  match acts with
  | [] => st
  | a :: acts' => perform acts' (fst (act a st))
  end.

(** The states the provider goes through when its operations run one
    after the other: every invocation and every load has had its answer
    before the next one starts or the user changes.  The states in which a
    user change or a second invocation falls between an [await] and its
    continuation are not among them; those are reached with the [_begin]
    and [_resume] parts above. *)
Inductive reachable : State -> Prop :=
| reach_initial : reachable initial
| reach_user u rToday rRecent s :
    reachable s -> reachable (fst (onUserChange u rToday rRecent s))
| reach_step c s :
    reachable s -> reachable (fst (step c s))
| reach_fetch net table range s :
    reachable s ->
    reachable (fst (fst (fetchAttendanceByDateRange net table range s))).

End Tracker.

End Remote.

(** ** The tracker on [localStorage] (the earlier AttendanceContext) *)

Module Local.

Record AttendanceRecord :=
  { id : string;
    userId : string;
    checkInTime : JS.Date;
    checkOutTime : option JS.Date;
    date : string }.

Record State :=
  { user : option Auth.User;
    todayRecord : option AttendanceRecord;
    recentRecords : list AttendanceRecord }.

Definition initial : State :=
  {| user := None; todayRecord := None; recentRecords := [] |}.

Definition setTodayRecord (r : option AttendanceRecord) (s : State) : State :=
  {| user := user s; todayRecord := r; recentRecords := recentRecords s |}.

Definition setRecentRecords (l : list AttendanceRecord) (s : State) : State :=
  {| user := user s; todayRecord := todayRecord s; recentRecords := l |}.

Definition setUser (u : option Auth.User) (s : State) : State :=
  {| user := u; todayRecord := todayRecord s; recentRecords := recentRecords s |}.

(** What a key of [localStorage] holds: a string [raw] on which
    [JSON.parse(raw).map(...)] throws, or the records that
    [JSON.stringify] wrote (their dates come back through [new Date]). *)
Inductive Item :=
| Garbled (raw : string)
| Encoded (records : list AttendanceRecord).

Definition key (u : Auth.User) : string := "attendance_" +:+ Auth.id u.

Inductive Event :=
| toast (t : Toast)
| console_error (msg : string).

Definition isCheckedIn (s : State) : bool :=
  match todayRecord s with
  | Some r => negb (bool_decide (is_Some (checkOutTime r)))
  | None => false
  end.

(** [sort((a, b) => b.checkInTime - a.checkInTime)]: newest first, and
    records with equal times keep their order. *)
Fixpoint insert_newest_first (x : AttendanceRecord)
    (l : list AttendanceRecord) : list AttendanceRecord :=
  match l with
  | [] => [x]
  | y :: l' =>
      if checkInTime y <=? checkInTime x then x :: l
      else y :: insert_newest_first x l'
  end.

Definition sort_newest_first (l : list AttendanceRecord) : list AttendanceRecord :=
  foldr insert_newest_first [] l.

Section Tracker.

Variable L : Locale.

Definition already_checked_in (r : AttendanceRecord) : Toast :=
  {| variant := Some Default;
     title := "Already checked in";
     description := "You checked in at "
       +:+ toLocaleTimeString L (checkInTime r) +:+ " today." |}.

Definition checked_in (now : JS.Date) : Toast :=
  {| variant := None;
     title := "Checked in successfully";
     description := "You checked in at " +:+ toLocaleTimeString L now +:+ "." |}.

Definition already_checked_out (t : JS.Date) : Toast :=
  {| variant := Some Default;
     title := "Already checked out";
     description := "You checked out at "
       +:+ toLocaleTimeString L t +:+ " today." |}.

Definition checked_out (now : JS.Date) : Toast :=
  {| variant := None;
     title := "Checked out successfully";
     description := "You checked out at " +:+ toLocaleTimeString L now +:+ "." |}.

Definition loadAttendanceRecords (now : JS.Date)
    (store : gmap string Item) (s : State) : State * list Event :=
  match user s with
  | None => (s, [])
  | Some u =>
      match store !! key u with
      | None => (s, [])
      | Some (Garbled raw) =>
          if String.eqb raw "" then (s, [])
          else (s, [console_error "Failed to load attendance records"])
      | Some (Encoded parsedRecords) =>
          let today := toLocaleDateString L now in
          let todayRec :=
            List.find (fun record => String.eqb (date record) today)
              parsedRecords in
          (setRecentRecords (sort_newest_first parsedRecords)
             (setTodayRecord todayRec s), [])
      end
  end.

Definition saveAttendanceRecords (records : list AttendanceRecord)
    (store : gmap string Item) (s : State) : gmap string Item :=
  match user s with
  | None => store
  | Some u => <[key u := Encoded records]> store
  end.

(** The effect [useEffect(..., [user])]. *)
Definition onUserChange (u : option Auth.User) (now : JS.Date)
    (store : gmap string Item) (s : State) : State * list Event :=
  let s := setUser u s in
  match u with
  | Some _ => loadAttendanceRecords now store s
  | None => (setRecentRecords [] (setTodayRecord None s), [])
  end.

(** [checkIn]; [now] is [new Date()] and [stamp] the later [Date.now()]
    that becomes the identifier. *)
Definition checkIn (now stamp : JS.Date)
    (st : State * gmap string Item)
  : State * gmap string Item * list Event :=
  let '(s, store) := st in
  match user s with
  | None => (s, store, [])
  | Some u =>
      match todayRecord s with
      | Some r => (s, store, [toast (already_checked_in r)])
      | None =>
          let newRecord :=
            {| id := JS.Number_toString stamp;
               userId := Auth.id u;
               checkInTime := now;
               checkOutTime := None;
               date := toLocaleDateString L now |} in
          let updatedRecords := newRecord :: recentRecords s in
          (setRecentRecords updatedRecords (setTodayRecord (Some newRecord) s),
           saveAttendanceRecords updatedRecords store s,
           [toast (checked_in now)])
      end
  end.

Definition checkOut (now : JS.Date) (st : State * gmap string Item)
  : State * gmap string Item * list Event :=
  let '(s, store) := st in
  match user s, todayRecord s with
  | Some u, Some today =>
      match checkOutTime today with
      | Some t => (s, store, [toast (already_checked_out t)])
      | None =>
          let updatedRecord :=
            {| id := id today; userId := userId today;
               checkInTime := checkInTime today;
               checkOutTime := Some now; date := date today |} in
          let updatedRecords :=
            map (fun record =>
                   if String.eqb (id record) (id updatedRecord)
                   then updatedRecord else record) (recentRecords s) in
          (setRecentRecords updatedRecords
             (setTodayRecord (Some updatedRecord) s),
           saveAttendanceRecords updatedRecords store s,
           [toast (checked_out now)])
      end
  | _, _ => (s, store, [])
  end.

Inductive Call :=
| call_checkIn (now stamp : JS.Date)
| call_checkOut (now : JS.Date).

Definition step (c : Call) (st : State * gmap string Item)
  : State * gmap string Item * list Event :=
  match c with
  | call_checkIn now stamp => checkIn now stamp st
  | call_checkOut now => checkOut now st
  end.

Fixpoint run (cs : list Call) (st : State * gmap string Item)
  : State * gmap string Item :=
  match cs with
  | [] => st
  | c :: cs' => run cs' (fst (step c st))
  end.

(** The states the provider goes through, whatever the storage holds. *)
Inductive reachable : State -> Prop :=
| reach_initial : reachable initial
| reach_user u now store s :
    reachable s -> reachable (fst (onUserChange u now store s))
| reach_step c store s :
    reachable s -> reachable (fst (fst (step c (s, store)))).

End Tracker.

End Local.

(** ** The functions of date-fns that the reports page calls *)

Module DateFns.

Definition differenceInMilliseconds (dateLeft dateRight : JS.Date) : Z :=
  dateLeft - dateRight.

(** The number of full hours between the dates, rounded towards zero. *)
Definition differenceInHours (dateLeft dateRight : JS.Date) : Z :=
  differenceInMilliseconds dateLeft dateRight ÷ 3600000.

(** The number of full minutes between the dates, rounded towards zero. *)
Definition differenceInMinutes (dateLeft dateRight : JS.Date) : Z :=
  differenceInMilliseconds dateLeft dateRight ÷ 60000.

End DateFns.

(** ** The reports page *)

Module Reports.

Record AttendanceReport :=
  { id : string;
    date : string;
    checkInTime : string;
    checkOutTime : option string;
    duration : string }.

(** The line feed that the page writes as a backslash followed by n. *)
Definition LF : string := String "010"%char EmptyString.

(** [`${hours}h ${minutes}m`] *)
Definition hm (hours minutes : Z) : string :=
  JS.Number_toString hours +:+ "h " +:+ JS.Number_toString minutes +:+ "m".

(** The duration that [generateReport] computes for a record. *)
Definition duration_of (record : Remote.AttendanceRecord) : string :=
  match Remote.check_out_time record with
  | Some check_out_time =>
      let hours :=
        DateFns.differenceInHours check_out_time (Remote.check_in_time record) in
      let minutes :=
        Z.rem (DateFns.differenceInMinutes check_out_time
                 (Remote.check_in_time record)) 60 in
      hm hours minutes
  | None => "In progress"
  end.

(** [a || b] on a string that may be [null]: the empty string is falsy too. *)
Definition or_else (a : option string) (b : string) : string :=
  match a with
  | Some s => if String.eqb s "" then b else s
  | None => b
  end.

Definition csvHeader : string :=
  "Date,Check In Time,Check Out Time,Duration" +:+ LF.

Definition csvRow (record : AttendanceReport) : string :=
  date record +:+ "," +:+ checkInTime record +:+ ","
    +:+ or_else (checkOutTime record) "Not checked out" +:+ ","
    +:+ duration record.

(** The link that [downloadCSV] clicks. *)
Record Download := { download : string; type : string; content : string }.

(** [reduce] step of the total: [total + parseInt(duration.split('h')[0])],
    [None] being [NaN]. *)
Definition add_hours (total : option Z) (record : AttendanceReport) : option Z :=
  if String.eqb (duration record) "In progress" then total
  else
    match total, JS.parseInt (JS.split_head "h" (duration record)) with
    | Some t, Some hours => Some (t + hours)
    | _, _ => None
    end.

Definition totalDays (reportData : list AttendanceReport) : Z :=
  Z.of_nat (length reportData).

Definition totalHours (reportData : list AttendanceReport) : option Z :=
  fold_left add_hours reportData (Some 0).

(** What the summary shows as the average: the number [0], or the string
    of [toFixed(1)]. *)
Inductive Average :=
| zero
| fixed (digits : string).

(** [totalDays > 0 ? (totalHours / totalDays).toFixed(1) : 0]; [None] only
    where [JS.toFixed1] is. *)
Definition averageHoursPerDay (reportData : list AttendanceReport)
  : option Average :=
  if 0 <? totalDays reportData then
    match totalHours reportData with
    | Some t =>
        option_map fixed
          (JS.toFixed1 (PrimFloat.div (JS.Number_of_Z t)
                          (JS.Number_of_Z (totalDays reportData))))
    | None => Some (fixed "NaN")
    end
  else Some zero.

Section Page.

(** [format(date, pattern)] of date-fns, in the browser's time zone, and
    [new Date(s)] on a day key. *)
Variable format : JS.Date -> string -> string.
Variable new_Date : string -> JS.Date.

(** The row that [generateReport] makes of a record. *)
Definition report_of (record : Remote.AttendanceRecord) : AttendanceReport :=
  {| id := Remote.id record;
     date := format (new_Date (Remote.date record)) "yyyy-MM-dd";
     checkInTime := format (Remote.check_in_time record) "HH:mm:ss";
     checkOutTime :=
       option_map (fun t => format t "HH:mm:ss") (Remote.check_out_time record);
     duration := duration_of record |}.

(** [formattedReport]: the report data set for the records fetched. *)
Definition formattedReport (records : list Remote.AttendanceRecord)
  : list AttendanceReport :=
  map report_of records.

(** [generateReport] on the page state [reportData]: nothing without both
    ends of the range, else the fetched records, formatted, become the data. *)
Definition generateReport (net : option string) (table : list Supabase.Row)
    (dateRange : Remote.DateRange) (s : Remote.State)
    (reportData : list AttendanceReport)
  : Remote.State * list Remote.Event * list AttendanceReport :=
  match Remote.from dateRange, Remote.to dateRange with
  | Some _, Some _ =>
      let '(s', evs, records) :=
        Remote.fetchAttendanceByDateRange net table dateRange s in
      (s', evs, formattedReport records)
  | _, _ => (s, [], reportData)
  end.

(** [downloadCSV] at the moment [now]: the file offered, if any. *)
Definition downloadCSV (now : JS.Date) (reportData : list AttendanceReport)
  : option Download :=
  match reportData with
  | [] => None
  | _ =>
      let csvRows := String.concat LF (map csvRow reportData) in
      Some {| download :=
                "attendance_report_" +:+ format now "yyyy-MM-dd" +:+ ".csv";
              type := "text/csv;charset=utf-8;";
              content := csvHeader +:+ csvRows |}
  end.

End Page.

(** [disabled] of the download button. *)
Definition download_disabled (reportData : list AttendanceReport)
    (s : Remote.State) : bool :=
  (length reportData =? 0)%nat || Remote.isLoading s.

End Reports.

(** ** The dashboards *)

Module Dashboard.

(** [disabled] of the two buttons of src/pages/Dashboard.tsx. *)
Definition checkIn_disabled (s : Remote.State) : bool :=
  bool_decide (is_Some (Remote.todayRecord s)) || Remote.isLoading s.

Definition checkOut_disabled (s : Remote.State) : bool :=
  negb (Remote.isCheckedIn s) || Remote.isLoading s.

(** The status line: [isCheckedIn ? ... : todayRecord?.check_out_time ? ... : ...]. *)
Inductive Status := CheckedIn | CheckedOut | NotCheckedIn.

Definition status (s : Remote.State) : Status :=
  if Remote.isCheckedIn s then CheckedIn
  else
    match Remote.todayRecord s with
    | Some r =>
        match Remote.check_out_time r with
        | Some _ => CheckedOut
        | None => NotCheckedIn
        end
    | None => NotCheckedIn
    end.

End Dashboard.

Module LegacyDashboard.

(** [calculateDuration] of the earlier dashboard. [Math.floor] of a
    quotient is [/] on integers, [%] is [Z.rem]. *)
Definition calculateDuration (checkIn : JS.Date) (checkOut : option JS.Date)
  : string :=
  match checkOut with
  | None => "In progress"
  | Some checkOut =>
      let diff := checkOut - checkIn in
      let hours := diff / (1000 * 60 * 60) in
      let minutes := Z.rem diff (1000 * 60 * 60) / (1000 * 60) in
      Reports.hm hours minutes
  end.

(** What the card of the day offers: the check-in button without a record,
    the check-out button with a record not checked out, else the badge
    "Completed for today". *)
Inductive Footer := CheckInButton | CheckOutButton | CompletedBadge.

Definition footer (s : Local.State) : Footer :=
  match Local.todayRecord s with
  | None => CheckInButton
  | Some todayRecord =>
      match Local.checkOutTime todayRecord with
      | None => CheckOutButton
      | Some _ => CompletedBadge
      end
  end.

End LegacyDashboard.

(** ** Vocabulary of the properties *)

(** Every character of [s] is a decimal digit. *)
Fixpoint all_digits (s : string) : bool :=
  match s with
  | EmptyString => true
  | String c s' =>
      match JS.digit_val c with
      | Some d => (d <? 10) && all_digits s'
      | None => false
      end
  end.

(** The character [c] does not occur in [s]. *)
Fixpoint lacks (c : ascii) (s : string) : bool :=
  match s with
  | EmptyString => true
  | String c' s' => negb (Ascii.eqb c' c) && lacks c s'
  end.

(** The lines of a text: its pieces between line feeds. *)
Fixpoint lines (s : string) : list string :=
  match s with
  | EmptyString => [EmptyString]
  | String c s' =>
      if Ascii.eqb c "010" then EmptyString :: lines s'
      else match lines s' with
           | l :: ls => String c l :: ls
           | [] => [String c EmptyString]
           end
  end.

(** [d] milliseconds are [h] whole hours and [m] whole minutes more, with
    less than a minute left over. *)
Definition hours_minutes_of (d h m : Z) : Prop :=
  0 <= m < 60 /\
  h * 3600000 + m * 60000 <= d < h * 3600000 + (m + 1) * 60000.

(** The whole hours a record contributes to the total of the summary:
    those of its duration when it is completed, none while in progress. *)
Definition whole_hours (record : Remote.AttendanceRecord) : Z :=
  match Remote.check_out_time record with
  | Some check_out_time =>
      (check_out_time - Remote.check_in_time record) ÷ 3600000
  | None => 0
  end.

(** The finite double with mantissa [m] and exponent [e] as a fraction. *)
Definition numerator (m e : Z) : Z := if 0 <=? e then m * 2 ^ e else m.
Definition denominator (e : Z) : Z := if 0 <=? e then 1 else 2 ^ (- e).

(** [k] tenths are a nearest decimal with one digit to [num / den]. *)
Definition nearest_tenth_of (num den k : Z) : Prop :=
  (2 * k - 1) * den <= 20 * num < (2 * k + 1) * den.

(** The pair that is to be unique among the rows of the table. *)
Definition row_key (r : Supabase.Row) : string * string :=
  (Supabase.user_id r, Supabase.date r).


(** The time that the first successful [checkOut] of a run records. *)
Fixpoint remote_first_checkOut (cs : list Remote.Call) : option JS.Date :=
  match cs with
  | [] => None
  | Remote.call_checkIn _ _ :: cs' => remote_first_checkOut cs'
  | Remote.call_checkOut _ r :: cs' =>
      match Supabase.error r, Supabase.data r with
      | None, Some row => Some (default 0 (Supabase.check_out_time row))
      | _, _ => remote_first_checkOut cs'
      end
  end.

Fixpoint local_first_checkOut (cs : list Local.Call) : option JS.Date :=
  match cs with
  | [] => None
  | Local.call_checkIn _ _ :: cs' => local_first_checkOut cs'
  | Local.call_checkOut now :: _ => Some now
  end.

(** The row is one of user [uid] and its day lies in the closed range. *)
Definition in_rangeb (uid fromDate toDate : string) (row : Supabase.Row) : bool :=
  String.eqb (Supabase.user_id row) uid
  && String.leb fromDate (Supabase.date row)
  && String.leb (Supabase.date row) toDate.

(** The record is one of user [uid] and its day lies in the closed range. *)
Definition in_range (uid fromDate toDate : string)
    (r : Remote.AttendanceRecord) : Prop :=
  Remote.user_id r = uid
  /\ String.leb fromDate (Remote.date r) = true
  /\ String.leb (Remote.date r) toDate = true.

(** In a list ordered by date descending, [a] may stand before [b]. *)
Definition newest_day_first (a b : Remote.AttendanceRecord) : Prop :=
  String.leb (Remote.date b) (Remote.date a) = true.

(** Two check-ins that overlap: the second starts while the first is at its
    [await]; the table then answers the first, then the second. *)
Definition overlapping_checkIns (L : Locale) (now1 now2 : JS.Date)
    (id1 id2 : string) (s : Remote.State) (table : list Supabase.Row)
  : option (Remote.State * list Supabase.Row) :=
  match Remote.checkIn_begin L now1 s with
  | (s1, _, Some (c1, q1)) =>
      match Remote.checkIn_begin L now2 s1 with
      | (s2, _, Some (c2, q2)) =>
          let '(table1, r1) := Supabase.insert id1 table q1 in
          let '(s3, _) := Remote.checkIn_resume L c1 r1 s2 in
          let '(table2, r2) := Supabase.insert id2 table1 q2 in
          let '(s4, _) := Remote.checkIn_resume L c2 r2 s3 in
          Some (s4, table2)
      | _ => None
      end
  | _ => None
  end.

(** How far the record of the day has come: absent, checked in, checked out. *)
Definition remote_phase (s : Remote.State) : nat :=
  match Remote.todayRecord s with
  | None => 0
  | Some r => match Remote.check_out_time r with Some _ => 2 | None => 1 end
  end.

Definition local_phase (s : Local.State) : nat :=
  match Local.todayRecord s with
  | None => 0
  | Some r => match Local.checkOutTime r with Some _ => 2 | None => 1 end
  end.

(** In a list with the newest check-in first, [a] may stand before [b]. *)
Definition newest_first (a b : Local.AttendanceRecord) : Prop :=
  Local.checkInTime b <= Local.checkInTime a.

(** The pieces of [s] between the occurrences of [sep]. *)
Fixpoint split_on (sep : ascii) (s : string) : list string :=
  match s with
  | EmptyString => [EmptyString]
  | String c s' =>
      if Ascii.eqb c sep then EmptyString :: split_on sep s'
      else match split_on sep s' with
           | l :: ls => String c l :: ls
           | [] => [String c EmptyString]
           end
  end.

(** The row whose check-out column has been set. *)
Definition checked_out_at (t : JS.Date) (row : Supabase.Row) : Supabase.Row :=
  {| Supabase.id := Supabase.id row; Supabase.user_id := Supabase.user_id row;
     Supabase.check_in_time := Supabase.check_in_time row;
     Supabase.check_out_time := Some t; Supabase.date := Supabase.date row |}.

(** ** Sample data *)

(** A stand-in for [format] of date-fns: UTC, the two patterns of the page. *)
Definition sample_format (t : JS.Date) (pattern : string) : string :=
  if String.eqb pattern "yyyy-MM-dd" then JS.toISODate t
  else JS.pad 2 ((t / 3600000) mod 24) +:+ ":" +:+ JS.pad 2 ((t / 60000) mod 60)
       +:+ ":" +:+ JS.pad 2 ((t / 1000) mod 60).

(** [new Date(s)] on the day keys of the samples. *)
Definition sample_new_Date (s : string) : JS.Date :=
  if String.eqb s "2024-01-03" then 1704240000000
  else if String.eqb s "2024-01-02" then 1704153600000
  else 1704067200000.

Definition sample_locale : Locale :=
  {| toLocaleTimeString := fun t => sample_format t "HH:mm:ss";
     toLocaleDateString := JS.toISODate |}.

Definition alice : Auth.User :=
  {| Auth.id := "u1"; Auth.email := "alice@example.org"; Auth.name := "alice" |}.

Definition bob : Auth.User :=
  {| Auth.id := "u2"; Auth.email := "bob@example.org"; Auth.name := "bob" |}.

Definition sample_row : Supabase.Row :=
  {| Supabase.id := "r1"; Supabase.user_id := "u1";
     Supabase.check_in_time := 1704096000000;
     Supabase.check_out_time := None;
     Supabase.date := "2024-01-01" |}.

(** Alice signed in, not checked in yet. *)
Definition signed_in : Remote.State :=
  {| Remote.user := Some alice; Remote.todayRecord := None;
     Remote.recentRecords := []; Remote.isLoading := false |}.

(** Alice checked in at eight. *)
Definition checked_in_state : Remote.State :=
  {| Remote.user := Some alice;
     Remote.todayRecord := Some (Remote.format sample_row);
     Remote.recentRecords := [Remote.format sample_row];
     Remote.isLoading := false |}.

Definition sample_record : Remote.AttendanceRecord :=
  {| Remote.id := "r1"; Remote.user_id := "u1";
     Remote.check_in_time := 1704096000000;
     Remote.check_out_time := Some 1704104100000;
     Remote.date := "2024-01-01" |}.

Definition sample_records : list Remote.AttendanceRecord :=
  [ {| Remote.id := "r3"; Remote.user_id := "u1";
       Remote.check_in_time := 1704268800000;
       Remote.check_out_time := None;
       Remote.date := "2024-01-03" |};
    {| Remote.id := "r2"; Remote.user_id := "u1";
       Remote.check_in_time := 1704182400000;
       Remote.check_out_time := Some 1704202800000;
       Remote.date := "2024-01-02" |};
    sample_record ].

Definition checked_out_row (t : JS.Date) : Supabase.Row :=
  {| Supabase.id := "r1"; Supabase.user_id := "u1";
     Supabase.check_in_time := 1704096000000;
     Supabase.check_out_time := Some t;
     Supabase.date := "2024-01-01" |}.

Definition alice_record : Local.AttendanceRecord :=
  {| Local.id := "1704096000001"; Local.userId := "u1";
     Local.checkInTime := 1704096000000; Local.checkOutTime := None;
     Local.date := "2024-01-01" |}.

(** Alice's records are stored well, Bob's item is not JSON. *)
Definition sample_store : gmap string Local.Item :=
  <[Local.key bob := Local.Garbled "{oops"]>
    (<[Local.key alice := Local.Encoded [alice_record]]> ∅).

Definition january : Remote.DateRange :=
  {| Remote.from := Some 1704067200000; Remote.to := Some 1706659200000 |}.

Definition sample_table : list Supabase.Row :=
  [ {| Supabase.id := "r0"; Supabase.user_id := "u1";
       Supabase.check_in_time := 1703923200000;
       Supabase.check_out_time := Some 1703952000000;
       Supabase.date := "2023-12-30" |};
    sample_row;
    {| Supabase.id := "r9"; Supabase.user_id := "u2";
       Supabase.check_in_time := 1704182400000;
       Supabase.check_out_time := None;
       Supabase.date := "2024-01-02" |};
    {| Supabase.id := "r2"; Supabase.user_id := "u1";
       Supabase.check_in_time := 1706688000000;
       Supabase.check_out_time := Some 1706716800000;
       Supabase.date := "2024-01-31" |};
    {| Supabase.id := "r3"; Supabase.user_id := "u1";
       Supabase.check_in_time := 1706774400000;
       Supabase.check_out_time := None;
       Supabase.date := "2024-02-01" |} ].

(** * Properties *)

(** ** The built-ins on sample inputs *)

Example toISODate_epoch : JS.toISODate 0 = "1970-01-01".
Proof. reflexivity. Qed.

Example toISODate_2024 : JS.toISODate 1704067200000 = "2024-01-01".
Proof. vm_compute. reflexivity. Qed.

Example toISODate_leap_day : JS.toISODate 951868799999 = "2000-02-29".
Proof. vm_compute. reflexivity. Qed.

Example toISODate_before_epoch : JS.toISODate (-1) = "1969-12-31".
Proof. vm_compute. reflexivity. Qed.

Example parseInt_hours : JS.parseInt "12" = Some 12.
Proof. reflexivity. Qed.

Example parseInt_negative : JS.parseInt "-3" = Some (-3).
Proof. reflexivity. Qed.

Example parseInt_NaN : JS.parseInt "In progress" = None.
Proof. reflexivity. Qed.

Example toFixed1_3_20 :
  JS.toFixed1 (PrimFloat.div (JS.Number_of_Z 3) (JS.Number_of_Z 20)) = Some "0.1".
Proof. vm_compute. reflexivity. Qed.

Example toFixed1_1_4 :
  JS.toFixed1 (PrimFloat.div (JS.Number_of_Z 1) (JS.Number_of_Z 4)) = Some "0.3".
Proof. vm_compute. reflexivity. Qed.

Example toFixed1_7_3 :
  JS.toFixed1 (PrimFloat.div (JS.Number_of_Z 7) (JS.Number_of_Z 3)) = Some "2.3".
Proof. vm_compute. reflexivity. Qed.

(** ** Printing and reading numbers *)

Section Numbers.

Lemma string_of_uint_all_digits d :
  all_digits (NilEmpty.string_of_uint d) = true.
Proof. induction d; simpl; auto. Qed.

Ltac eval_digit :=
  match goal with
  | |- context [JS.digit_val ?c] =>
      let v := eval vm_compute in (JS.digit_val c) in
      change (JS.digit_val c) with v
  end; cbv iota beta;
  match goal with
  | |- context [?k <? 10] => change (k <? 10) with true
  end; cbv iota beta.

Lemma parse_digits_acc d : forall acc,
  JS.parse_digits 10 (Some (Z.pos acc)) (NilEmpty.string_of_uint d)
  = Some (Z.pos (Pos.of_uint_acc d acc)).
Proof.
  induction d; intros acc; simpl NilEmpty.string_of_uint;
    [reflexivity | ..]; cbn [JS.parse_digits]; eval_digit;
    simpl Pos.of_uint_acc; rewrite <- IHd; do 2 f_equal;
    cbv [default from_option id]; lia.
Qed.

Lemma parse_digits_zero d :
  JS.parse_digits 10 (Some 0) (NilEmpty.string_of_uint d)
  = Some (Z.of_N (Pos.of_uint d)).
Proof.
  induction d; simpl NilEmpty.string_of_uint;
    [reflexivity | ..]; cbn [JS.parse_digits]; eval_digit;
    cbv [default from_option id]; simpl Pos.of_uint; simpl Z.add;
    solve [ exact IHd | apply parse_digits_acc ].
Qed.

Lemma parse_digits_start d :
  d <> Decimal.Nil ->
  JS.parse_digits 10 None (NilEmpty.string_of_uint d)
  = Some (Z.of_N (Pos.of_uint d)).
Proof.
  intros Hd. rewrite <- parse_digits_zero.
  destruct d; [congruence | ..]; reflexivity.
Qed.

Lemma digit_not_sign c d :
  JS.digit_val c = Some d -> (d <? 10) = true ->
  JS.is_white c = false /\ Ascii.eqb c "-" = false /\ Ascii.eqb c "+" = false
  /\ Ascii.eqb c "x" = false /\ Ascii.eqb c "X" = false
  /\ Ascii.eqb c "h" = false.
Proof.
  intros Hc Hd.
  destruct c as [[] [] [] [] [] [] [] []]; vm_compute in Hc;
    try discriminate Hc; injection Hc as <-; vm_compute in Hd;
    try discriminate Hd; repeat split; reflexivity.
Qed.

Lemma read_radix_digits s :
  all_digits s = true -> JS.read_radix s = (10, s).
Proof.
  destruct s as [|c0 [|c1 s']]; try reflexivity. simpl.
  destruct (JS.digit_val c0) as [d0|]; [|discriminate].
  destruct (JS.digit_val c1) as [d1|] eqn:Hc1;
    [|rewrite andb_false_r; discriminate].
  intros H. apply andb_prop in H as [_ H]. apply andb_prop in H as [Hd1 _].
  destruct (digit_not_sign _ _ Hc1 Hd1) as (_ & _ & _ & -> & -> & _).
  now rewrite andb_false_r.
Qed.

Lemma read_sign_digits s :
  all_digits s = true -> JS.read_sign (JS.trimStart s) = (1, s).
Proof.
  destruct s as [|c s']; [reflexivity|]. cbn [all_digits].
  destruct (JS.digit_val c) as [d|] eqn:Hc; [|discriminate].
  intros H. apply andb_prop in H as [Hd _].
  destruct (digit_not_sign _ _ Hc Hd) as (Hw & Hm & Hp & _).
  cbn [JS.trimStart]. rewrite Hw. cbn [JS.read_sign]. now rewrite Hm, Hp.
Qed.

Lemma Number_toString_nonneg n :
  0 <= n ->
  exists d, d <> Decimal.Nil /\ JS.Number_toString n = NilEmpty.string_of_uint d
            /\ Z.of_N (Pos.of_uint d) = n.
Proof.
  intros Hn. unfold JS.Number_toString. destruct n as [|p|p]; [| |lia].
  - exists (Decimal.D0 Decimal.Nil). repeat split; congruence.
  - exists (Pos.to_uint p). pose proof (Unsigned.to_uint_nonnil p) as Hp.
    split; [exact Hp|]. split.
    + simpl. destruct (Pos.to_uint p); [congruence | reflexivity ..].
    + now rewrite Unsigned.of_to.
Qed.

Lemma Number_toString_neg n :
  n < 0 ->
  JS.Number_toString n = String "-" (JS.Number_toString (- n)).
Proof. destruct n; try lia. reflexivity. Qed.

(** Reading back what was printed. *)
Lemma parseInt_Number_toString n :
  JS.parseInt (JS.Number_toString n) = Some n.
Proof.
  unfold JS.parseInt.
  destruct (Z_lt_le_dec n 0) as [Hn|Hn].
  - rewrite Number_toString_neg by exact Hn.
    destruct (Number_toString_nonneg (- n)) as (d & Hd & -> & Hv); [lia|].
    change (JS.read_sign (JS.trimStart (String "-" ?s))) with (-1, s).
    cbv beta iota.
    rewrite read_radix_digits by apply string_of_uint_all_digits.
    rewrite parse_digits_start by exact Hd. simpl. f_equal. lia.
  - destruct (Number_toString_nonneg n) as (d & Hd & -> & Hv); [lia|].
    rewrite read_sign_digits by apply string_of_uint_all_digits.
    cbv beta iota.
    rewrite read_radix_digits by apply string_of_uint_all_digits.
    rewrite parse_digits_start by exact Hd. simpl. f_equal. lia.
Qed.

Lemma all_digits_lacks_h s : all_digits s = true -> lacks "h" s = true.
Proof.
  induction s as [|c s IH]; [reflexivity|]. simpl.
  destruct (JS.digit_val c) as [d|] eqn:Hc; [|discriminate].
  intros H. apply andb_prop in H as [Hd Hs].
  destruct (digit_not_sign _ _ Hc Hd) as (_ & _ & _ & _ & _ & ->).
  simpl. auto.
Qed.

Lemma Number_toString_lacks_h n : lacks "h" (JS.Number_toString n) = true.
Proof.
  destruct (Z_lt_le_dec n 0) as [Hn|Hn].
  - rewrite Number_toString_neg by exact Hn.
    destruct (Number_toString_nonneg (- n)) as (d & Hd & -> & Hv); [lia|].
    simpl. apply all_digits_lacks_h, string_of_uint_all_digits.
  - destruct (Number_toString_nonneg n) as (d & Hd & -> & Hv); [lia|].
    apply all_digits_lacks_h, string_of_uint_all_digits.
Qed.

Lemma split_head_append c s rest :
  lacks c s = true -> JS.split_head c (s +:+ String c rest) = s.
Proof.
  induction s as [|c' s IH]; simpl.
  - now rewrite Ascii.eqb_refl.
  - intros H. apply andb_prop in H as [Hc Hs].
    apply negb_true_iff in Hc. rewrite Hc. now rewrite IH.
Qed.

(** The first character of a printed number is a digit or the minus sign. *)
Lemma Number_toString_head n :
  exists c s, JS.Number_toString n = String c s /\ Ascii.eqb c "I" = false.
Proof.
  destruct (Z_lt_le_dec n 0) as [Hn|Hn].
  - rewrite Number_toString_neg by exact Hn. eauto.
  - destruct (Number_toString_nonneg n) as (d & Hd & -> & Hv); [lia|].
    destruct d; [congruence | ..]; simpl; eauto.
Qed.

End Numbers.

(** ** Durations *)

Section Durations.

Lemma hm_not_in_progress h m : Reports.hm h m <> "In progress".
Proof.
  unfold Reports.hm.
  destruct (Number_toString_head h) as (c & s & -> & Hc).
  intros H. injection H as -> _. discriminate Hc.
Qed.

Lemma hm_hours h m : JS.split_head "h" (Reports.hm h m) = JS.Number_toString h.
Proof.
  unfold Reports.hm.
  apply (split_head_append "h" (JS.Number_toString h)),
    Number_toString_lacks_h.
Qed.

Lemma whole_hours_minutes d :
  0 <= d ->
  hours_minutes_of d (d ÷ 3600000) (Z.rem (d ÷ 60000) 60)
  /\ d / (1000 * 60 * 60) = d ÷ 3600000
  /\ Z.rem d (1000 * 60 * 60) / (1000 * 60) = Z.rem (d ÷ 60000) 60.
Proof.
  intros Hd. unfold hours_minutes_of.
  change (1000 * 60 * 60) with 3600000. change (1000 * 60) with 60000.
  rewrite !Z.quot_div_nonneg by lia.
  rewrite !Z.rem_mod_nonneg by (try apply Z.div_pos; lia).
  Z.to_euclidean_division_equations. lia.
Qed.

End Durations.

(** C3.  The duration of a record is the sentinel "In progress" when the
    check-out time is absent, in the report as on the earlier dashboard, and
    a completed record never shows the sentinel.  With a check-out time the
    text is the decimal numeral of the hours, the letter h, a space, the
    decimal numeral of the minutes and the letter m, the numerals being
    those of the standard decimal printer: in the report the hours are the
    difference divided by an hour and cut off towards zero and the minutes
    the whole minutes of the difference, cut off, that remain after the
    hours; on the earlier dashboard they are the same divisions rounded
    down.  For a check-out not before the check-in, as the data model
    requires, both show the same [h] and [m], the only ones with
    [0 <= m < 60] and less than one further minute left over: the difference
    is cut off and not rounded.  Two hours and fifteen minutes show as
    "2h 15m", and so do two hours fifteen minutes and 59.999 seconds; no
    time at all shows as "0h 0m", one millisecond less than an hour as
    "0h 59m", ten hours and five minutes as "10h 5m". *)
Theorem duration_sentinel_or_whole_hours_and_minutes
    (record : Remote.AttendanceRecord) :
  (Remote.check_out_time record = None ->
     Reports.duration_of record = "In progress"
     /\ LegacyDashboard.calculateDuration (Remote.check_in_time record) None
        = "In progress")
  /\ (forall check_out_time : JS.Date,
        Remote.check_out_time record = Some check_out_time ->
        let d := check_out_time - Remote.check_in_time record in
        let text (h m : Z) :=
          NilZero.string_of_int (Z.to_int h) +:+ "h "
            +:+ NilZero.string_of_int (Z.to_int m) +:+ "m" in
        let shown := Reports.duration_of record in
        let shown_before :=
          LegacyDashboard.calculateDuration (Remote.check_in_time record)
            (Some check_out_time) in
        shown = text (d ÷ 3600000) (Z.rem (d ÷ 60000) 60)
        /\ shown_before = text (d / 3600000) (Z.rem d 3600000 / 60000)
        /\ shown <> "In progress"
        /\ shown_before <> "In progress"
        /\ (Remote.check_in_time record <= check_out_time ->
            exists h m,
              hours_minutes_of d h m
              /\ (forall h' m', hours_minutes_of d h' m' -> h' = h /\ m' = m)
              /\ shown = text h m
              /\ shown_before = text h m)
        /\ (d = 2 * 3600000 + 15 * 60000 ->
            shown = "2h 15m" /\ shown_before = "2h 15m")
        /\ (d = 2 * 3600000 + 15 * 60000 + 59999 ->
            shown = "2h 15m" /\ shown_before = "2h 15m")
        /\ (d = 0 -> shown = "0h 0m" /\ shown_before = "0h 0m")
        /\ (d = 3599999 -> shown = "0h 59m" /\ shown_before = "0h 59m")
        /\ (d = 10 * 3600000 + 5 * 60000 ->
            shown = "10h 5m" /\ shown_before = "10h 5m")).
Proof.
  split.
  - intros H. unfold Reports.duration_of. rewrite H. split; reflexivity.
  - intros out H d text shown shown_before.
    assert (Hs : shown = text (d ÷ 3600000) (Z.rem (d ÷ 60000) 60)).
    { unfold shown, Reports.duration_of. rewrite H. reflexivity. }
    assert (Hb : shown_before = text (d / 3600000) (Z.rem d 3600000 / 60000)).
    { reflexivity. }
    split; [exact Hs|]. split; [exact Hb|].
    split.
    { unfold shown, Reports.duration_of. rewrite H. apply hm_not_in_progress. }
    split; [apply hm_not_in_progress|].
    split.
    { intros Hle. destruct (whole_hours_minutes d) as (Hhm & Hh & Hm); [lia|].
      exists (d ÷ 3600000), (Z.rem (d ÷ 60000) 60).
      split; [exact Hhm|]. split; [|split; [exact Hs|]].
      - unfold hours_minutes_of in *. intros h' m' H'. split; nia.
      - rewrite Hb. change (1000 * 60 * 60) with 3600000 in Hh, Hm.
        change (1000 * 60) with 60000 in Hm. now rewrite Hh, Hm. }
    repeat match goal with |- _ /\ _ => split end;
      intros E; rewrite Hs, Hb, E; split; vm_compute; reflexivity.
Qed.

Lemma duration_sentinel_or_whole_hours_and_minutes_witness :
  Reports.duration_of sample_record = "2h 15m"
  /\ LegacyDashboard.calculateDuration 1704096000000 (Some 1704104100000)
     = "2h 15m"
  /\ Reports.duration_of
       {| Remote.id := "r2"; Remote.user_id := "u1";
          Remote.check_in_time := 1704182400000;
          Remote.check_out_time := Some 1704202800000;
          Remote.date := "2024-01-02" |}
     = "5h 40m"
  /\ Reports.duration_of
       {| Remote.id := "r5"; Remote.user_id := "u1";
          Remote.check_in_time := 1704096000000;
          Remote.check_out_time := Some 1704268739999;
          Remote.date := "2024-01-01" |}
     = "47h 58m"
  /\ exists h m, hours_minutes_of 8100000 h m
       /\ Reports.duration_of sample_record
          = NilZero.string_of_int (Z.to_int h) +:+ "h "
              +:+ NilZero.string_of_int (Z.to_int m) +:+ "m".
Proof.
  destruct (duration_sentinel_or_whole_hours_and_minutes sample_record)
    as [_ H].
  destruct (H 1704104100000 eq_refl) as (_ & _ & _ & _ & Hle & H215 & _).
  destruct (H215 eq_refl) as [H1 H2].
  destruct (Hle ltac:(simpl; lia)) as (h & m & Hhm & _ & Hd & _).
  split; [exact H1|]. split; [exact H2|].
  split.
  { destruct (duration_sentinel_or_whole_hours_and_minutes
                {| Remote.id := "r2"; Remote.user_id := "u1";
                   Remote.check_in_time := 1704182400000;
                   Remote.check_out_time := Some 1704202800000;
                   Remote.date := "2024-01-02" |}) as [_ H'].
    destruct (H' 1704202800000 eq_refl) as (E & _). rewrite E.
    vm_compute. reflexivity. }
  split.
  { destruct (duration_sentinel_or_whole_hours_and_minutes
                {| Remote.id := "r5"; Remote.user_id := "u1";
                   Remote.check_in_time := 1704096000000;
                   Remote.check_out_time := Some 1704268739999;
                   Remote.date := "2024-01-01" |}) as [_ H'].
    destruct (H' 1704268739999 eq_refl) as (E & _). rewrite E.
    vm_compute. reflexivity. }
  exists h, m. split; [exact Hhm | exact Hd].
Defined.

(** ** The summary of the reports page *)

Section Summary.

Variable format : JS.Date -> string -> string.
Variable new_Date : string -> JS.Date.

Lemma add_hours_report_of (t : Z) (record : Remote.AttendanceRecord) :
  Reports.add_hours (Some t) (Reports.report_of format new_Date record)
  = Some (t + whole_hours record).
Proof.
  unfold Reports.add_hours, whole_hours, Reports.report_of,
    Reports.duration_of; cbn [Reports.duration].
  destruct (Remote.check_out_time record) as [out|].
  - destruct (String.eqb_spec
                (Reports.hm (DateFns.differenceInHours out (Remote.check_in_time record))
                   (Z.rem (DateFns.differenceInMinutes out (Remote.check_in_time record)) 60))
                "In progress") as [E|_].
    + now apply hm_not_in_progress in E.
    + rewrite hm_hours, parseInt_Number_toString. reflexivity.
  - simpl. f_equal. lia.
Qed.

Lemma totalHours_from (records : list Remote.AttendanceRecord) : forall t,
  fold_left Reports.add_hours (Reports.formattedReport format new_Date records)
    (Some t)
  = Some (t + foldr Z.add 0 (map whole_hours records)).
Proof.
  induction records as [|r records IH]; intros t; simpl.
  - f_equal. lia.
  - rewrite add_hours_report_of, IH. f_equal. lia.
Qed.

Lemma nearest_tenths_spec m e :
  0 < m ->
  nearest_tenth_of (numerator m e) (denominator e) (JS.nearest_tenths m e).
Proof.
  intros Hm. unfold nearest_tenth_of, numerator, denominator, JS.nearest_tenths.
  destruct (Z.leb_spec 0 e) as [He|He].
  - lia.
  - replace (- e + 1) with (Z.succ (- e)) by lia.
    rewrite Z.pow_succ_r by lia.
    assert (Hp : 0 < 2 ^ (- e)) by (apply Z.pow_pos_nonneg; lia).
    generalize dependent (2 ^ (- e)). intros p Hp.
    pose proof (Z.div_mod (20 * m + p) (2 * p) ltac:(lia)) as Hdm.
    pose proof (Z.mod_pos_bound (20 * m + p) (2 * p) ltac:(lia)) as Hb.
    nia.
Qed.

End Summary.

(** C10.  For the report data set made of the fetched records, the total of
    the summary is the sum of the whole hours of the completed records: the
    minutes of a duration are dropped and a record in progress adds nothing.
    The average is the number 0 when there is no row; otherwise it is
    [toFixed(1)] of the total divided by the number of rows.  For a
    quotient of zero that is the text "0.0".  For any other finite
    quotient, a double of magnitude [m * 2^e], it is the sign, the decimal
    numeral of the whole part, a point and one decimal digit, the numerals
    being those of the standard decimal printer, of the number of tenths
    nearest to the magnitude (the larger one of two equally near); and the
    text is there for every magnitude below [10^21 - 1/20]. *)
Theorem summary_total_whole_hours_and_average
    (format : JS.Date -> string -> string) (new_Date : string -> JS.Date)
    (records : list Remote.AttendanceRecord) :
  let reportData := Reports.formattedReport format new_Date records in
  let total := foldr Z.add 0 (map whole_hours records) in
  Reports.totalHours reportData = Some total
  /\ (records = [] -> Reports.averageHoursPerDay reportData = Some Reports.zero)
  /\ (records <> [] ->
      let q := PrimFloat.div (JS.Number_of_Z total)
                 (JS.Number_of_Z (Z.of_nat (length records))) in
      Reports.averageHoursPerDay reportData
        = option_map Reports.fixed (JS.toFixed1 q)
      /\ (forall s, Prim2SF q = S754_zero s ->
            Reports.averageHoursPerDay reportData = Some (Reports.fixed "0.0"))
      /\ (forall s m e digits,
            Prim2SF q = S754_finite s m e ->
            Reports.averageHoursPerDay reportData = Some (Reports.fixed digits) ->
            exists k,
              nearest_tenth_of (numerator (Z.pos m) e) (denominator e) k
              /\ 0 <= k
              /\ digits
                 = (if s then "-" else "")
                     +:+ NilZero.string_of_int (Z.to_int (k / 10)) +:+ "."
                     +:+ NilZero.string_of_int (Z.to_int (k mod 10)))
      /\ (forall s m e,
            Prim2SF q = S754_finite s m e ->
            20 * numerator (Z.pos m) e < (2 * 10 ^ 22 - 1) * denominator e ->
            exists digits,
              Reports.averageHoursPerDay reportData
              = Some (Reports.fixed digits))).
Proof.
  intros reportData total.
  assert (Ht : Reports.totalHours reportData = Some total).
  { unfold Reports.totalHours, reportData. now rewrite totalHours_from. }
  split; [exact Ht|]. split.
  - intros ->. reflexivity.
  - intros Hne q.
    assert (Hn : Reports.totalDays reportData = Z.of_nat (length records)).
    { unfold Reports.totalDays, reportData, Reports.formattedReport.
      now rewrite length_map. }
    assert (Havg : Reports.averageHoursPerDay reportData
                   = option_map Reports.fixed (JS.toFixed1 q)).
    { unfold Reports.averageHoursPerDay. rewrite Hn, Ht.
      destruct (Z.ltb_spec 0 (Z.of_nat (length records))) as [_|H0];
        [reflexivity|].
      destruct records; [congruence | simpl in H0; lia]. }
    split; [exact Havg|]. rewrite Havg. split; [|split].
    + intros s Hq. unfold JS.toFixed1. rewrite Hq. reflexivity.
    + intros s m e digits Hq Hd. unfold JS.toFixed1 in Hd. rewrite Hq in Hd.
      destruct (10 ^ 22 <=? JS.nearest_tenths (Z.pos m) e); [discriminate|].
      injection Hd as <-.
      pose proof (nearest_tenths_spec (Z.pos m) e ltac:(lia)) as Hk.
      exists (JS.nearest_tenths (Z.pos m) e).
      split; [exact Hk|]. split; [|reflexivity].
      unfold JS.nearest_tenths. destruct (Z.leb_spec 0 e) as [He|He].
      * assert (0 <= 2 ^ e) by (apply Z.pow_nonneg; lia).
        apply Z.mul_nonneg_nonneg; lia.
      * assert (0 < 2 ^ (- e)) by (apply Z.pow_pos_nonneg; lia).
        assert (0 < 2 ^ (- e + 1)) by (apply Z.pow_pos_nonneg; lia).
        apply Z.div_pos; lia.
    + intros s m e Hq Hlt. unfold JS.toFixed1. rewrite Hq.
      pose proof (nearest_tenths_spec (Z.pos m) e ltac:(lia)) as Hk.
      unfold nearest_tenth_of in Hk.
      assert (Hden : 0 < denominator e).
      { unfold denominator. destruct (Z.leb_spec 0 e); [lia|].
        apply Z.pow_pos_nonneg; lia. }
      destruct (Z.leb_spec (10 ^ 22) (JS.nearest_tenths (Z.pos m) e)) as [Hbig|_].
      * exfalso.
        assert ((2 * 10 ^ 22 - 1) * denominator e
                <= (2 * JS.nearest_tenths (Z.pos m) e - 1) * denominator e)
          by (apply Z.mul_le_mono_nonneg_r; lia).
        lia.
      * eexists. reflexivity.
Qed.

Lemma summary_total_whole_hours_and_average_witness :
  Reports.totalHours
    (Reports.formattedReport sample_format sample_new_Date sample_records)
  = Some 7
  /\ Reports.averageHoursPerDay
       (Reports.formattedReport sample_format sample_new_Date sample_records)
     = Some (Reports.fixed "2.3")
  /\ Reports.averageHoursPerDay
       (Reports.formattedReport sample_format sample_new_Date
          (sample_record :: sample_records))
     = Some (Reports.fixed "2.3")
  /\ Reports.averageHoursPerDay
       (Reports.formattedReport sample_format sample_new_Date
          (firstn 2 sample_records))
     = Some (Reports.fixed "2.5")
  /\ Reports.averageHoursPerDay
       (Reports.formattedReport sample_format sample_new_Date
          (firstn 1 sample_records))
     = Some (Reports.fixed "0.0")
  /\ Reports.averageHoursPerDay
       (Reports.formattedReport sample_format sample_new_Date
          [ {| Remote.id := "r6"; Remote.user_id := "u1";
               Remote.check_in_time := 0;
               Remote.check_out_time := Some 450000000;
               Remote.date := "1970-01-01" |} ])
     = Some (Reports.fixed "125.0")
  /\ exists k,
       nearest_tenth_of (numerator 5254199565265579 (-51)) (denominator (-51)) k
       /\ 0 <= k
       /\ "2.3" = "" +:+ NilZero.string_of_int (Z.to_int (k / 10)) +:+ "."
                     +:+ NilZero.string_of_int (Z.to_int (k mod 10)).
Proof.
  destruct (summary_total_whole_hours_and_average sample_format sample_new_Date
              sample_records) as (Ht & _ & Havg).
  split; [exact Ht|].
  destruct (Havg ltac:(discriminate)) as (H & _ & Hround & _).
  split; [rewrite H; vm_compute; reflexivity|].
  split.
  { destruct (summary_total_whole_hours_and_average sample_format
                sample_new_Date (sample_record :: sample_records))
      as (_ & _ & H'). destruct (H' ltac:(discriminate)) as (E & _).
    rewrite E. vm_compute. reflexivity. }
  split.
  { destruct (summary_total_whole_hours_and_average sample_format
                sample_new_Date (firstn 2 sample_records))
      as (_ & _ & H'). destruct (H' ltac:(discriminate)) as (E & _).
    rewrite E. vm_compute. reflexivity. }
  split.
  { destruct (summary_total_whole_hours_and_average sample_format
                sample_new_Date (firstn 1 sample_records))
      as (_ & _ & H'). destruct (H' ltac:(discriminate)) as (_ & E & _).
    apply (E false). vm_compute. reflexivity. }
  split.
  { destruct (summary_total_whole_hours_and_average sample_format
                sample_new_Date
                [ {| Remote.id := "r6"; Remote.user_id := "u1";
                     Remote.check_in_time := 0;
                     Remote.check_out_time := Some 450000000;
                     Remote.date := "1970-01-01" |} ])
      as (_ & _ & H'). destruct (H' ltac:(discriminate)) as (E & _).
    rewrite E. vm_compute. reflexivity. }
  apply (Hround false 5254199565265579%positive (-51) "2.3").
  - vm_compute. reflexivity.
  - rewrite H. vm_compute. reflexivity.
Defined.

(** ** The CSV export *)

Section CsvExport.

Lemma lines_single s : lacks "010" s = true -> lines s = [s].
Proof.
  induction s as [|c s IH]; [reflexivity|]. simpl.
  intros H. apply andb_prop in H as [Hc Hs]. apply negb_true_iff in Hc.
  rewrite Hc, IH by exact Hs. reflexivity.
Qed.

Lemma lines_append s rest :
  lacks "010" s = true ->
  lines (s +:+ Reports.LF +:+ rest) = s :: lines rest.
Proof.
  change (Reports.LF +:+ rest) with (String "010" rest).
  induction s as [|c s IH]; [reflexivity|]. simpl.
  intros H. apply andb_prop in H as [Hc Hs]. apply negb_true_iff in Hc.
  rewrite Hc. now rewrite IH.
Qed.

Lemma lines_concat (rows : list string) :
  rows <> [] ->
  Forall (fun row => lacks "010" row = true) rows ->
  lines (String.concat Reports.LF rows) = rows.
Proof.
  induction rows as [|row rows IH]; [congruence|]. intros _ H.
  apply Forall_cons in H as [Hrow Hrows].
  destruct rows as [|row' rows].
  - simpl. now apply lines_single.
  - change (String.concat Reports.LF (row :: row' :: rows))
      with (row +:+ Reports.LF +:+ String.concat Reports.LF (row' :: rows)).
    rewrite lines_append by exact Hrow. f_equal. now apply IH.
Qed.

End CsvExport.

(** C9.  The export offers no file for an empty report data set and a
    file otherwise.  The file is named [attendance_report_<yyyy-MM-dd>.csv];
    its content is the header line
    [Date,Check In Time,Check Out Time,Duration] followed by one line per
    record (the lines are the header and the rows, no field holding a line
    feed), and a record without check-out time has the text
    [Not checked out] in that column.  The export is a total function:
    nothing is thrown. *)
Theorem csv_export_header_rows_and_name
    (format : JS.Date -> string -> string) (now : JS.Date)
    (reportData : list Reports.AttendanceReport) :
  (reportData = [] -> Reports.downloadCSV format now reportData = None)
  /\ (reportData <> [] ->
      exists file,
        Reports.downloadCSV format now reportData = Some file
        /\ Reports.download file
           = "attendance_report_" +:+ format now "yyyy-MM-dd" +:+ ".csv"
        /\ Reports.content file
           = "Date,Check In Time,Check Out Time,Duration" +:+ Reports.LF
             +:+ String.concat Reports.LF (map Reports.csvRow reportData)
        /\ (Forall (fun record => lacks "010" (Reports.csvRow record) = true)
              reportData ->
            lines (Reports.content file)
            = "Date,Check In Time,Check Out Time,Duration"
                :: map Reports.csvRow reportData))
  /\ (forall record,
        Reports.checkOutTime record = None ->
        Reports.csvRow record
        = Reports.date record +:+ "," +:+ Reports.checkInTime record
            +:+ ",Not checked out," +:+ Reports.duration record).
Proof.
  split; [intros ->; reflexivity|]. split.
  - intros Hne. destruct reportData as [|r reportData]; [congruence|].
    eexists. split; [reflexivity|]. split; [reflexivity|].
    split; [reflexivity|].
    intros Hrows. cbn [Reports.content]. unfold Reports.csvHeader.
    change (("Date,Check In Time,Check Out Time,Duration" +:+ Reports.LF)
            +:+ ?rest)
      with ("Date,Check In Time,Check Out Time,Duration" +:+ Reports.LF +:+ rest).
    rewrite lines_append by reflexivity. f_equal.
    apply lines_concat; [discriminate|].
    apply Forall_map. exact Hrows.
  - intros record H. unfold Reports.csvRow. rewrite H. reflexivity.
Qed.

Lemma csv_export_header_rows_and_name_witness :
  Reports.downloadCSV sample_format 1704300000000 [] = None
  /\ exists file,
       Reports.downloadCSV sample_format 1704300000000
         (Reports.formattedReport sample_format sample_new_Date sample_records)
       = Some file
       /\ Reports.download file = "attendance_report_2024-01-03.csv"
       /\ lines (Reports.content file)
          = ["Date,Check In Time,Check Out Time,Duration";
             "2024-01-03,08:00:00,Not checked out,In progress";
             "2024-01-02,08:00:00,13:40:00,5h 40m";
             "2024-01-01,08:00:00,10:15:00,2h 15m"].
Proof.
  split.
  - destruct (csv_export_header_rows_and_name sample_format 1704300000000 [])
      as (H & _).
    exact (H eq_refl).
  - destruct (csv_export_header_rows_and_name sample_format 1704300000000
                (Reports.formattedReport sample_format sample_new_Date
                   sample_records)) as (_ & H & _).
    destruct (H ltac:(discriminate)) as (file & Hfile & Hname & _ & Hlines).
    exists file. split; [exact Hfile|]. split.
    + rewrite Hname. vm_compute. reflexivity.
    + rewrite Hlines; [vm_compute; reflexivity|].
      repeat constructor.
Defined.

(** ** The remote tracker, one invocation at a time *)

Section RemoteSteps.

Variable L : Locale.

Lemma remote_checkIn_today s r u now resp :
  Remote.todayRecord s = Some r -> Remote.user s = Some u ->
  Remote.checkIn L now resp s
  = (Remote.setIsLoading false s, [Remote.toast (Remote.already_checked_in L r)]).
Proof.
  intros Hr Hu. unfold Remote.checkIn, Remote.checkIn_begin.
  rewrite Hu, Hr. reflexivity.
Qed.

Lemma remote_checkOut_done s r t u now resp :
  Remote.todayRecord s = Some r -> Remote.check_out_time r = Some t ->
  Remote.user s = Some u ->
  Remote.checkOut L now resp s
  = (Remote.setIsLoading false s, [Remote.toast (Remote.already_checked_out L t)]).
Proof.
  intros Hr Ht Hu. unfold Remote.checkOut, Remote.checkOut_begin.
  rewrite Hu, Hr, Ht. reflexivity.
Qed.

(** What a step may do to [todayRecord]. *)
Lemma remote_step_today c s :
  Remote.todayRecord (fst (Remote.step L c s)) = Remote.todayRecord s
  \/ (exists row, Remote.todayRecord s = None
        /\ Remote.todayRecord (fst (Remote.step L c s)) = Some (Remote.format row))
  \/ (exists r row, Remote.todayRecord s = Some r
        /\ Remote.check_out_time r = None
        /\ Remote.todayRecord (fst (Remote.step L c s))
           = Some (Remote.format_checked_out row)).
Proof.
  destruct c as [now r|now r]; cbn [Remote.step].
  - unfold Remote.checkIn, Remote.checkIn_begin.
    destruct (Remote.user s) as [u|]; [|now left].
    destruct (Remote.todayRecord s) as [today|] eqn:Ht; [now left|].
    unfold Remote.checkIn_resume.
    destruct (Supabase.error r); [left; simpl; exact Ht|].
    destruct (Supabase.data r) as [row|]; [|left; simpl; exact Ht].
    right; left. exists row. split; reflexivity.
  - unfold Remote.checkOut, Remote.checkOut_begin.
    destruct (Remote.user s) as [u|]; [|now left].
    destruct (Remote.todayRecord s) as [today|] eqn:Ht; [|now left].
    destruct (Remote.check_out_time today) as [t|] eqn:Hout;
      [left; simpl; exact Ht|].
    unfold Remote.checkOut_resume.
    destruct (Supabase.error r); [left; simpl; exact Ht|].
    destruct (Supabase.data r) as [row|]; [|left; simpl; exact Ht].
    right; right. exists today, row. repeat split; assumption.
Qed.

Lemma remote_step_user c s :
  Remote.user (fst (Remote.step L c s)) = Remote.user s.
Proof.
  destruct c as [now r|now r]; cbn [Remote.step].
  - unfold Remote.checkIn, Remote.checkIn_begin.
    destruct (Remote.user s) as [u|] eqn:Hu; [|exact Hu].
    destruct (Remote.todayRecord s); [exact Hu|].
    unfold Remote.checkIn_resume.
    destruct (Supabase.error r), (Supabase.data r); exact Hu.
  - unfold Remote.checkOut, Remote.checkOut_begin.
    destruct (Remote.user s) as [u|] eqn:Hu; [|exact Hu].
    destruct (Remote.todayRecord s) as [today|]; [|exact Hu].
    destruct (Remote.check_out_time today); [exact Hu|].
    unfold Remote.checkOut_resume.
    destruct (Supabase.error r), (Supabase.data r); exact Hu.
Qed.

Lemma remote_run_cons c cs s :
  fst (Remote.run L (c :: cs) s) = fst (Remote.run L cs (fst (Remote.step L c s))).
Proof.
  cbn [Remote.run]. destruct (Remote.step L c s) as [s1 evs1]. cbn [fst].
  destruct (Remote.run L cs s1) as [s2 evs2]. reflexivity.
Qed.

(** A fetch touches nothing but the busy flag. *)
Lemma remote_fetch_frame net table range s :
  let s' := fst (fst (Remote.fetchAttendanceByDateRange net table range s)) in
  Remote.user s' = Remote.user s
  /\ Remote.todayRecord s' = Remote.todayRecord s
  /\ Remote.recentRecords s' = Remote.recentRecords s.
Proof.
  unfold Remote.fetchAttendanceByDateRange, Remote.fetch_begin.
  destruct (Remote.user s) eqn:Hu, (Remote.from range), (Remote.to range);
    try (cbn; rewrite ?Hu; repeat split; reflexivity).
  unfold Remote.fetch_resume.
  destruct net; cbn; rewrite ?Hu; repeat split; reflexivity.
Qed.

(** A user that has gone leaves no record behind in the states the
    provider goes through. *)
Lemma reachable_no_user s :
  Remote.reachable L s ->
  Remote.user s = None ->
  Remote.todayRecord s = None /\ Remote.recentRecords s = [].
Proof.
  induction 1 as [|u rToday rRecent s Hs IH|c s Hs IH|net table range s Hs IH].
  - intros _. split; reflexivity.
  - unfold Remote.onUserChange. destruct u as [u|].
    + unfold Remote.loadAttendanceRecords. cbn [Remote.user Remote.setUser].
      destruct (Supabase.error rToday); [discriminate|].
      destruct (Supabase.error rRecent); [discriminate|].
      destruct (Supabase.data rRecent); discriminate.
    + intros _. split; reflexivity.
  - rewrite remote_step_user. intros Hu. specialize (IH Hu) as [Ht Hr].
    destruct c as [now r|now r]; cbn [Remote.step].
    + unfold Remote.checkIn, Remote.checkIn_begin. rewrite Hu. now split.
    + unfold Remote.checkOut, Remote.checkOut_begin. rewrite Hu. now split.
  - destruct (remote_fetch_frame net table range s) as (-> & -> & ->).
    exact IH.
Qed.

Corollary reachable_today_has_user s r :
  Remote.reachable L s -> Remote.todayRecord s = Some r ->
  exists u, Remote.user s = Some u.
Proof.
  intros Hs Hr. destruct (Remote.user s) as [u|] eqn:Hu; [eauto|].
  destruct (reachable_no_user s Hs Hu) as [H _]. congruence.
Qed.

End RemoteSteps.

(** ** Runs of the remote tracker against the table *)

Section RemoteRuns.

Variable L : Locale.

Lemma update_keys table q :
  map row_key (fst (Supabase.update table q)) = map row_key table.
Proof.
  unfold Supabase.update.
  assert (H : map row_key (map (Supabase.set_check_out q) table)
              = map row_key table).
  { rewrite map_map. apply map_ext. intros r. unfold Supabase.set_check_out.
    destruct (String.eqb _ _); reflexivity. }
  destruct (List.filter _ _) as [|row [|row' rows]]; simpl; auto.
Qed.

(** What an action may do to the table and to [todayRecord]. *)
Lemma act_effect a s table :
  let s' := fst (fst (Remote.act L a (s, table))) in
  let table' := snd (fst (Remote.act L a (s, table))) in
  Remote.user s' = Remote.user s
  /\ (Remote.todayRecord s <> None -> Remote.todayRecord s' <> None)
  /\ (map row_key table' = map row_key table
      \/ exists u now fresh net,
           a = Remote.do_checkIn now fresh net
           /\ Remote.user s = Some u /\ Remote.todayRecord s = None
           /\ Remote.todayRecord s' <> None
           /\ map row_key table'
              = map row_key table ++ [(Auth.id u, JS.toISODate now)]).
Proof.
  destruct a as [now fresh net|now net]; cbn [Remote.act].
  - unfold Remote.checkIn_begin.
    destruct (Remote.user s) as [u|] eqn:Hu; [|cbn; auto].
    destruct (Remote.todayRecord s) as [today|] eqn:Ht.
    { cbn. rewrite Hu, Ht. repeat split; auto. }
    destruct net as [e|]; cbn.
    + rewrite Hu, Ht. repeat split; auto.
    + rewrite Hu. split; [reflexivity|]. split; [congruence|].
      right. exists u, now, fresh, None. repeat split; auto.
      now rewrite map_app.
  - unfold Remote.checkOut_begin.
    destruct (Remote.user s) as [u|] eqn:Hu; [|cbn; auto].
    destruct (Remote.todayRecord s) as [today|] eqn:Ht;
      [|cbn; rewrite Hu, Ht; auto].
    destruct (Remote.check_out_time today) as [t|] eqn:Hout.
    { cbn. rewrite Hu, Ht. repeat split; auto. }
    destruct net as [e|].
    + cbn. rewrite Hu, Ht. repeat split; auto.
    + pose proof (update_keys table
        {| Supabase.target_id := Remote.id today;
           Supabase.set_check_out_time := now |}) as Hk.
      destruct (Supabase.update table _) as [table' r]. cbn [fst] in Hk.
      unfold Remote.checkOut_resume.
      destruct (Supabase.error r), (Supabase.data r); cbn;
        rewrite ?Hu, ?Ht; repeat split; auto; discriminate.
Qed.

Lemma perform_cons a acts st :
  Remote.perform L (a :: acts) st = Remote.perform L acts (fst (Remote.act L a st)).
Proof. reflexivity. Qed.


Lemma NoDup_map_filter {A B} (f : A -> B) (P : A -> bool) (l : list A) :
  NoDup (map f l) -> NoDup (map f (List.filter P l)).
Proof.
  induction l as [|x l IH]; simpl; [auto|]. intros H.
  apply NoDup_cons in H as [Hx Hl]. destruct (P x); simpl; [|auto].
  apply NoDup_cons. split; [|auto].
  intros Hin. apply Hx. apply list_elem_of_In in Hin.
  apply in_map_iff in Hin as (y & Hy & Hin). apply filter_In in Hin as [Hin _].
  apply list_elem_of_In, in_map_iff. eauto.
Qed.

Lemma matches_todayQuery u today row :
  Supabase.matches (Supabase.filters (Remote.todayQuery u today)) row = true
  <-> row_key row = (Auth.id u, today).
Proof.
  unfold row_key. cbn. rewrite !andb_true_iff, !String.eqb_eq.
  split; [intros (-> & -> & _); reflexivity | intros [= -> ->]; auto].
Qed.

Lemma loadAttendanceRecords_today rToday rRecent s u :
  Remote.user s = Some u ->
  Remote.todayRecord (fst (Remote.loadAttendanceRecords rToday rRecent s))
  = match Supabase.error rToday with
    | Some _ => Remote.todayRecord s
    | None => option_map Remote.format (Supabase.data rToday)
    end.
Proof.
  intros Hu. unfold Remote.loadAttendanceRecords. rewrite Hu.
  destruct (Supabase.error rToday); [reflexivity|].
  destruct (Supabase.error rRecent); [reflexivity|].
  destruct (Supabase.data rRecent); reflexivity.
Qed.




End RemoteRuns.

Section RemoteCheckOut.

Variable L : Locale.

(** Once the check-out time is set, no run changes [todayRecord]. *)
Lemma remote_run_checked_out cs : forall s today t,
  Remote.todayRecord s = Some today ->
  Remote.check_out_time today = Some t ->
  Remote.todayRecord (fst (Remote.run L cs s)) = Some today.
Proof.
  induction cs as [|c cs IH]; intros s today t Hs Ht; [exact Hs|].
  rewrite remote_run_cons. apply (IH _ today t); [|exact Ht].
  destruct (remote_step_today L c s)
    as [->|[(row & Hnone & _)|(r & row & Hr & Hout & _)]];
    [exact Hs | congruence | congruence].
Qed.

Lemma remote_run_first_checkOut cs : forall s today u,
  Remote.user s = Some u ->
  Remote.todayRecord s = Some today ->
  Remote.check_out_time today = None ->
  Remote.todayRecord (fst (Remote.run L cs s)) ≫= Remote.check_out_time
  = remote_first_checkOut cs.
Proof.
  induction cs as [|c cs IH]; intros s today u Hu Hs Hout.
  - simpl. rewrite Hs. exact Hout.
  - rewrite remote_run_cons.
    destruct c as [now r|now r]; cbn [Remote.step remote_first_checkOut].
    + rewrite (remote_checkIn_today L s today u) by assumption.
      apply (IH _ today u); assumption.
    + unfold Remote.checkOut, Remote.checkOut_begin, Remote.checkOut_resume.
      rewrite Hu, Hs, Hout.
      destruct (Supabase.error r) as [e|].
      * apply (IH _ today u); assumption.
      * destruct (Supabase.data r) as [row|].
        -- cbn [fst].
           rewrite (remote_run_checked_out cs _ (Remote.format_checked_out row)
                      (default 0 (Supabase.check_out_time row)))
             by reflexivity.
           reflexivity.
        -- apply (IH _ today u); assumption.
Qed.

End RemoteCheckOut.

(** ** The local tracker *)

Section LocalSteps.

Variable L : Locale.

Lemma local_checkIn_today s store r u now stamp :
  Local.todayRecord s = Some r -> Local.user s = Some u ->
  Local.checkIn L now stamp (s, store)
  = (s, store, [Local.toast (Local.already_checked_in L r)]).
Proof. intros Hr Hu. unfold Local.checkIn. now rewrite Hu, Hr. Qed.

Lemma local_checkOut_done s store r t u now :
  Local.todayRecord s = Some r -> Local.checkOutTime r = Some t ->
  Local.user s = Some u ->
  Local.checkOut L now (s, store)
  = (s, store, [Local.toast (Local.already_checked_out L t)]).
Proof. intros Hr Ht Hu. unfold Local.checkOut. now rewrite Hu, Hr, Ht. Qed.

(** A user that has gone leaves no record behind. *)
Lemma local_reachable_no_user s :
  Local.reachable L s ->
  Local.user s = None ->
  Local.todayRecord s = None /\ Local.recentRecords s = [].
Proof.
  induction 1 as [|u now store s Hs IH|c store s Hs IH].
  - intros _. split; reflexivity.
  - unfold Local.onUserChange. destruct u as [u|]; [|intros _; now split].
    unfold Local.loadAttendanceRecords. cbn [Local.user Local.setUser].
    destruct (store !! Local.key u) as [[raw|records]|];
      try destruct (String.eqb raw ""); discriminate.
  - destruct c as [now stamp|now]; cbn [Local.step];
      unfold Local.checkIn, Local.checkOut.
    + destruct (Local.user s) as [u|] eqn:Hu;
        [|cbn; rewrite Hu; intros _; now apply IH].
      destruct (Local.todayRecord s); cbn; rewrite ?Hu; discriminate.
    + destruct (Local.user s) as [u|] eqn:Hu;
        [|cbn; rewrite Hu; intros _; now apply IH].
      destruct (Local.todayRecord s) as [today|];
        [destruct (Local.checkOutTime today)|]; cbn; rewrite ?Hu; discriminate.
Qed.

Corollary local_reachable_today_has_user s r :
  Local.reachable L s -> Local.todayRecord s = Some r ->
  exists u, Local.user s = Some u.
Proof.
  intros Hs Hr. destruct (Local.user s) as [u|] eqn:Hu; [eauto|].
  destruct (local_reachable_no_user s Hs Hu) as [H _]. congruence.
Qed.

Lemma local_run_cons c cs st :
  Local.run L (c :: cs) st = Local.run L cs (fst (Local.step L c st)).
Proof. reflexivity. Qed.

Lemma local_step_effect c s store :
  let s' := fst (fst (Local.step L c (s, store))) in
  Local.user s' = Local.user s
  /\ (Local.todayRecord s <> None -> Local.todayRecord s' <> None)
  /\ (length (Local.recentRecords s') = length (Local.recentRecords s)
      \/ Local.todayRecord s = None
         /\ Local.todayRecord s' <> None
         /\ length (Local.recentRecords s') = S (length (Local.recentRecords s))).
Proof.
  destruct c as [now stamp|now]; cbn [Local.step].
  - unfold Local.checkIn.
    destruct (Local.user s) as [u|] eqn:Hu; [|cbn; auto].
    destruct (Local.todayRecord s) as [today|] eqn:Ht.
    + cbn. rewrite Hu, Ht. auto.
    + cbn. rewrite Hu. split; [reflexivity|]. split; [congruence|].
      right. repeat split. discriminate.
  - unfold Local.checkOut.
    destruct (Local.user s) as [u|] eqn:Hu; [|cbn; auto].
    destruct (Local.todayRecord s) as [today|] eqn:Ht;
      [|cbn; rewrite Hu, Ht; auto].
    destruct (Local.checkOutTime today) as [t|] eqn:Hout.
    + cbn. rewrite Hu, Ht. auto.
    + cbn. rewrite Hu, length_map. repeat split; auto; discriminate.
Qed.


Lemma local_run_checked_out cs : forall s store today t,
  Local.todayRecord s = Some today ->
  Local.checkOutTime today = Some t ->
  Local.todayRecord (fst (Local.run L cs (s, store))) = Some today.
Proof.
  induction cs as [|c cs IH]; intros s store today t Hs Ht; [exact Hs|].
  rewrite local_run_cons.
  assert (H : fst (Local.step L c (s, store)) = (s, store)).
  { destruct c as [now stamp|now]; cbn [Local.step].
    - unfold Local.checkIn. destruct (Local.user s); [|reflexivity].
      now rewrite Hs.
    - unfold Local.checkOut. destruct (Local.user s); [|reflexivity].
      now rewrite Hs, Ht. }
  rewrite H. now apply (IH _ _ today t).
Qed.

Lemma local_run_first_checkOut cs : forall s store today u,
  Local.user s = Some u ->
  Local.todayRecord s = Some today ->
  Local.checkOutTime today = None ->
  Local.todayRecord (fst (Local.run L cs (s, store))) ≫= Local.checkOutTime
  = local_first_checkOut cs.
Proof.
  induction cs as [|c cs IH]; intros s store today u Hu Hs Hout.
  - simpl. rewrite Hs. exact Hout.
  - rewrite local_run_cons.
    destruct c as [now stamp|now]; cbn [Local.step local_first_checkOut].
    + rewrite (local_checkIn_today s store today u) by assumption.
      apply (IH _ _ today u); assumption.
    + unfold Local.checkOut. rewrite Hu, Hs, Hout. cbn [fst].
      match goal with
      | |- context [Local.setTodayRecord (Some ?r) _] =>
          rewrite (local_run_checked_out cs _ _ r now) by reflexivity
      end.
      reflexivity.
Qed.

End LocalSteps.




(** C2.  In every state whose [todayRecord] has its check-out time set,
    [checkOut] is a no-op: it sends nothing, changes neither the table nor
    the storage and leaves [todayRecord] and [recentRecords] as they are,
    and with a user (the precondition of the operation) its one report is
    the toast of variant "default" with the title "Already checked out" and
    the description "You checked out at <time> today.", the time being the
    recorded one in the locale's writing.  Once the time is set no run of
    invocations changes [todayRecord]; and from a state checked in but not
    out, the time found after any run is the one that the first successful
    [checkOut] of the run recorded (none if none succeeded).  This holds
    for both trackers. *)
Theorem checkOut_time_is_set_once (L : Locale) :
  (forall s today t now resp,
     Remote.todayRecord s = Some today ->
     Remote.check_out_time today = Some t ->
     snd (Remote.checkOut_begin L now s) = None
     /\ Remote.todayRecord (fst (Remote.checkOut L now resp s)) = Some today
     /\ Remote.recentRecords (fst (Remote.checkOut L now resp s))
        = Remote.recentRecords s
     /\ forall u,
          Remote.user s = Some u ->
          Remote.checkOut L now resp s
          = (Remote.setIsLoading false s,
             [Remote.toast
                {| variant := Some Default;
                   title := "Already checked out";
                   description :=
                     "You checked out at " +:+ toLocaleTimeString L t
                       +:+ " today." |}]))
  /\ (forall s table today t now net,
        Remote.todayRecord s = Some today ->
        Remote.check_out_time today = Some t ->
        snd (fst (Remote.act L (Remote.do_checkOut now net) (s, table))) = table)
  /\ (forall s store today t now,
        Local.todayRecord s = Some today ->
        Local.checkOutTime today = Some t ->
        fst (Local.checkOut L now (s, store)) = (s, store)
        /\ forall u,
             Local.user s = Some u ->
             snd (Local.checkOut L now (s, store))
             = [Local.toast
                  {| variant := Some Default;
                     title := "Already checked out";
                     description :=
                       "You checked out at " +:+ toLocaleTimeString L t
                         +:+ " today." |}])
  /\ (forall cs s today t,
        Remote.todayRecord s = Some today ->
        Remote.check_out_time today = Some t ->
        Remote.todayRecord (fst (Remote.run L cs s)) = Some today)
  /\ (forall cs s store today t,
        Local.todayRecord s = Some today ->
        Local.checkOutTime today = Some t ->
        Local.todayRecord (fst (Local.run L cs (s, store))) = Some today)
  /\ (forall cs s today u,
        Remote.user s = Some u ->
        Remote.todayRecord s = Some today ->
        Remote.check_out_time today = None ->
        Remote.todayRecord (fst (Remote.run L cs s)) ≫= Remote.check_out_time
        = remote_first_checkOut cs)
  /\ (forall cs s store today u,
        Local.user s = Some u ->
        Local.todayRecord s = Some today ->
        Local.checkOutTime today = None ->
        Local.todayRecord (fst (Local.run L cs (s, store))) ≫= Local.checkOutTime
        = local_first_checkOut cs).
Proof.
  repeat apply conj.
  - intros s today t now resp Hs Ht.
    unfold Remote.checkOut, Remote.checkOut_begin. rewrite Hs, Ht.
    destruct (Remote.user s) as [u|];
      repeat split; try assumption; intros u' Hu; discriminate Hu.
  - intros s table today t now net Hs Ht.
    unfold Remote.act, Remote.checkOut_begin. rewrite Hs, Ht.
    destruct (Remote.user s); reflexivity.
  - intros s store today t now Hs Ht. unfold Local.checkOut. rewrite Hs, Ht.
    destruct (Local.user s) as [u|];
      repeat split; intros u' Hu; discriminate Hu.
  - intros cs s today t. apply remote_run_checked_out.
  - intros cs s store today t. apply local_run_checked_out.
  - intros cs s today u. apply remote_run_first_checkOut.
  - intros cs s store today u. apply local_run_first_checkOut.
Qed.

Lemma checkOut_time_is_set_once_witness :
  Remote.todayRecord
    (fst (Remote.run sample_locale
            [Remote.call_checkOut 1704100000000 (Supabase.failed "offline");
             Remote.call_checkOut 1704104100000
               (Supabase.ok (checked_out_row 1704104100000));
             Remote.call_checkOut 1704110000000
               (Supabase.ok (checked_out_row 1704110000000))]
            checked_in_state))
  ≫= Remote.check_out_time
  = Some 1704104100000
  /\ Remote.checkOut sample_locale 1704110000000
       (Supabase.ok (checked_out_row 1704110000000))
       (Remote.setTodayRecord
          (Some (Remote.format (checked_out_row 1704104100000)))
          checked_in_state)
     = (Remote.setTodayRecord
          (Some (Remote.format (checked_out_row 1704104100000)))
          checked_in_state,
        [Remote.toast
           {| variant := Some Default; title := "Already checked out";
              description := "You checked out at 10:15:00 today." |}])
  /\ Local.checkOut sample_locale 1704110000000
       ({| Local.user := Some alice;
           Local.todayRecord :=
             Some {| Local.id := "1704096000001"; Local.userId := "u1";
                     Local.checkInTime := 1704096000000;
                     Local.checkOutTime := Some 1704104100000;
                     Local.date := "2024-01-01" |};
           Local.recentRecords := [] |}, sample_store)
     = ({| Local.user := Some alice;
           Local.todayRecord :=
             Some {| Local.id := "1704096000001"; Local.userId := "u1";
                     Local.checkInTime := 1704096000000;
                     Local.checkOutTime := Some 1704104100000;
                     Local.date := "2024-01-01" |};
           Local.recentRecords := [] |}, sample_store,
        [Local.toast
           {| variant := Some Default; title := "Already checked out";
              description := "You checked out at 10:15:00 today." |}]).
Proof.
  destruct (checkOut_time_is_set_once sample_locale)
    as (Hnoop & _ & Hlocal & _ & _ & Hfirst & _).
  split.
  - rewrite (Hfirst _ checked_in_state (Remote.format sample_row) alice
               eq_refl eq_refl eq_refl).
    reflexivity.
  - destruct (Hnoop (Remote.setTodayRecord
                       (Some (Remote.format (checked_out_row 1704104100000)))
                       checked_in_state)
                (Remote.format (checked_out_row 1704104100000))
                1704104100000 1704110000000
                (Supabase.ok (checked_out_row 1704110000000))
                eq_refl eq_refl) as (_ & _ & _ & H).
    split; [exact (H alice eq_refl)|].
    destruct (Hlocal
                {| Local.user := Some alice;
                   Local.todayRecord :=
                     Some {| Local.id := "1704096000001"; Local.userId := "u1";
                             Local.checkInTime := 1704096000000;
                             Local.checkOutTime := Some 1704104100000;
                             Local.date := "2024-01-01" |};
                   Local.recentRecords := [] |} sample_store _ 1704104100000
                1704110000000 eq_refl eq_refl) as [Hst Hev].
    specialize (Hev alice eq_refl).
    destruct (Local.checkOut _ _ _) as [st evs]. cbn [fst snd] in Hst, Hev.
    now rewrite Hst, Hev.
Defined.



(** C6, the claim as stated fails.  A second [checkIn] that arrives while the
    first is at its [await] finds the busy flag up and is started all the
    same: it sends its own insert.  Both go through, the table ends with two
    rows for the user and the day, and [recentRecords] with only the second. *)
Lemma overlapping_checkIns_are_not_serialized :
  exists s1 c1 q1 s2 c2 q2,
    Remote.checkIn_begin sample_locale 1704096000000 signed_in
    = (s1, [], Some (c1, q1))
    /\ Remote.isLoading s1 = true
    /\ Remote.checkIn_begin sample_locale 1704096000500 s1
       = (s2, [], Some (c2, q2))
    /\ exists s4 table,
         overlapping_checkIns sample_locale 1704096000000 1704096000500
           "r1" "r2" signed_in [] = Some (s4, table)
         /\ map row_key table = [("u1", "2024-01-01"); ("u1", "2024-01-01")]
         /\ map Remote.id (Remote.recentRecords s4) = ["r2"].
Proof.
  do 6 eexists. split; [reflexivity|]. split; [reflexivity|].
  split; [reflexivity|]. do 2 eexists. split; [reflexivity|].
  split; reflexivity.
Qed.

(** C6, as amended.  An invocation that sends a request raises the busy flag
    and lowers it when it completes, but neither operation consults the
    flag: what is sent depends on the user and on [todayRecord] alone.  An
    invocation is decided on the state at its start, so a [checkOut] that
    arrives before a [checkIn] has completed is rejected (no [todayRecord]
    yet), and a [checkOut] that starts after a [checkIn] has completed reads
    the new [todayRecord].  Keeping invocations apart is left to the caller:
    the dashboard disables both buttons while the flag is up. *)
Theorem busy_flag_is_raised_but_not_consulted (L : Locale) :
  (forall s now s1 evs c q,
     Remote.checkIn_begin L now s = (s1, evs, Some (c, q)) ->
     Remote.isLoading s1 = true
     /\ forall r s2, Remote.isLoading (fst (Remote.checkIn_resume L c r s2)) = false)
  /\ (forall s now s1 evs c q,
        Remote.checkOut_begin L now s = (s1, evs, Some (c, q)) ->
        Remote.isLoading s1 = true
        /\ forall r s2,
             Remote.isLoading (fst (Remote.checkOut_resume L c r s2)) = false)
  /\ (forall s now b,
        snd (Remote.checkIn_begin L now (Remote.setIsLoading b s))
        = snd (Remote.checkIn_begin L now s)
        /\ snd (Remote.checkOut_begin L now (Remote.setIsLoading b s))
           = snd (Remote.checkOut_begin L now s))
  /\ (forall s now,
        Remote.todayRecord s = None ->
        Remote.checkOut_begin L now s = (s, [], None))
  /\ (forall s u now row now',
        Remote.user s = Some u -> Remote.todayRecord s = None ->
        let s1 := fst (Remote.checkIn L now (Supabase.ok row) s) in
        Remote.todayRecord s1 = Some (Remote.format row)
        /\ Remote.isLoading s1 = false
        /\ (Supabase.check_out_time row = None ->
            exists c,
              snd (Remote.checkOut_begin L now' s1)
              = Some (c, {| Supabase.target_id := Supabase.id row;
                            Supabase.set_check_out_time := now' |})))
  /\ (forall s,
        Remote.isLoading s = true ->
        Dashboard.checkIn_disabled s = true
        /\ Dashboard.checkOut_disabled s = true).
Proof.
  repeat apply conj.
  - intros s now s1 evs c q H. unfold Remote.checkIn_begin in H.
    destruct (Remote.user s); [|discriminate].
    destruct (Remote.todayRecord s); [discriminate|].
    injection H as <- _ _ _. split; [reflexivity|].
    intros r s2. unfold Remote.checkIn_resume.
    destruct (Supabase.error r), (Supabase.data r); reflexivity.
  - intros s now s1 evs c q H. unfold Remote.checkOut_begin in H.
    destruct (Remote.user s); [|discriminate].
    destruct (Remote.todayRecord s) as [today|]; [|discriminate].
    destruct (Remote.check_out_time today); [discriminate|].
    injection H as <- _ _ _. split; [reflexivity|].
    intros r s2. unfold Remote.checkOut_resume.
    destruct (Supabase.error r), (Supabase.data r); reflexivity.
  - intros s now b. unfold Remote.checkIn_begin, Remote.checkOut_begin.
    cbn [Remote.user Remote.todayRecord Remote.recentRecords Remote.setIsLoading].
    destruct (Remote.user s); [|split; reflexivity].
    destruct (Remote.todayRecord s) as [today|]; [|split; reflexivity].
    destruct (Remote.check_out_time today); split; reflexivity.
  - intros s now H. unfold Remote.checkOut_begin. rewrite H.
    destruct (Remote.user s); reflexivity.
  - intros s u now row now' Hu Ht. unfold Remote.checkIn, Remote.checkIn_begin.
    rewrite Hu, Ht. cbn. split; [reflexivity|]. split; [reflexivity|].
    intros Hout. unfold Remote.checkOut_begin. cbn. rewrite Hu, Hout.
    eexists. reflexivity.
  - intros s H. unfold Dashboard.checkIn_disabled, Dashboard.checkOut_disabled.
    rewrite H, !orb_true_r. split; reflexivity.
Qed.

Lemma busy_flag_is_raised_but_not_consulted_witness :
  Remote.isLoading (fst (fst (Remote.checkIn_begin sample_locale 1704096000000 signed_in)))
  = true
  /\ Remote.checkOut_begin sample_locale 1704099600000
       (fst (fst (Remote.checkIn_begin sample_locale 1704096000000 signed_in)))
     = (fst (fst (Remote.checkIn_begin sample_locale 1704096000000 signed_in)),
        [], None)
  /\ Dashboard.checkIn_disabled
       (fst (fst (Remote.checkIn_begin sample_locale 1704096000000 signed_in)))
     = true.
Proof.
  destruct (busy_flag_is_raised_but_not_consulted sample_locale)
    as (Hin & _ & _ & Hrej & _ & Hui).
  destruct (Remote.checkIn_begin sample_locale 1704096000000 signed_in)
    as [[s1 evs] [[c q]|]] eqn:E; [|discriminate E].
  destruct (Hin _ _ _ _ _ _ E) as [Hbusy _]. cbn [fst].
  split; [exact Hbusy|]. split.
  - apply Hrej. vm_compute in E. now injection E as <- _ _ _.
  - now apply Hui.
Defined.

(** C7, the claim as stated fails.  Alice's records are in the tracker and
    the user handed to the provider changes to another one directly.  The
    remote tracker, whose load does not get through, reports the failure
    and still holds Alice's record of the day and her recent records under
    Bob; the local tracker, which finds no item for the new user, reports
    nothing and still holds Alice's. *)
Lemma user_switch_keeps_previous_records :
  let r1 := fst (Remote.onUserChange (Some alice) (Supabase.ok sample_row)
                   (Supabase.ok [sample_row]) Remote.initial) in
  let r2 := Remote.onUserChange (Some bob) (Supabase.failed "offline")
              (Supabase.failed "offline") r1 in
  let carol := {| Auth.id := "u3"; Auth.email := "carol@example.org";
                  Auth.name := "carol" |} in
  let l1 := fst (Local.onUserChange sample_locale (Some alice) 1704099600000
                   sample_store Local.initial) in
  let l2 := Local.onUserChange sample_locale (Some carol) 1704099600000
              sample_store l1 in
  (Remote.user (fst r2) = Some bob
   /\ Remote.todayRecord (fst r2) = Some (Remote.format sample_row)
   /\ Remote.recentRecords (fst r2) = [Remote.format sample_row]
   /\ Remote.user_id (Remote.format sample_row) = Auth.id alice
   /\ snd r2 = Remote.load_failed)
  /\ (sample_store !! Local.key carol = None
      /\ Local.user (fst l2) = Some carol
      /\ Local.todayRecord (fst l2) = Some alice_record
      /\ Local.recentRecords (fst l2) = [alice_record]
      /\ Local.userId alice_record = Auth.id alice
      /\ snd l2 = []).
Proof. vm_compute. repeat split; reflexivity. Qed.

(** C7, as amended.  When the user handed to the provider becomes absent,
    the effect sets [todayRecord] to absent and [recentRecords] to the
    empty list, loads nothing and reports nothing, in both trackers; a user
    that appears next has the load start from that empty state.  When a
    user is handed over in place of another one, nothing is cleared: the
    effect runs the load on the state as it is, so the records of the
    previous user stay until the load replaces them, and they stay for good
    when the first select of the remote load fails or when the storage
    holds no item for the new user.  In the local tracker, whose operations
    have no [await], an absent user goes with an empty tracker in every
    state the provider reaches.  In the remote tracker the reset is not the
    last word: a check-in that was waiting for its answer when the user
    went away writes its record into the emptied tracker when the answer
    arrives. *)
Theorem absent_user_resets_the_tracker (L : Locale) :
  (forall s rToday rRecent,
     Remote.onUserChange None rToday rRecent s
     = ({| Remote.user := None; Remote.todayRecord := None;
           Remote.recentRecords := []; Remote.isLoading := Remote.isLoading s |},
        []))
  /\ (forall s now store,
        Local.onUserChange L None now store s
        = ({| Local.user := None; Local.todayRecord := None;
              Local.recentRecords := [] |}, []))
  /\ (forall s u rToday rRecent rToday' rRecent',
        Remote.onUserChange (Some u) rToday' rRecent'
          (fst (Remote.onUserChange None rToday rRecent s))
        = Remote.loadAttendanceRecords rToday' rRecent'
            {| Remote.user := Some u; Remote.todayRecord := None;
               Remote.recentRecords := [];
               Remote.isLoading := Remote.isLoading s |})
  /\ (forall s u now now' store store',
        Local.onUserChange L (Some u) now' store'
          (fst (Local.onUserChange L None now store s))
        = Local.loadAttendanceRecords L now' store'
            {| Local.user := Some u; Local.todayRecord := None;
               Local.recentRecords := [] |})
  /\ (forall s u rToday rRecent,
        Remote.onUserChange (Some u) rToday rRecent s
        = Remote.loadAttendanceRecords rToday rRecent (Remote.setUser (Some u) s))
  /\ (forall s u now store,
        Local.onUserChange L (Some u) now store s
        = Local.loadAttendanceRecords L now store (Local.setUser (Some u) s))
  /\ (forall s u rToday rRecent,
        Supabase.error rToday <> None ->
        let s' := fst (Remote.onUserChange (Some u) rToday rRecent s) in
        Remote.user s' = Some u
        /\ Remote.todayRecord s' = Remote.todayRecord s
        /\ Remote.recentRecords s' = Remote.recentRecords s
        /\ snd (Remote.onUserChange (Some u) rToday rRecent s)
           = [Remote.console_error "Failed to load attendance records";
              Remote.toast
                {| variant := Some Destructive;
                   title := "Error loading attendance";
                   description := "Could not load your attendance records." |}])
  /\ (forall s u now store,
        store !! Local.key u = None ->
        Local.onUserChange L (Some u) now store s
        = ({| Local.user := Some u; Local.todayRecord := Local.todayRecord s;
              Local.recentRecords := Local.recentRecords s |}, []))
  /\ (forall s,
        Local.reachable L s -> Local.user s = None ->
        Local.todayRecord s = None /\ Local.recentRecords s = [])
  /\ (forall s u now row rToday rRecent,
        Remote.user s = Some u ->
        Remote.todayRecord s = None ->
        exists s1 c q,
          Remote.checkIn_begin L now s = (s1, [], Some (c, q))
          /\ let s2 := fst (Remote.onUserChange None rToday rRecent s1) in
             let s3 := fst (Remote.checkIn_resume L c (Supabase.ok row) s2) in
             Remote.todayRecord s2 = None
             /\ Remote.recentRecords s2 = []
             /\ Remote.user s3 = None
             /\ Remote.todayRecord s3 = Some (Remote.format row)
             /\ Remote.recentRecords s3
                = Remote.format row :: Remote.recentRecords s).
Proof.
  repeat match goal with |- _ /\ _ => split end; try reflexivity.
  - intros s u rToday rRecent Herr s'.
    unfold s', Remote.onUserChange, Remote.loadAttendanceRecords.
    cbn [Remote.user Remote.setUser].
    destruct (Supabase.error rToday); [|congruence].
    repeat split.
  - intros s u now store Hnone.
    unfold Local.onUserChange, Local.loadAttendanceRecords.
    cbn [Local.user Local.setUser]. now rewrite Hnone.
  - apply local_reachable_no_user.
  - intros s u now row rToday rRecent Hu Ht.
    unfold Remote.checkIn_begin. rewrite Hu, Ht.
    eexists _, _, _. split; [reflexivity|]. repeat split.
Qed.

Lemma absent_user_resets_the_tracker_witness :
  let s :=
    fst (Local.onUserChange sample_locale None 1704103200000 sample_store
           (fst (fst (Local.step sample_locale
                        (Local.call_checkOut 1704100000000)
                        (fst (Local.onUserChange sample_locale (Some alice)
                                1704099600000 sample_store Local.initial),
                         sample_store))))) in
  Local.todayRecord s = None /\ Local.recentRecords s = [].
Proof.
  destruct (absent_user_resets_the_tracker sample_locale)
    as (_ & _ & _ & _ & _ & _ & _ & _ & H & _).
  apply H; [|reflexivity].
  apply Local.reach_user, Local.reach_step, Local.reach_user,
    Local.reach_initial.
Defined.

(** C8, the claim as stated fails.  Alice's records are loaded; the user
    then becomes Bob, whose stored item is not JSON.  The load logs the
    error and the tracker still holds Alice's records. *)
Lemma malformed_payload_keeps_previous_records :
  let s1 := fst (Local.onUserChange sample_locale (Some alice) 1704099600000
                   sample_store Local.initial) in
  let '(s2, evs) := Local.onUserChange sample_locale (Some bob) 1704099600000
                      sample_store s1 in
  sample_store !! Local.key bob = Some (Local.Garbled "{oops")
  /\ Local.user s2 = Some bob
  /\ Local.todayRecord s2 = Some alice_record
  /\ Local.recentRecords s2 = [alice_record]
  /\ evs = [Local.console_error "Failed to load attendance records"].
Proof. vm_compute. repeat split; reflexivity. Qed.

(** C8, as amended.  A stored item on which parsing throws is not used: the
    load logs the error, returns normally and leaves the state of the tracker
    exactly as it was, which is what it does when nothing is stored under
    the key; so the state stays empty when the load starts from the empty
    state, as on mount and after logout.  The session store, on a stored
    user that does not parse, logs, keeps its user as it was and removes the
    item. *)
Theorem malformed_payload_is_ignored_and_logged (L : Locale) :
  (forall now store s u raw,
     Local.user s = Some u ->
     store !! Local.key u = Some (Local.Garbled raw) ->
     raw <> "" ->
     Local.loadAttendanceRecords L now store s
     = (s, [Local.console_error "Failed to load attendance records"])
     /\ Local.loadAttendanceRecords L now store s
        = (fst (Local.loadAttendanceRecords L now (delete (Local.key u) store) s),
           [Local.console_error "Failed to load attendance records"])
     /\ (Local.todayRecord s = None -> Local.recentRecords s = [] ->
         Local.todayRecord (fst (Local.loadAttendanceRecords L now store s)) = None
         /\ Local.recentRecords (fst (Local.loadAttendanceRecords L now store s))
            = []))
  /\ (forall s raw,
        Auth.stored s = Some (Auth.Unparsable raw) ->
        raw <> "" ->
        Auth.restore s
        = ({| Auth.user := Auth.user s; Auth.stored := None |},
           [Auth.console_error "Failed to parse user from localStorage"])).
Proof.
  split.
  - intros now store s u raw Hu Hitem Hraw.
    assert (H : Local.loadAttendanceRecords L now store s
                = (s, [Local.console_error "Failed to load attendance records"])).
    { unfold Local.loadAttendanceRecords. rewrite Hu, Hitem.
      destruct (String.eqb_spec raw ""); [contradiction | reflexivity]. }
    rewrite H. split; [reflexivity|]. split.
    + unfold Local.loadAttendanceRecords. rewrite Hu, lookup_delete_eq.
      reflexivity.
    + intros Ht Hr. now split.
  - intros s raw Hs Hraw. unfold Auth.restore. rewrite Hs.
    destruct (String.eqb_spec raw ""); [contradiction | reflexivity].
Qed.

Lemma malformed_payload_is_ignored_and_logged_witness :
  Local.onUserChange sample_locale (Some bob) 1704099600000 sample_store
    Local.initial
  = ({| Local.user := Some bob; Local.todayRecord := None;
        Local.recentRecords := [] |},
     [Local.console_error "Failed to load attendance records"])
  /\ Auth.restore {| Auth.user := None;
                     Auth.stored := Some (Auth.Unparsable "{oops") |}
     = ({| Auth.user := None; Auth.stored := None |},
        [Auth.console_error "Failed to parse user from localStorage"]).
Proof.
  destruct (malformed_payload_is_ignored_and_logged sample_locale)
    as [Hlocal Hauth].
  split.
  - destruct (Hlocal 1704099600000 sample_store
                (Local.setUser (Some bob) Local.initial) bob "{oops"
                eq_refl eq_refl ltac:(discriminate)) as (H & _).
    exact H.
  - exact (Hauth {| Auth.user := None;
                    Auth.stored := Some (Auth.Unparsable "{oops") |}
             "{oops" eq_refl ltac:(discriminate)).
Defined.


(** ** The date-range query *)

Section RangeQuery.

Global Instance before_total c asc : Total (Supabase.before c asc).
Proof.
  intros a b. unfold Supabase.before. destruct asc.
  - apply String.leb_total.
  - destruct (String.leb_total (Supabase.get c a) (Supabase.get c b)); auto.
Qed.

Lemma matches_rangeQuery u fromDate toDate row :
  Supabase.matches (Supabase.filters (Remote.rangeQuery u fromDate toDate)) row
  = true
  <-> in_range (Auth.id u) fromDate toDate (Remote.format row).
Proof.
  unfold in_range. cbn. rewrite !andb_true_iff, String.eqb_eq. tauto.
Qed.

Lemma matches_rangeQuery_bool u fromDate toDate row :
  Supabase.matches (Supabase.filters (Remote.rangeQuery u fromDate toDate)) row
  = in_rangeb (Auth.id u) fromDate toDate row.
Proof. unfold in_rangeb. cbn. now rewrite andb_true_r, andb_assoc. Qed.

Lemma Sorted_map_format (rows : list Supabase.Row) :
  Sorted (Supabase.before Supabase.col_date false) rows ->
  Sorted newest_day_first (map Remote.format rows).
Proof.
  induction 1 as [|row rows Hs IH Hhd]; simpl; constructor; [exact IH|].
  destruct Hhd; simpl; constructor. assumption.
Qed.

(** What the range query returns from a table. *)
Lemma select_rangeQuery table u fromDate toDate :
  let rows := Supabase.select table (Remote.rangeQuery u fromDate toDate) in
  Sorted newest_day_first (map Remote.format rows)
  /\ map Remote.format rows
     ≡ₚ map Remote.format
          (List.filter (in_rangeb (Auth.id u) fromDate toDate) table)
  /\ (forall r, r ∈ map Remote.format rows
        <-> exists row, row ∈ table /\ r = Remote.format row
              /\ in_range (Auth.id u) fromDate toDate r).
Proof.
  intros rows. unfold Supabase.select in rows. cbn in rows.
  assert (Hp : rows ≡ₚ List.filter
                 (Supabase.matches
                    (Supabase.filters (Remote.rangeQuery u fromDate toDate)))
                 table) by apply merge_sort_Permutation.
  split; [|split].
  - apply Sorted_map_format. apply (Sorted_merge_sort _).
  - apply Permutation_map. rewrite Hp. apply Permutation_refl'.
    apply List.filter_ext. intros row. apply matches_rangeQuery_bool.
  - intros r. rewrite list_elem_of_In, in_map_iff. split.
    + intros (row & <- & Hin). exists row.
      apply (Permutation_in _ Hp) in Hin. apply filter_In in Hin as [Hin Hm].
      rewrite list_elem_of_In. split; [exact Hin|]. split; [reflexivity|].
      now apply matches_rangeQuery.
    + intros (row & Hin & -> & Hr). exists row. split; [reflexivity|].
      apply (Permutation_in _ (Permutation_sym Hp)).
      apply filter_In. rewrite <- list_elem_of_In. split; [exact Hin|].
      now apply matches_rangeQuery.
Qed.

End RangeQuery.

(** C4, the claim as stated fails.  With both ends of the range and a user
    present, a call that the table does not answer returns the empty list,
    although the table holds a record of the user inside the range. *)
Lemma fetch_fails_when_table_does_not_answer :
  let records :=
    snd (Remote.fetchAttendanceByDateRange (Some "Failed to fetch")
           sample_table january signed_in) in
  records = []
  /\ sample_row ∈ sample_table
  /\ in_range "u1" (JS.toISODate 1704067200000) (JS.toISODate 1706659200000)
       (Remote.format sample_row)
  /\ Remote.format sample_row ∉ records.
Proof.
  cbv zeta. split; [reflexivity|]. split.
  - apply list_elem_of_In. simpl. auto.
  - split; [repeat split; vm_compute; reflexivity|]. apply not_elem_of_nil.
Qed.

(** C4, as amended.  If the user or either end of the range is absent the
    call returns the empty list, reports nothing and leaves the state alone.
    Otherwise, when the table answers, it returns exactly the records of the
    current user whose day key lies between the day keys of the two ends,
    both included, each as often as the table holds it, ordered by day
    descending, and reports nothing; when the table does not answer, it
    returns the empty list and reports the failure. *)
Theorem fetch_by_date_range_when_table_answers
    (net : option string) (table : list Supabase.Row)
    (range : Remote.DateRange) (s : Remote.State) :
  (Remote.user s = None \/ Remote.from range = None \/ Remote.to range = None ->
     Remote.fetchAttendanceByDateRange net table range s = (s, [], []))
  /\ (forall u f t,
        Remote.user s = Some u -> Remote.from range = Some f ->
        Remote.to range = Some t ->
        let result := Remote.fetchAttendanceByDateRange net table range s in
        let records := snd result in
        (net = None ->
           snd (fst result) = []
           /\ Sorted newest_day_first records
           /\ records
              ≡ₚ map Remote.format
                   (List.filter
                      (in_rangeb (Auth.id u) (JS.toISODate f) (JS.toISODate t))
                      table)
           /\ forall r, r ∈ records
                <-> exists row, row ∈ table /\ r = Remote.format row
                      /\ in_range (Auth.id u) (JS.toISODate f) (JS.toISODate t) r)
        /\ (forall e, net = Some e ->
              records = []
              /\ snd (fst result)
                 = [Remote.console_error "Failed to fetch attendance by date range";
                    Remote.toast (Remote.error_loading
                      "Could not load your attendance records for the selected date range.")])).
Proof.
  split.
  - unfold Remote.fetchAttendanceByDateRange, Remote.fetch_begin.
    intros [H|[H|H]]; rewrite H; destruct (Remote.user s);
      try destruct (Remote.from range); reflexivity.
  - intros u f t Hu Hf Ht. cbv zeta.
    unfold Remote.fetchAttendanceByDateRange, Remote.fetch_begin.
    rewrite Hu, Hf, Ht. split.
    + intros ->. cbn [Remote.fetch_resume Supabase.ok Supabase.error
                      Supabase.data fst snd].
      pose proof (select_rangeQuery table u (JS.toISODate f) (JS.toISODate t))
        as (Hs & Hp & Hin).
      split; [reflexivity|]. split; [exact Hs|]. split; [exact Hp | exact Hin].
    + intros e ->. split; reflexivity.
Qed.

Lemma fetch_by_date_range_when_table_answers_witness :
  map Remote.id
    (snd (Remote.fetchAttendanceByDateRange None sample_table january signed_in))
  = ["r2"; "r1"]
  /\ Sorted newest_day_first
       (snd (Remote.fetchAttendanceByDateRange None sample_table january
               signed_in))
  /\ Remote.fetchAttendanceByDateRange None sample_table
       {| Remote.from := Some 1704067200000; Remote.to := None |} signed_in
     = (signed_in, [], [])
  /\ snd (Remote.fetchAttendanceByDateRange (Some "Failed to fetch")
            sample_table january signed_in)
     = [].
Proof.
  destruct (fetch_by_date_range_when_table_answers None sample_table january
              signed_in) as [_ H].
  destruct (H alice 1704067200000 1706659200000 eq_refl eq_refl eq_refl)
    as [Hok _].
  destruct (Hok eq_refl) as (_ & Hsorted & _).
  split; [vm_compute; reflexivity|]. split; [exact Hsorted|]. split.
  - destruct (fetch_by_date_range_when_table_answers None sample_table
                {| Remote.from := Some 1704067200000; Remote.to := None |}
                signed_in) as [Habsent _].
    apply Habsent. right; right. reflexivity.
  - destruct (fetch_by_date_range_when_table_answers (Some "Failed to fetch")
                sample_table january signed_in) as [_ Hnet].
    destruct (Hnet alice 1704067200000 1706659200000 eq_refl eq_refl eq_refl)
      as [_ Hfail].
    destruct (Hfail "Failed to fetch" eq_refl) as [Hnil _]. exact Hnil.
Defined.

(** * Further properties of the code *)

(** ** The day on the remote table, from check-in to check-out *)

Section RemoteLifecycle.

Variable L : Locale.

Lemma filter_none {A} (P : A -> bool) (l : list A) :
  (forall x, In x l -> P x = false) -> List.filter P l = [].
Proof.
  induction l as [|x l IH]; simpl; [auto|]. intros H.
  rewrite (H x) by now left. apply IH. intros y Hy. apply H. now right.
Qed.

Lemma Sorted_take {A} (R : relation A) n (l : list A) :
  Sorted R l -> Sorted R (take n l).
Proof.
  intros H. revert n. induction H as [|x l Hs IH Hhd]; intros [|n]; simpl;
    try constructor; auto.
  destruct Hhd; destruct n; simpl; constructor. assumption.
Qed.

Lemma set_check_out_other id0 t table :
  id0 ∉ map Supabase.id table ->
  map (Supabase.set_check_out
         {| Supabase.target_id := id0; Supabase.set_check_out_time := t |}) table
  = table
  /\ List.filter (fun r => String.eqb (Supabase.id r) id0) table = [].
Proof.
  induction table as [|r table IH]; simpl; [auto|]. intros H.
  apply not_elem_of_cons in H as [Hr Ht]. destruct (IH Ht) as [IH1 IH2].
  unfold Supabase.set_check_out at 1. cbn [Supabase.target_id].
  destruct (String.eqb_spec (Supabase.id r) id0) as [E|_]; [congruence|].
  now rewrite IH1, IH2.
Qed.

Lemma update_fresh_row table row t :
  Supabase.id row ∉ map Supabase.id table ->
  Supabase.update (table ++ [row])
    {| Supabase.target_id := Supabase.id row; Supabase.set_check_out_time := t |}
  = (table ++ [checked_out_at t row], Supabase.ok (checked_out_at t row)).
Proof.
  intros H. unfold Supabase.update.
  destruct (set_check_out_other (Supabase.id row) t table H) as [Hm Hf].
  rewrite map_app, Hm. cbn [map Supabase.target_id].
  unfold Supabase.set_check_out at 1 2.
  cbn [Supabase.target_id Supabase.set_check_out_time].
  rewrite String.eqb_refl. fold (checked_out_at t row).
  rewrite List.filter_app, Hf. cbn [List.filter app Supabase.id checked_out_at].
  rewrite String.eqb_refl. reflexivity.
Qed.

(** What a successful check-in on a state without [todayRecord] gives. *)
Lemma act_checkIn_fresh s table u now fresh :
  Remote.user s = Some u -> Remote.todayRecord s = None ->
  let row :=
    {| Supabase.id := fresh; Supabase.user_id := Auth.id u;
       Supabase.check_in_time := now; Supabase.check_out_time := None;
       Supabase.date := JS.toISODate now |} in
  fst (Remote.act L (Remote.do_checkIn now fresh None) (s, table))
  = (Remote.setIsLoading false
       (Remote.setRecentRecords (Remote.format row :: Remote.recentRecords s)
          (Remote.setTodayRecord (Some (Remote.format row))
             (Remote.setIsLoading true s))),
     table ++ [row]).
Proof.
  intros Hu Ht row. unfold Remote.act, Remote.checkIn_begin.
  rewrite Hu, Ht. reflexivity.
Qed.

(** The check-out that follows it. *)
Lemma act_checkOut_fresh s table row now :
  Remote.user s <> None ->
  Remote.todayRecord s = Some (Remote.format row) ->
  Supabase.check_out_time row = None ->
  Supabase.id row ∉ map Supabase.id table ->
  fst (Remote.act L (Remote.do_checkOut now None) (s, table ++ [row]))
  = (Remote.setIsLoading false
       (Remote.setRecentRecords
          (Remote.replace_by_id (Remote.format (checked_out_at now row))
             (Remote.recentRecords s))
          (Remote.setTodayRecord (Some (Remote.format (checked_out_at now row)))
             (Remote.setIsLoading true s))),
     table ++ [checked_out_at now row]).
Proof.
  intros Hu Ht Hout Hfresh. unfold Remote.act, Remote.checkOut_begin.
  destruct (Remote.user s) as [u|]; [|congruence].
  rewrite Ht. cbn [Remote.check_out_time Remote.format Remote.id].
  rewrite Hout, (update_fresh_row table row now) by exact Hfresh.
  reflexivity.
Qed.

Lemma select_today_after_insert table u day row :
  (Auth.id u, day) ∉ map row_key table ->
  row_key row = (Auth.id u, day) ->
  Supabase.select (table ++ [row]) (Remote.todayQuery u day) = [row].
Proof.
  intros Habs Hrow.
  change (Supabase.select (table ++ [row]) (Remote.todayQuery u day))
    with (List.filter
            (Supabase.matches (Supabase.filters (Remote.todayQuery u day)))
            (table ++ [row])).
  rewrite List.filter_app, filter_none.
  - cbn [List.filter app].
    now rewrite (proj2 (matches_todayQuery u day row) Hrow).
  - intros r Hin.
    destruct (Supabase.matches _ r) eqn:E; [|reflexivity].
    apply matches_todayQuery in E. exfalso. apply Habs.
    apply list_elem_of_In, in_map_iff. eauto.
Qed.

(** On a table without two rows for one user and day the first select of
    the load is answered without error. *)
Lemma today_query_single table u day :
  NoDup (map row_key table) ->
  Supabase.select table (Remote.todayQuery u day) = []
  \/ exists row, Supabase.select table (Remote.todayQuery u day) = [row].
Proof.
  intros Hnd.
  change (Supabase.select table (Remote.todayQuery u day))
    with (List.filter
            (Supabase.matches (Supabase.filters (Remote.todayQuery u day)))
            table).
  set (P := Supabase.matches _).
  pose proof (NoDup_map_filter row_key P table Hnd) as Hf.
  destruct (List.filter P table) as [|r1 [|r2 rows]] eqn:E; eauto.
  exfalso.
  assert (H1 : P r1 = true).
  { apply (proj1 (filter_In P r1 table)). rewrite E. now left. }
  assert (H2 : P r2 = true).
  { apply (proj1 (filter_In P r2 table)). rewrite E. right; now left. }
  apply (matches_todayQuery u day) in H1, H2.
  simpl in Hf. apply NoDup_cons in Hf as [Hf _].
  apply Hf. rewrite H1, <- H2. now left.
Qed.

Lemma act_phase a s table :
  let s' := fst (fst (Remote.act L a (s, table))) in
  (remote_phase s <= remote_phase s' <= S (remote_phase s))%nat.
Proof.
  unfold remote_phase.
  destruct a as [now fresh net|now net]; cbn [Remote.act].
  - unfold Remote.checkIn_begin.
    destruct (Remote.user s) as [u|];
      [|cbn; destruct (Remote.todayRecord s) as [r|];
        [destruct (Remote.check_out_time r)|]; lia].
    destruct (Remote.todayRecord s) as [r|] eqn:Ht.
    + cbn. rewrite Ht. destruct (Remote.check_out_time r); lia.
    + destruct net; cbn; rewrite ?Ht; lia.
  - unfold Remote.checkOut_begin.
    destruct (Remote.user s) as [u|];
      [|cbn; destruct (Remote.todayRecord s) as [r|];
        [destruct (Remote.check_out_time r)|]; lia].
    destruct (Remote.todayRecord s) as [r|] eqn:Ht; [|cbn; rewrite Ht; lia].
    destruct (Remote.check_out_time r) as [t|] eqn:Hout.
    + cbn. rewrite Ht, Hout. lia.
    + destruct net as [e|].
      * cbn. rewrite Ht, Hout. lia.
      * destruct (Supabase.update table _) as [table' resp].
        unfold Remote.checkOut_resume.
        destruct (Supabase.error resp), (Supabase.data resp); cbn;
          rewrite ?Ht, ?Hout; lia.
Qed.

Lemma reachable_idle s : Remote.reachable L s -> Remote.isLoading s = false.
Proof.
  induction 1 as [|u rToday rRecent s Hs IH|c s Hs IH|net table range s Hs IH].
  - reflexivity.
  - unfold Remote.onUserChange. destruct u as [u|]; [|exact IH].
    unfold Remote.loadAttendanceRecords. cbn [Remote.user Remote.setUser].
    destruct (Supabase.error rToday); [reflexivity|].
    destruct (Supabase.error rRecent); [reflexivity|].
    destruct (Supabase.data rRecent); reflexivity.
  - destruct c as [now r|now r]; cbn [Remote.step].
    + unfold Remote.checkIn, Remote.checkIn_begin.
      destruct (Remote.user s); [|exact IH].
      destruct (Remote.todayRecord s); [reflexivity|].
      unfold Remote.checkIn_resume.
      destruct (Supabase.error r), (Supabase.data r); reflexivity.
    + unfold Remote.checkOut, Remote.checkOut_begin.
      destruct (Remote.user s); [|exact IH].
      destruct (Remote.todayRecord s) as [today|]; [|exact IH].
      destruct (Remote.check_out_time today); [reflexivity|].
      unfold Remote.checkOut_resume.
      destruct (Supabase.error r), (Supabase.data r); reflexivity.
  - unfold Remote.fetchAttendanceByDateRange, Remote.fetch_begin.
    destruct (Remote.user s), (Remote.from range), (Remote.to range);
      try exact IH.
    unfold Remote.fetch_resume. destruct net; reflexivity.
Qed.

End RemoteLifecycle.

(** X1.  A day on the remote tracker.  From a state with a user and no
    record of the day, a check-in that the table stores under an identifier
    it has not used yet, followed by a check-out that the table answers:
    the table gains exactly one row, first open and then closed at the time
    of the check-out; [todayRecord] is that row, the list of recent records
    has it in front, and the dashboard goes from "checked in" to "checked
    out" with both buttons disabled at the end. *)
Theorem checkIn_then_checkOut_completes_the_day
    (L : Locale) (s : Remote.State) (table : list Supabase.Row)
    (u : Auth.User) (now1 now2 : JS.Date) (fresh : string)
    (Hu : Remote.user s = Some u) (Ht : Remote.todayRecord s = None)
    (Hfresh : fresh ∉ map Supabase.id table) :
  let row :=
    {| Supabase.id := fresh; Supabase.user_id := Auth.id u;
       Supabase.check_in_time := now1; Supabase.check_out_time := None;
       Supabase.date := JS.toISODate now1 |} in
  let st1 := fst (Remote.act L (Remote.do_checkIn now1 fresh None) (s, table)) in
  let st2 := fst (Remote.act L (Remote.do_checkOut now2 None) st1) in
  (snd st1 = table ++ [row]
   /\ Remote.todayRecord (fst st1) = Some (Remote.format row)
   /\ Remote.recentRecords (fst st1) = Remote.format row :: Remote.recentRecords s
   /\ Remote.isCheckedIn (fst st1) = true
   /\ Dashboard.status (fst st1) = Dashboard.CheckedIn)
  /\ (snd st2 = table ++ [checked_out_at now2 row]
      /\ Remote.todayRecord (fst st2)
         = Some (Remote.format (checked_out_at now2 row))
      /\ Remote.recentRecords (fst st2)
         = Remote.format (checked_out_at now2 row)
           :: Remote.replace_by_id (Remote.format (checked_out_at now2 row))
                (Remote.recentRecords s)
      /\ Remote.isCheckedIn (fst st2) = false
      /\ Dashboard.status (fst st2) = Dashboard.CheckedOut
      /\ Dashboard.checkIn_disabled (fst st2) = true
      /\ Dashboard.checkOut_disabled (fst st2) = true).
Proof.
  intros row st1 st2.
  assert (H1 : st1
    = (Remote.setIsLoading false
         (Remote.setRecentRecords (Remote.format row :: Remote.recentRecords s)
            (Remote.setTodayRecord (Some (Remote.format row))
               (Remote.setIsLoading true s))),
       table ++ [row])) by now apply act_checkIn_fresh.
  split; [rewrite H1; repeat split; reflexivity|].
  assert (H2 : st2
    = (Remote.setIsLoading false
         (Remote.setRecentRecords
            (Remote.replace_by_id (Remote.format (checked_out_at now2 row))
               (Remote.recentRecords (fst st1)))
            (Remote.setTodayRecord
               (Some (Remote.format (checked_out_at now2 row)))
               (Remote.setIsLoading true (fst st1)))),
       table ++ [checked_out_at now2 row])).
  { unfold st2. rewrite H1. cbn [fst].
    apply act_checkOut_fresh; cbn; [congruence|reflexivity|reflexivity|exact Hfresh]. }
  rewrite H2, H1. repeat split; try reflexivity.
  cbn [fst Remote.recentRecords Remote.setIsLoading Remote.setRecentRecords].
  unfold Remote.replace_by_id at 1. cbn [map Remote.id Remote.format
    Supabase.id row checked_out_at].
  now rewrite String.eqb_refl.
Qed.

Lemma checkIn_then_checkOut_completes_the_day_witness :
  let st2 :=
    fst (Remote.act sample_locale (Remote.do_checkOut 1704124800000 None)
           (fst (Remote.act sample_locale
                   (Remote.do_checkIn 1704096000000 "r7" None)
                   (signed_in, sample_table)))) in
  snd st2 = sample_table ++ [checked_out_at 1704124800000
    {| Supabase.id := "r7"; Supabase.user_id := "u1";
       Supabase.check_in_time := 1704096000000;
       Supabase.check_out_time := None; Supabase.date := "2024-01-01" |}]
  /\ Dashboard.status (fst st2) = Dashboard.CheckedOut.
Proof.
  pose proof (checkIn_then_checkOut_completes_the_day sample_locale signed_in
                sample_table alice 1704096000000 1704124800000 "r7"
                eq_refl eq_refl) as H.
  cbv zeta in H.
  assert (Hfresh : "r7" ∉ map Supabase.id sample_table).
  { rewrite list_elem_of_In. simpl. intros [E|[E|[E|[E|[E|[]]]]]]; discriminate E. }
  destruct (H Hfresh) as (_ & Htable & _ & _ & _ & Hstatus & _).
  split; [exact Htable | exact Hstatus].
Defined.

(** X2.  The tracker mirrors the table through the day.  After a check-in
    on a table that had no row of the user for the day, and again after the
    check-out that follows, a reload of the page on the same day (the load
    that the table answers) finds as [todayRecord] exactly the record the
    tracker was holding. *)
Theorem reload_finds_the_record_of_the_day
    (L : Locale) (s s0 : Remote.State) (table : list Supabase.Row)
    (u : Auth.User) (now1 now2 later : JS.Date) (fresh since : string)
    (netRecent : option string)
    (Hu : Remote.user s = Some u) (Ht : Remote.todayRecord s = None)
    (Hu0 : Remote.user s0 = Some u)
    (Hfresh : fresh ∉ map Supabase.id table)
    (Habs : (Auth.id u, JS.toISODate now1) ∉ map row_key table)
    (Hday : JS.toISODate later = JS.toISODate now1) :
  let st1 := fst (Remote.act L (Remote.do_checkIn now1 fresh None) (s, table)) in
  let st2 := fst (Remote.act L (Remote.do_checkOut now2 None) st1) in
  let reload t := fst (Remote.load later since None netRecent t s0) in
  Remote.todayRecord (reload (snd st1)) = Remote.todayRecord (fst st1)
  /\ Remote.todayRecord (reload (snd st2)) = Remote.todayRecord (fst st2)
  /\ remote_phase (reload (snd st1)) = 1%nat
  /\ remote_phase (reload (snd st2)) = 2%nat.
Proof.
  intros st1 st2 reload.
  pose (row := {| Supabase.id := fresh; Supabase.user_id := Auth.id u;
       Supabase.check_in_time := now1; Supabase.check_out_time := None;
       Supabase.date := JS.toISODate now1 |}).
  assert (H1 : st1
    = (Remote.setIsLoading false
         (Remote.setRecentRecords (Remote.format row :: Remote.recentRecords s)
            (Remote.setTodayRecord (Some (Remote.format row))
               (Remote.setIsLoading true s))),
       table ++ [row])) by now apply act_checkIn_fresh.
  assert (H2 : st2
    = (Remote.setIsLoading false
         (Remote.setRecentRecords
            (Remote.replace_by_id (Remote.format (checked_out_at now2 row))
               (Remote.recentRecords (fst st1)))
            (Remote.setTodayRecord
               (Some (Remote.format (checked_out_at now2 row)))
               (Remote.setIsLoading true (fst st1)))),
       table ++ [checked_out_at now2 row])).
  { unfold st2. rewrite H1. cbn [fst].
    apply act_checkOut_fresh; cbn; [congruence|reflexivity|reflexivity|exact Hfresh]. }
  assert (Hr : forall r, row_key r = (Auth.id u, JS.toISODate now1) ->
             Remote.todayRecord (reload (table ++ [r]))
             = Some (Remote.format r)).
  { intros r Hk. unfold reload, Remote.load. rewrite Hu0.
    rewrite (loadAttendanceRecords_today _ _ s0 u Hu0). cbn [Supabase.answer].
    rewrite Hday, select_today_after_insert by assumption. reflexivity. }
  assert (E1 : Remote.todayRecord (reload (snd st1)) = Remote.todayRecord (fst st1)).
  { rewrite H1. cbn [fst snd]. now rewrite Hr. }
  assert (E2 : Remote.todayRecord (reload (snd st2)) = Remote.todayRecord (fst st2)).
  { rewrite H2. cbn [fst snd]. now rewrite Hr. }
  split; [exact E1|]. split; [exact E2|].
  unfold remote_phase. rewrite E1, E2, H2, H1. split; reflexivity.
Qed.

Lemma reload_finds_the_record_of_the_day_witness :
  let st1 :=
    fst (Remote.act sample_locale (Remote.do_checkIn 1704268800000 "r7" None)
           (signed_in, sample_table)) in
  Remote.todayRecord
    (fst (Remote.load 1704300000000 "2023-12-04" None None (snd st1) signed_in))
  = Remote.todayRecord (fst st1).
Proof.
  assert (Hfresh : "r7" ∉ map Supabase.id sample_table).
  { rewrite list_elem_of_In. simpl. intros [E|[E|[E|[E|[E|[]]]]]]; discriminate E. }
  assert (Habs : (Auth.id alice, JS.toISODate 1704268800000)
                 ∉ map row_key sample_table).
  { rewrite list_elem_of_In. vm_compute.
    intros [E|[E|[E|[E|[E|[]]]]]]; discriminate E. }
  exact (proj1 (reload_finds_the_record_of_the_day sample_locale signed_in
                  signed_in sample_table alice 1704268800000 1704290000000
                  1704300000000 "r7" "2023-12-04" None eq_refl eq_refl eq_refl
                  Hfresh Habs eq_refl)).
Defined.

(** ** Runs, loads and the dashboard of the remote tracker *)

Section RemoteViews.

Variable L : Locale.

Lemma isCheckedIn_phase s : Remote.isCheckedIn s = (remote_phase s =? 1)%nat.
Proof.
  unfold Remote.isCheckedIn, remote_phase.
  destruct (Remote.todayRecord s) as [r|]; [|reflexivity].
  destruct (Remote.check_out_time r); reflexivity.
Qed.

Lemma status_phase s :
  Dashboard.status s
  = match remote_phase s with
    | 0%nat => Dashboard.NotCheckedIn
    | 1%nat => Dashboard.CheckedIn
    | _ => Dashboard.CheckedOut
    end.
Proof.
  unfold Dashboard.status, Remote.isCheckedIn, remote_phase.
  destruct (Remote.todayRecord s) as [r|]; [|reflexivity].
  destruct (Remote.check_out_time r); reflexivity.
Qed.

Lemma perform_phase acts : forall s table,
  let s' := fst (Remote.perform L acts (s, table)) in
  (remote_phase s <= remote_phase s' <= remote_phase s + length acts)%nat.
Proof.
  induction acts as [|a acts IH]; intros s table; [simpl; lia|].
  rewrite perform_cons.
  pose proof (act_phase L a s table) as Ha.
  destruct (Remote.act L a (s, table)) as [[s1 table1] evs].
  cbn [fst] in *. specialize (IH s1 table1). cbn zeta in *.
  cbn [length]. lia.
Qed.

Lemma perform_no_user acts : forall s table,
  Remote.user s = None -> Remote.perform L acts (s, table) = (s, table).
Proof.
  induction acts as [|a acts IH]; intros s table Hu; [reflexivity|].
  rewrite perform_cons.
  assert (H : fst (Remote.act L a (s, table)) = (s, table)).
  { destruct a; cbn [Remote.act];
      unfold Remote.checkIn_begin, Remote.checkOut_begin; now rewrite Hu. }
  rewrite H. now apply IH.
Qed.

Lemma run_no_user cs : forall s,
  Remote.user s = None -> Remote.run L cs s = (s, []).
Proof.
  induction cs as [|c cs IH]; intros s Hu; [reflexivity|].
  cbn [Remote.run].
  assert (H : Remote.step L c s = (s, [])).
  { destruct c; cbn [Remote.step];
      unfold Remote.checkIn, Remote.checkOut, Remote.checkIn_begin,
        Remote.checkOut_begin; now rewrite Hu. }
  rewrite H, (IH s Hu). reflexivity.
Qed.

End RemoteViews.

(** X3.  The record of the day never goes back.  Over any sequence of
    check-ins and check-outs, whatever the table answers to each, the day
    stays where it is or goes on from "no record" to "checked in" to
    "checked out", and [isCheckedIn] and the status line of the dashboard
    are functions of that phase.  Against a table that stores a check-in
    as an open row and returns it, the day advances by one step per
    invocation at most; an answer to the insert that carries a check-out
    time takes the day from "no record" to "checked out" in one check-in,
    because the record is copied from the row that comes back. *)
Theorem remote_day_only_moves_forward
    (L : Locale) (cs : list Remote.Call) (acts : list Remote.Action)
    (s : Remote.State) (table : list Supabase.Row) :
  let answered := fst (Remote.run L cs s) in
  let stored := fst (Remote.perform L acts (s, table)) in
  (remote_phase s <= remote_phase answered <= 2)%nat
  /\ (remote_phase s <= remote_phase stored <= remote_phase s + length acts)%nat
  /\ Remote.isCheckedIn answered = (remote_phase answered =? 1)%nat
  /\ Dashboard.status answered
     = match remote_phase answered with
       | 0%nat => Dashboard.NotCheckedIn
       | 1%nat => Dashboard.CheckedIn
       | _ => Dashboard.CheckedOut
       end
  /\ (forall u now row t,
        Remote.user s = Some u ->
        Remote.todayRecord s = None ->
        Supabase.check_out_time row = Some t ->
        remote_phase s = 0%nat
        /\ remote_phase
             (fst (Remote.step L (Remote.call_checkIn now (Supabase.ok row)) s))
           = 2%nat).
Proof.
  intros answered stored.
  assert (Htop : forall s0, (remote_phase s0 <= 2)%nat).
  { intros s0. unfold remote_phase.
    destruct (Remote.todayRecord s0) as [r|]; [|lia].
    destruct (Remote.check_out_time r); lia. }
  split; [split; [|apply Htop]|].
  - unfold answered. clear answered stored. revert s.
    induction cs as [|c cs IH]; intros s; [simpl; lia|].
    assert (Hstep : (remote_phase s <= remote_phase (fst (Remote.step L c s)))%nat).
    { unfold remote_phase.
      destruct (remote_step_today L c s)
        as [->|[(row & -> & _)|(r & row & -> & -> & ->)]]; [lia | lia |].
      cbn. lia. }
    rewrite remote_run_cons in *.
    specialize (IH (fst (Remote.step L c s))). lia.
  - split; [apply perform_phase|].
    split; [apply isCheckedIn_phase|]. split; [apply status_phase|].
    intros u now row t Hu Ht Hout. unfold remote_phase. rewrite Ht.
    split; [reflexivity|].
    cbn [Remote.step]. unfold Remote.checkIn, Remote.checkIn_begin.
    rewrite Hu, Ht. cbn. now rewrite Hout.
Qed.

Lemma remote_day_only_moves_forward_witness :
  remote_phase signed_in = 0%nat
  /\ remote_phase
       (fst (Remote.step sample_locale
               (Remote.call_checkIn 1704096000000
                  (Supabase.ok (checked_out_row 1704104100000)))
               signed_in))
     = 2%nat.
Proof.
  destruct (remote_day_only_moves_forward sample_locale [] [] signed_in [])
    as (_ & _ & _ & _ & H).
  exact (H alice 1704096000000 (checked_out_row 1704104100000) 1704104100000
           eq_refl eq_refl eq_refl).
Defined.

(** X4.  The dashboard in the states the provider goes through when its
    operations run one after the other: the busy flag is down, so the two
    buttons depend on the record of the day alone and at most one of them
    is enabled.  The check-out behind an enabled button passes its guards
    and sends its request for the identifier of [todayRecord].  The
    check-in behind an enabled button sends its request, for the user and
    the day of the click, when a user is signed in; when none is, as
    before the first login and after a logout, the button is enabled all
    the same and the check-in returns at once: no request, no report, the
    state as it was. *)
Theorem dashboard_buttons_and_their_requests
    (L : Locale) (s : Remote.State) (Hs : Remote.reachable L s) :
  Remote.isLoading s = false
  /\ Dashboard.checkIn_disabled s = negb (remote_phase s =? 0)%nat
  /\ Dashboard.checkOut_disabled s = negb (remote_phase s =? 1)%nat
  /\ (Dashboard.checkIn_disabled s = true \/ Dashboard.checkOut_disabled s = true)
  /\ (forall now, Dashboard.checkOut_disabled s = false ->
        exists today,
          Remote.todayRecord s = Some today
          /\ Remote.checkOut_begin L now s
             = (Remote.setIsLoading true s, [],
                Some ({| Remote.co_now := now;
                         Remote.co_recentRecords := Remote.recentRecords s |},
                      {| Supabase.target_id := Remote.id today;
                         Supabase.set_check_out_time := now |})))
  /\ (forall now u, Remote.user s = Some u ->
        Dashboard.checkIn_disabled s = false ->
        Remote.checkIn_begin L now s
        = (Remote.setIsLoading true s, [],
           Some ({| Remote.ci_now := now;
                    Remote.ci_recentRecords := Remote.recentRecords s |},
                 {| Supabase.new_user_id := Auth.id u;
                    Supabase.new_check_in_time := now;
                    Supabase.new_date := JS.toISODate now |})))
  /\ (Remote.user s = None ->
      Dashboard.checkIn_disabled s = false
      /\ Dashboard.checkOut_disabled s = true
      /\ forall now resp table fresh net,
           Remote.checkIn_begin L now s = (s, [], None)
           /\ Remote.checkIn L now resp s = (s, [])
           /\ Remote.act L (Remote.do_checkIn now fresh net) (s, table)
              = (s, table, [])).
Proof.
  pose proof (reachable_idle L s Hs) as Hidle.
  assert (Hin : Dashboard.checkIn_disabled s = negb (remote_phase s =? 0)%nat).
  { unfold Dashboard.checkIn_disabled, remote_phase. rewrite Hidle, orb_false_r.
    destruct (Remote.todayRecord s) as [r|]; [|reflexivity].
    destruct (Remote.check_out_time r); reflexivity. }
  assert (Hout : Dashboard.checkOut_disabled s = negb (remote_phase s =? 1)%nat).
  { unfold Dashboard.checkOut_disabled.
    now rewrite Hidle, orb_false_r, isCheckedIn_phase. }
  split; [exact Hidle|]. split; [exact Hin|]. split; [exact Hout|].
  split; [|split; [|split]].
  - rewrite Hin, Hout. destruct (remote_phase s) as [|[|n]]; auto.
  - intros now Hen. rewrite Hout in Hen. unfold remote_phase in Hen.
    destruct (Remote.todayRecord s) as [today|] eqn:Ht; [|discriminate].
    destruct (Remote.check_out_time today) eqn:Hc; [discriminate|].
    destruct (reachable_today_has_user L s today Hs Ht) as [u Hu].
    exists today. split; [reflexivity|].
    unfold Remote.checkOut_begin. now rewrite Hu, Ht, Hc.
  - intros now u Hu Hen. rewrite Hin in Hen. unfold remote_phase in Hen.
    destruct (Remote.todayRecord s) as [today|] eqn:Ht.
    { destruct (Remote.check_out_time today); discriminate. }
    unfold Remote.checkIn_begin. now rewrite Hu, Ht.
  - intros Hu. destruct (reachable_no_user L s Hs Hu) as [Ht _].
    rewrite Hin, Hout. unfold remote_phase. rewrite Ht.
    split; [reflexivity|]. split; [reflexivity|].
    intros now resp table fresh net.
    unfold Remote.act, Remote.checkIn, Remote.checkIn_begin. rewrite Hu.
    repeat split.
Qed.

Lemma dashboard_buttons_and_their_requests_witness :
  Dashboard.checkOut_disabled
    (fst (Remote.step sample_locale
            (Remote.call_checkIn 1704096000000 (Supabase.ok sample_row))
            (fst (Remote.onUserChange (Some alice)
                    {| Supabase.data := None; Supabase.error := None |}
                    (Supabase.ok []) Remote.initial))))
  = false
  /\ Dashboard.checkIn_disabled Remote.initial = false
  /\ Remote.checkIn sample_locale 1704096000000 (Supabase.ok sample_row)
       Remote.initial
     = (Remote.initial, []).
Proof.
  split.
  - pose proof (dashboard_buttons_and_their_requests sample_locale _
      (Remote.reach_step sample_locale
         (Remote.call_checkIn 1704096000000 (Supabase.ok sample_row)) _
         (Remote.reach_user sample_locale (Some alice)
            {| Supabase.data := None; Supabase.error := None |}
            (Supabase.ok []) _ (Remote.reach_initial sample_locale))))
      as (_ & _ & H & _).
    rewrite H. reflexivity.
  - pose proof (dashboard_buttons_and_their_requests sample_locale
                  Remote.initial (Remote.reach_initial sample_locale))
      as (_ & _ & _ & _ & _ & _ & H).
    destruct (H eq_refl) as (Hen & _ & Hnone).
    split; [exact Hen|].
    destruct (Hnone 1704096000000 (Supabase.ok sample_row) [] "r7" None)
      as (_ & E & _).
    exact E.
Defined.

(** X5.  What a load reads from the table.  With a user, on a table
    without two rows for one user and day, a load that the table answers
    reports nothing, lowers the busy flag, and leaves as [todayRecord] the
    row of the user for the day of the load, if there is one, and as
    recent records at most ten rows of the user dated [since] or later,
    newest day first: all of them when they are ten or fewer. *)
Theorem load_reads_today_and_the_last_ten
    (now : JS.Date) (since : string) (table : list Supabase.Row)
    (s : Remote.State) (u : Auth.User)
    (Hu : Remote.user s = Some u) (Hnd : NoDup (map row_key table)) :
  let s' := fst (Remote.load now since None None table s) in
  let mine row :=
    String.eqb (Supabase.user_id row) (Auth.id u)
    && String.leb since (Supabase.date row) in
  snd (Remote.load now since None None table s) = []
  /\ Remote.isLoading s' = false
  /\ Remote.user s' = Some u
  /\ (forall r, Remote.todayRecord s' = Some r <->
        exists row, row ∈ table /\ r = Remote.format row
                    /\ row_key row = (Auth.id u, JS.toISODate now))
  /\ (length (Remote.recentRecords s') <= 10)%nat
  /\ Sorted newest_day_first (Remote.recentRecords s')
  /\ (forall r, r ∈ Remote.recentRecords s' ->
        exists row, row ∈ table /\ r = Remote.format row /\ mine row = true)
  /\ ((length (List.filter mine table) <= 10)%nat ->
      Remote.recentRecords s' ≡ₚ map Remote.format (List.filter mine table)).
Proof.
  intros s' mine.
  assert (Hload : Remote.load now since None None table s
    = (Remote.setIsLoading false
         (Remote.setRecentRecords
            (map Remote.format (Supabase.select table (Remote.recentQuery u since)))
            (Remote.setTodayRecord
               (option_map Remote.format
                  (Supabase.data
                     (Supabase.maybeSingle
                        (Supabase.select table
                           (Remote.todayQuery u (JS.toISODate now))))))
               (Remote.setIsLoading true s))), [])).
  { unfold Remote.load, Remote.loadAttendanceRecords. rewrite Hu.
    cbn [Supabase.answer].
    destruct (today_query_single table u (JS.toISODate now) Hnd)
      as [->|[row ->]]; reflexivity. }
  unfold s'. rewrite Hload. cbn [fst snd].
  split; [reflexivity|]. split; [reflexivity|]. split; [exact Hu|].
  cbn [Remote.todayRecord Remote.recentRecords Remote.setIsLoading
       Remote.setRecentRecords Remote.setTodayRecord].
  assert (Hsel : Supabase.select table (Remote.recentQuery u since)
                 = take 10 (merge_sort (Supabase.before Supabase.col_date false)
                              (List.filter mine table))).
  { unfold Supabase.select. cbn [Remote.recentQuery Supabase.filters
      Supabase.order Supabase.limit].
    f_equal. f_equal. apply List.filter_ext. intros row. unfold mine. cbn.
    now rewrite andb_true_r. }
  split; [|split; [|split; [|split]]].
  - intros r. split.
    + destruct (today_query_single table u (JS.toISODate now) Hnd)
        as [E|[row E]]; rewrite E; cbn; [discriminate|].
      intros [= <-]. exists row.
      assert (Hin : In row (Supabase.select table
                              (Remote.todayQuery u (JS.toISODate now))))
        by (rewrite E; now left).
      apply filter_In in Hin as [Hin Hm]. apply matches_todayQuery in Hm.
      rewrite list_elem_of_In. auto.
    + intros (row & Hin & -> & Hk).
      destruct (today_query_single table u (JS.toISODate now) Hnd)
        as [E|[row' E]].
      * exfalso.
        assert (Hrow : In row (Supabase.select table
                                 (Remote.todayQuery u (JS.toISODate now)))).
        { apply filter_In. rewrite <- list_elem_of_In.
          split; [exact Hin | now apply matches_todayQuery]. }
        rewrite E in Hrow. destruct Hrow.
      * assert (Hrow : In row (Supabase.select table
                                 (Remote.todayQuery u (JS.toISODate now)))).
        { apply filter_In. rewrite <- list_elem_of_In.
          split; [exact Hin | now apply matches_todayQuery]. }
        rewrite E in Hrow. destruct Hrow as [->|[]]. rewrite E. reflexivity.
  - rewrite Hsel, length_map, length_take. lia.
  - rewrite Hsel. apply Sorted_map_format, Sorted_take.
    apply (Sorted_merge_sort _).
  - intros r Hr. rewrite Hsel in Hr.
    apply list_elem_of_In, in_map_iff in Hr as (row & <- & Hin).
    exists row. apply list_elem_of_In in Hin.
    apply (subseteq_take 10) in Hin.
    rewrite merge_sort_Permutation in Hin.
    apply list_elem_of_In, filter_In in Hin as [Hin Hm].
    rewrite list_elem_of_In. auto.
  - intros Hlen. rewrite Hsel. apply Permutation_map.
    rewrite take_ge.
    + apply merge_sort_Permutation.
    + rewrite (Permutation_length
                 (merge_sort_Permutation (Supabase.before Supabase.col_date false)
                    (List.filter mine table))). exact Hlen.
Qed.

Lemma load_reads_today_and_the_last_ten_witness :
  Remote.todayRecord
    (fst (Remote.load 1704096000000 "2023-12-02" None None sample_table signed_in))
  = Some (Remote.format sample_row)
  /\ map Remote.id
       (Remote.recentRecords
          (fst (Remote.load 1704096000000 "2023-12-02" None None
                  sample_table signed_in)))
     = ["r3"; "r2"; "r1"; "r0"].
Proof.
  assert (Hnd : NoDup (map row_key sample_table)).
  { apply (bool_decide_unpack _). vm_compute. exact I. }
  pose proof (load_reads_today_and_the_last_ten 1704096000000 "2023-12-02"
                sample_table signed_in alice eq_refl Hnd) as H.
  cbv zeta in H. destruct H as (_ & _ & _ & Htoday & _).
  split; [|vm_compute; reflexivity].
  apply Htoday. exists sample_row. split; [|split; reflexivity].
  rewrite list_elem_of_In. right; left; reflexivity.
Defined.

(** X6.  A load that fails half way.  With a user, the load lowers the
    busy flag in every case.  When the first select fails, it reports the
    failure and keeps both fields; when the first select is answered and
    the second fails, it reports the failure with [todayRecord] already
    replaced by the first answer and the recent records as they were. *)
Theorem load_failure_keeps_what_was_not_yet_set
    (rToday : Supabase.Response Supabase.Row)
    (rRecent : Supabase.Response (list Supabase.Row))
    (s : Remote.State) (u : Auth.User) (Hu : Remote.user s = Some u) :
  let s' := fst (Remote.loadAttendanceRecords rToday rRecent s) in
  let evs := snd (Remote.loadAttendanceRecords rToday rRecent s) in
  Remote.isLoading s' = false
  /\ (Supabase.error rToday <> None ->
      evs = Remote.load_failed
      /\ Remote.todayRecord s' = Remote.todayRecord s
      /\ Remote.recentRecords s' = Remote.recentRecords s)
  /\ (Supabase.error rToday = None -> Supabase.error rRecent <> None ->
      evs = Remote.load_failed
      /\ Remote.todayRecord s' = option_map Remote.format (Supabase.data rToday)
      /\ Remote.recentRecords s' = Remote.recentRecords s)
  /\ (Supabase.error rToday = None -> Supabase.error rRecent = None ->
      evs = []
      /\ Remote.todayRecord s' = option_map Remote.format (Supabase.data rToday)
      /\ Remote.recentRecords s'
         = from_option (map Remote.format) (Remote.recentRecords s)
             (Supabase.data rRecent)).
Proof.
  intros s' evs. unfold s', evs, Remote.loadAttendanceRecords. rewrite Hu.
  destruct (Supabase.error rToday) as [e|].
  { cbn. repeat split; congruence. }
  destruct (Supabase.error rRecent) as [e|].
  { cbn. repeat split; congruence. }
  destruct (Supabase.data rRecent); cbn; repeat split; congruence.
Qed.

Lemma load_failure_keeps_what_was_not_yet_set_witness :
  let s' :=
    fst (Remote.loadAttendanceRecords (Supabase.ok sample_row)
           (Supabase.failed "timeout") signed_in) in
  Remote.todayRecord s' = Some (Remote.format sample_row)
  /\ Remote.recentRecords s' = [].
Proof.
  pose proof (load_failure_keeps_what_was_not_yet_set (Supabase.ok sample_row)
                (Supabase.failed "timeout") signed_in alice eq_refl) as H.
  cbv zeta in H. destruct H as (_ & _ & H & _).
  destruct (H eq_refl) as (_ & Ht & Hr); [discriminate|].
  split; [exact Ht | exact Hr].
Defined.

(** X7.  Two check-ins that overlap leave two rows for the user and the
    day, and from then on every load of that day fails: the first select
    asks for at most one row and gets two, so the load reports "Error
    loading attendance" and leaves the tracker without the record. *)
Theorem overlapping_checkIns_break_the_load
    (L : Locale) (s s0 : Remote.State) (table : list Supabase.Row)
    (u : Auth.User) (now1 now2 later : JS.Date) (id1 id2 since : string)
    (netRecent : option string)
    (Hu : Remote.user s = Some u) (Ht : Remote.todayRecord s = None)
    (Hu0 : Remote.user s0 = Some u)
    (Hday2 : JS.toISODate now2 = JS.toISODate now1)
    (Hday : JS.toISODate later = JS.toISODate now1) :
  exists s4 table2,
    overlapping_checkIns L now1 now2 id1 id2 s table = Some (s4, table2)
    /\ Remote.load later since None netRecent table2 s0
       = (Remote.setIsLoading false (Remote.setIsLoading true s0),
          Remote.load_failed).
Proof.
  unfold overlapping_checkIns, Remote.checkIn_begin. rewrite Hu, Ht.
  cbn [Remote.user Remote.todayRecord Remote.setIsLoading]. rewrite Hu, Ht.
  cbn [Supabase.insert Remote.checkIn_resume Supabase.ok Supabase.error
       Supabase.data Supabase.new_user_id Supabase.new_check_in_time
       Supabase.new_date].
  eexists _, _. split; [reflexivity|].
  unfold Remote.load. rewrite Hu0. cbn [Supabase.answer].
  set (row1 := {| Supabase.id := id1; Supabase.user_id := Auth.id u;
                  Supabase.check_in_time := now1;
                  Supabase.check_out_time := None;
                  Supabase.date := JS.toISODate now1 |}).
  set (row2 := {| Supabase.id := id2; Supabase.user_id := Auth.id u;
                  Supabase.check_in_time := now2;
                  Supabase.check_out_time := None;
                  Supabase.date := JS.toISODate now2 |}).
  assert (Hsel : exists rows,
    Supabase.select ((table ++ [row1]) ++ [row2])
      (Remote.todayQuery u (JS.toISODate later)) = rows ++ [row1; row2]).
  { exists (Supabase.select table (Remote.todayQuery u (JS.toISODate later))).
    change (Supabase.select ?t (Remote.todayQuery u (JS.toISODate later)))
      with (List.filter
              (Supabase.matches
                 (Supabase.filters (Remote.todayQuery u (JS.toISODate later))))
              t).
    rewrite !List.filter_app. cbn [List.filter].
    rewrite (proj2 (matches_todayQuery u (JS.toISODate later) row1)),
            (proj2 (matches_todayQuery u (JS.toISODate later) row2)).
    - now rewrite <- app_assoc.
    - unfold row_key, row2. cbn. now rewrite Hday2, Hday.
    - unfold row_key, row1. cbn. now rewrite Hday. }
  destruct Hsel as [rows ->].
  unfold Remote.loadAttendanceRecords. rewrite Hu0.
  destruct rows as [|r [|r' rows]]; reflexivity.
Qed.

Lemma overlapping_checkIns_break_the_load_witness :
  exists s4 table2,
    overlapping_checkIns sample_locale 1704096000000 1704096000500 "r7" "r8"
      signed_in sample_table = Some (s4, table2)
    /\ Remote.load 1704100000000 "2023-12-02" None None table2 signed_in
       = (Remote.setIsLoading false (Remote.setIsLoading true signed_in),
          Remote.load_failed).
Proof.
  exact (overlapping_checkIns_break_the_load sample_locale signed_in signed_in
           sample_table alice 1704096000000 1704096000500 1704100000000
           "r7" "r8" "2023-12-02" None eq_refl eq_refl eq_refl eq_refl eq_refl).
Defined.

(** ** The tracker on [localStorage]: storage, reload and the card of the day *)

Section LocalStorage.

Variable L : Locale.

Lemma insert_newest_first_Permutation x l :
  Local.insert_newest_first x l ≡ₚ x :: l.
Proof.
  induction l as [|y l IH]; simpl; [reflexivity|].
  destruct (Local.checkInTime y <=? Local.checkInTime x); [reflexivity|].
  rewrite IH. apply Permutation_swap.
Qed.

Lemma sort_newest_first_Permutation l : Local.sort_newest_first l ≡ₚ l.
Proof.
  induction l as [|x l IH]; simpl; [reflexivity|].
  unfold Local.sort_newest_first in *. cbn [foldr].
  rewrite insert_newest_first_Permutation. now rewrite IH.
Qed.

Lemma insert_newest_first_Sorted x l :
  Sorted newest_first l -> Sorted newest_first (Local.insert_newest_first x l).
Proof.
  induction 1 as [|y l Hs IH Hhd]; simpl; [repeat constructor|].
  destruct (Z.leb_spec (Local.checkInTime y) (Local.checkInTime x)) as [Hle|Hlt].
  - constructor; [now constructor|]. constructor. exact Hle.
  - constructor; [exact IH|].
    destruct Hhd as [|z l Hz]; simpl.
    + constructor. unfold newest_first. lia.
    + destruct (Z.leb_spec (Local.checkInTime z) (Local.checkInTime x));
        constructor; unfold newest_first in *; lia.
Qed.

Lemma sort_newest_first_Sorted l : Sorted newest_first (Local.sort_newest_first l).
Proof.
  induction l as [|x l IH]; [constructor|].
  unfold Local.sort_newest_first in *. cbn [foldr].
  now apply insert_newest_first_Sorted.
Qed.

Lemma sort_newest_first_sorted l :
  Sorted newest_first l -> Local.sort_newest_first l = l.
Proof.
  induction 1 as [|x l Hs IH Hhd]; [reflexivity|].
  unfold Local.sort_newest_first in *. cbn [foldr]. rewrite IH.
  destruct Hhd as [|y l Hy]; [reflexivity|]. simpl.
  unfold newest_first in Hy.
  destruct (Z.leb_spec (Local.checkInTime y) (Local.checkInTime x));
    [reflexivity | lia].
Qed.

(** What one invocation does to the state and to the storage: nothing, or
    one step forward of the day with the new list written under the key
    of the user. *)
Lemma local_step_phase c s store :
  let s' := fst (fst (Local.step L c (s, store))) in
  let store' := snd (fst (Local.step L c (s, store))) in
  Local.user s' = Local.user s
  /\ ((s', store') = (s, store)
      \/ exists u, Local.user s = Some u
           /\ local_phase s' = S (local_phase s)
           /\ store' = <[Local.key u := Local.Encoded (Local.recentRecords s')]> store).
Proof.
  unfold local_phase.
  destruct c as [now stamp|now]; cbn [Local.step].
  - unfold Local.checkIn.
    destruct (Local.user s) as [u|] eqn:Hu; [|cbn; auto].
    destruct (Local.todayRecord s) as [today|] eqn:Ht; [cbn; auto|].
    cbn. split; [exact Hu|]. right. exists u.
    unfold Local.saveAttendanceRecords. rewrite Hu. auto.
  - unfold Local.checkOut.
    destruct (Local.user s) as [u|] eqn:Hu; [|cbn; auto].
    destruct (Local.todayRecord s) as [today|] eqn:Ht; [|cbn; auto].
    destruct (Local.checkOutTime today) as [t|] eqn:Hout; [cbn; auto|].
    cbn. split; [exact Hu|]. right. exists u.
    unfold Local.saveAttendanceRecords. rewrite Hu. auto.
Qed.

Lemma find_date_elem today (records : list Local.AttendanceRecord) r :
  List.find (fun record => String.eqb (Local.date record) today) records = Some r ->
  r ∈ records /\ Local.date r = today.
Proof.
  intros H. apply find_some in H as [Hin Heq].
  apply String.eqb_eq in Heq. now rewrite list_elem_of_In.
Qed.

End LocalStorage.

(** X8.  What the local load reads.  With a user whose item holds the
    records [records], the load logs nothing; the recent records are those
    of the item, rearranged with the newest check-in first, and left as
    they are when they were stored in that order; [todayRecord] is a
    stored record dated today, and is absent exactly when no stored
    record is dated today. *)
Theorem local_load_sorts_and_finds_today
    (L : Locale) (now : JS.Date) (store : gmap string Local.Item)
    (s : Local.State) (u : Auth.User) (records : list Local.AttendanceRecord)
    (Hu : Local.user s = Some u)
    (Hitem : store !! Local.key u = Some (Local.Encoded records)) :
  let s' := fst (Local.loadAttendanceRecords L now store s) in
  snd (Local.loadAttendanceRecords L now store s) = []
  /\ Local.recentRecords s' ≡ₚ records
  /\ Sorted newest_first (Local.recentRecords s')
  /\ (Sorted newest_first records -> Local.recentRecords s' = records)
  /\ (forall r, Local.todayRecord s' = Some r ->
        r ∈ Local.recentRecords s' /\ Local.date r = toLocaleDateString L now)
  /\ (Local.todayRecord s' = None <->
      forall r, r ∈ records -> Local.date r <> toLocaleDateString L now).
Proof.
  intros s'. unfold s', Local.loadAttendanceRecords. rewrite Hu, Hitem.
  cbn [fst snd Local.recentRecords Local.todayRecord Local.setRecentRecords
       Local.setTodayRecord].
  split; [reflexivity|].
  split; [apply sort_newest_first_Permutation|].
  split; [apply sort_newest_first_Sorted|].
  split; [apply sort_newest_first_sorted|]. split.
  - intros r Hr. apply find_date_elem in Hr as [Hin Hd]. split; [|exact Hd].
    now rewrite sort_newest_first_Permutation.
  - split.
    + intros Hnone r Hin Hd. apply list_elem_of_In in Hin.
      apply (find_none _ _ Hnone) in Hin.
      apply String.eqb_neq in Hin. contradiction.
    + intros Hall.
      destruct (List.find _ records) as [r|] eqn:E; [|reflexivity].
      apply find_date_elem in E as [Hin Hd]. now destruct (Hall r Hin).
Qed.

Lemma local_load_sorts_and_finds_today_witness :
  Local.recentRecords
    (fst (Local.loadAttendanceRecords sample_locale 1704100000000 sample_store
            {| Local.user := Some alice; Local.todayRecord := None;
               Local.recentRecords := [] |}))
  = [alice_record].
Proof.
  pose proof (local_load_sorts_and_finds_today sample_locale 1704100000000
                sample_store
                {| Local.user := Some alice; Local.todayRecord := None;
                   Local.recentRecords := [] |}
                alice [alice_record] eq_refl eq_refl) as H.
  cbv zeta in H. destruct H as (_ & _ & _ & H & _).
  apply H. repeat constructor.
Defined.

(** X9.  The storage follows the local tracker.  Over any sequence of
    check-ins and check-outs the user stays, the day only moves forward
    (one step per invocation at most), no item other than the one of the
    user is touched, and either nothing has changed at all or the item of
    the user holds exactly the recent records of the tracker. *)
Theorem local_storage_mirrors_the_tracker
    (L : Locale) (cs : list Local.Call) (s : Local.State)
    (store : gmap string Local.Item) :
  let s' := fst (Local.run L cs (s, store)) in
  let store' := snd (Local.run L cs (s, store)) in
  Local.user s' = Local.user s
  /\ (local_phase s <= local_phase s' <= local_phase s + length cs)%nat
  /\ (forall k, (forall u, Local.user s = Some u -> k <> Local.key u) ->
        store' !! k = store !! k)
  /\ (local_phase s' = local_phase s -> (s', store') = (s, store))
  /\ (local_phase s' <> local_phase s ->
      exists u, Local.user s = Some u
        /\ store' !! Local.key u = Some (Local.Encoded (Local.recentRecords s'))).
Proof.
  revert s store. induction cs as [|c cs IH]; intros s store.
  - cbn. repeat split; auto; try lia; congruence.
  - rewrite local_run_cons.
    pose proof (local_step_phase L c s store) as (Hu1 & Hstep).
    destruct (Local.step L c (s, store)) as [[s1 store1] evs].
    cbn [fst snd] in *.
    specialize (IH s1 store1) as (Hu2 & Hph & Hframe & Hsame & Hwrite).
    cbn zeta in *. cbn [length].
    destruct Hstep as [[= -> ->]|(u & Hu & Hphase & ->)].
    + repeat split; auto; lia.
    + split; [congruence|]. split; [lia|]. split; [|split].
      * intros k Hk. rewrite Hframe by (intros u' Hu'; apply Hk; congruence).
        apply lookup_insert_ne. intros E. now apply (Hk u).
      * lia.
      * intros _. exists u. split; [exact Hu|].
        destruct (Nat.eq_dec
                    (local_phase (fst (Local.run L cs
                       (s1, <[Local.key u:=Local.Encoded (Local.recentRecords s1)]> store))))
                    (local_phase s1)) as [E|E].
        -- injection (Hsame E) as E1 E2. rewrite E1, E2.
           apply lookup_insert_eq.
        -- destruct (Hwrite E) as (u' & Hu' & Hw).
           assert (u' = u) as -> by congruence. exact Hw.
Qed.

Lemma local_storage_mirrors_the_tracker_witness :
  let s := {| Local.user := Some alice; Local.todayRecord := None;
              Local.recentRecords := [] |} in
  let st :=
    Local.run sample_locale
      [Local.call_checkIn 1704096000000 1704096000001;
       Local.call_checkOut 1704124800000] (s, sample_store) in
  snd st !! Local.key alice = Some (Local.Encoded (Local.recentRecords (fst st)))
  /\ snd st !! Local.key bob = sample_store !! Local.key bob.
Proof.
  pose proof (local_storage_mirrors_the_tracker sample_locale
                [Local.call_checkIn 1704096000000 1704096000001;
                 Local.call_checkOut 1704124800000]
                {| Local.user := Some alice; Local.todayRecord := None;
                   Local.recentRecords := [] |} sample_store) as H.
  cbv zeta in H. destruct H as (_ & _ & Hframe & _ & Hwrite).
  split.
  - destruct Hwrite as (u & Hu & Hw); [vm_compute; discriminate|].
    injection Hu as <-. exact Hw.
  - apply Hframe. intros u [= <-]. vm_compute. discriminate.
Defined.

(** X10.  A day on the local tracker, and its reload.  From a state with a
    user and no record of the day, a check-in followed by a check-out: the
    card of the day offers the check-in button, then the check-out button,
    then the badge; [todayRecord] ends as the record of the check-in closed
    at the time of the check-out; and a load on the same day from what
    each operation wrote to the storage finds that same [todayRecord]. *)
Theorem local_day_and_its_reload
    (L : Locale) (s s0 : Local.State) (store : gmap string Local.Item)
    (u : Auth.User) (now1 stamp now2 later : JS.Date)
    (Hu : Local.user s = Some u) (Ht : Local.todayRecord s = None)
    (Hu0 : Local.user s0 = Some u)
    (Hday : toLocaleDateString L later = toLocaleDateString L now1) :
  let st1 := fst (Local.checkIn L now1 stamp (s, store)) in
  let st2 := fst (Local.checkOut L now2 st1) in
  let reload st := fst (Local.loadAttendanceRecords L later (snd st) s0) in
  LegacyDashboard.footer s = LegacyDashboard.CheckInButton
  /\ LegacyDashboard.footer (fst st1) = LegacyDashboard.CheckOutButton
  /\ LegacyDashboard.footer (fst st2) = LegacyDashboard.CompletedBadge
  /\ Local.todayRecord (fst st2)
     = Some {| Local.id := JS.Number_toString stamp; Local.userId := Auth.id u;
               Local.checkInTime := now1; Local.checkOutTime := Some now2;
               Local.date := toLocaleDateString L now1 |}
  /\ Local.todayRecord (reload st1) = Local.todayRecord (fst st1)
  /\ Local.todayRecord (reload st2) = Local.todayRecord (fst st2)
  /\ Local.recentRecords (reload st1) ≡ₚ Local.recentRecords (fst st1)
  /\ Local.recentRecords (reload st2) ≡ₚ Local.recentRecords (fst st2).
Proof.
  intros st1 st2 reload.
  assert (H1 : st1
    = (Local.setRecentRecords
         ({| Local.id := JS.Number_toString stamp; Local.userId := Auth.id u;
             Local.checkInTime := now1; Local.checkOutTime := None;
             Local.date := toLocaleDateString L now1 |} :: Local.recentRecords s)
         (Local.setTodayRecord
            (Some {| Local.id := JS.Number_toString stamp;
                     Local.userId := Auth.id u;
                     Local.checkInTime := now1; Local.checkOutTime := None;
                     Local.date := toLocaleDateString L now1 |}) s),
       <[Local.key u :=
           Local.Encoded
             ({| Local.id := JS.Number_toString stamp; Local.userId := Auth.id u;
                 Local.checkInTime := now1; Local.checkOutTime := None;
                 Local.date := toLocaleDateString L now1 |}
              :: Local.recentRecords s)]> store)).
  { unfold st1, Local.checkIn, Local.saveAttendanceRecords.
    rewrite Hu, Ht. reflexivity. }
  set (closed := {| Local.id := JS.Number_toString stamp;
                    Local.userId := Auth.id u;
                    Local.checkInTime := now1; Local.checkOutTime := Some now2;
                    Local.date := toLocaleDateString L now1 |}).
  set (others := map (fun record =>
                        if String.eqb (Local.id record) (JS.Number_toString stamp)
                        then closed else record) (Local.recentRecords s)).
  assert (H2 : st2
    = ({| Local.user := Some u; Local.todayRecord := Some closed;
          Local.recentRecords := closed :: others |},
       <[Local.key u := Local.Encoded (closed :: others)]> (snd st1))).
  { unfold st2. rewrite H1. unfold Local.checkOut, Local.saveAttendanceRecords.
    cbn [fst snd Local.user Local.todayRecord Local.recentRecords
         Local.setRecentRecords Local.setTodayRecord Local.checkOutTime
         Local.id Local.userId Local.checkInTime Local.date map].
    rewrite Hu, String.eqb_refl.
    unfold Local.setRecentRecords, Local.setTodayRecord. cbn [Local.user].
    rewrite Hu. reflexivity. }
  assert (Hr : forall r rest st0,
             Local.date r = toLocaleDateString L now1 ->
             let s' := fst (Local.loadAttendanceRecords L later
                              (<[Local.key u := Local.Encoded (r :: rest)]> st0) s0) in
             Local.todayRecord s' = Some r
             /\ Local.recentRecords s' ≡ₚ r :: rest).
  { intros r rest st0 Hd. unfold Local.loadAttendanceRecords.
    rewrite Hu0, lookup_insert_eq. cbn [fst Local.todayRecord
      Local.recentRecords Local.setRecentRecords Local.setTodayRecord List.find].
    rewrite Hday, Hd, String.eqb_refl. split; [reflexivity|].
    apply sort_newest_first_Permutation. }
  split; [unfold LegacyDashboard.footer; now rewrite Ht|].
  split; [rewrite H1; reflexivity|].
  split; [rewrite H2; reflexivity|].
  split; [rewrite H2; reflexivity|].
  unfold reload. rewrite H2, H1. cbn [fst snd].
  destruct (Hr {| Local.id := JS.Number_toString stamp; Local.userId := Auth.id u;
                  Local.checkInTime := now1; Local.checkOutTime := None;
                  Local.date := toLocaleDateString L now1 |}
              (Local.recentRecords s) store eq_refl) as [Ha Hb].
  destruct (Hr closed others
              (<[Local.key u :=
                  Local.Encoded
                    ({| Local.id := JS.Number_toString stamp;
                        Local.userId := Auth.id u;
                        Local.checkInTime := now1; Local.checkOutTime := None;
                        Local.date := toLocaleDateString L now1 |}
                     :: Local.recentRecords s)]> store) eq_refl) as [Hc Hd].
  cbv zeta in Ha, Hb, Hc, Hd.
  split; [exact Ha|]. split; [exact Hc|]. split; [exact Hb | exact Hd].
Qed.

Lemma local_day_and_its_reload_witness :
  let s := {| Local.user := Some alice; Local.todayRecord := None;
              Local.recentRecords := [] |} in
  let st2 :=
    fst (Local.checkOut sample_locale 1704124800000
           (fst (Local.checkIn sample_locale 1704096000000 1704096000001
                   (s, ∅)))) in
  Local.todayRecord
    (fst (Local.loadAttendanceRecords sample_locale 1704130000000 (snd st2) s))
  = Local.todayRecord (fst st2).
Proof.
  pose proof (local_day_and_its_reload sample_locale
                {| Local.user := Some alice; Local.todayRecord := None;
                   Local.recentRecords := [] |}
                {| Local.user := Some alice; Local.todayRecord := None;
                   Local.recentRecords := [] |}
                ∅ alice 1704096000000 1704096000001 1704124800000 1704130000000
                eq_refl eq_refl eq_refl eq_refl) as H.
  cbv zeta in H. destruct H as (_ & _ & _ & _ & _ & H & _). exact H.
Defined.

(** X11.  In every state the local provider goes through, whatever the
    storage holds, the record of the day is one of the recent records. *)
Theorem local_today_is_among_the_recent
    (L : Locale) (s : Local.State) (r : Local.AttendanceRecord)
    (Hs : Local.reachable L s) (Hr : Local.todayRecord s = Some r) :
  r ∈ Local.recentRecords s.
Proof.
  revert r Hr.
  induction Hs as [|u now store s Hs IH|c store s Hs IH]; intros r Hr.
  - discriminate Hr.
  - unfold Local.onUserChange in *. destruct u as [u|]; [|discriminate Hr].
    unfold Local.loadAttendanceRecords in *.
    cbn [Local.user Local.setUser] in *.
    destruct (store !! Local.key u) as [[raw|records]|].
    + destruct (String.eqb raw ""); now apply IH.
    + cbn in Hr |- *. apply find_date_elem in Hr as [Hin _].
      now rewrite sort_newest_first_Permutation.
    + now apply IH.
  - destruct c as [now stamp|now]; cbn [Local.step] in *.
    + unfold Local.checkIn in *.
      destruct (Local.user s) as [u|]; [|now apply IH].
      destruct (Local.todayRecord s) as [today|] eqn:Ht.
      { cbn in Hr |- *. rewrite Ht in Hr. now apply IH. }
      cbn in Hr |- *. injection Hr as <-. apply list_elem_of_here.
    + unfold Local.checkOut in *.
      destruct (Local.user s) as [u|]; [|now apply IH].
      destruct (Local.todayRecord s) as [today|] eqn:Ht.
      2:{ cbn in Hr. rewrite Ht in Hr. discriminate Hr. }
      destruct (Local.checkOutTime today) as [t|].
      { cbn in Hr |- *. rewrite Ht in Hr. now apply IH. }
      cbn in Hr |- *. injection Hr as <-.
      specialize (IH today eq_refl).
      apply list_elem_of_In, in_map_iff. exists today.
      rewrite String.eqb_refl. split; [reflexivity|].
      now apply list_elem_of_In.
Qed.

Lemma local_today_is_among_the_recent_witness :
  alice_record
  ∈ Local.recentRecords
      (fst (Local.onUserChange sample_locale (Some alice) 1704100000000
              sample_store Local.initial)).
Proof.
  apply (local_today_is_among_the_recent sample_locale).
  - apply Local.reach_user, Local.reach_initial.
  - reflexivity.
Defined.

(** ** The session store and the identity of a user *)

Section Sessions.

Variable L : Locale.

Lemma Number_toString_inj n m :
  JS.Number_toString n = JS.Number_toString m -> n = m.
Proof.
  intros H. pose proof (parseInt_Number_toString n) as Hn.
  rewrite H, parseInt_Number_toString in Hn. congruence.
Qed.

Lemma append_inj_r p x y : p +:+ x = p +:+ y -> x = y.
Proof.
  induction p as [|c p IH]; simpl; [auto|]. intros H. injection H as H. auto.
Qed.

Lemma split_head_lacks c s : lacks c (JS.split_head c s) = true.
Proof.
  induction s as [|c' s IH]; [reflexivity|]. simpl.
  destruct (Ascii.eqb c' c) eqn:E; [reflexivity|]. simpl. now rewrite E.
Qed.

Lemma split_head_prefix c s :
  JS.split_head c s = s
  \/ exists rest, s = JS.split_head c s +:+ String c rest.
Proof.
  induction s as [|c' s IH]; [now left|]. simpl.
  destruct (Ascii.eqb_spec c' c) as [->|Hne].
  - right. exists s. reflexivity.
  - destruct IH as [E|[rest Hrest]]; [left; now rewrite E|].
    right. exists rest.
    change (String c' s = String c' (JS.split_head c s +:+ String c rest)).
    f_equal. exact Hrest.
Qed.

Lemma local_run_no_user cs : forall s store,
  Local.user s = None -> Local.run L cs (s, store) = (s, store).
Proof.
  induction cs as [|c cs IH]; intros s store Hu; [reflexivity|].
  rewrite local_run_cons.
  assert (H : fst (Local.step L c (s, store)) = (s, store)).
  { destruct c; cbn [Local.step]; unfold Local.checkIn, Local.checkOut;
      now rewrite Hu. }
  rewrite H. now apply IH.
Qed.

End Sessions.

(** X12.  The session survives a reload of the page and ends with a
    logout.  After [login] or [register] the mount effect of a fresh page
    restores the very user that was signed in, logging nothing; after
    [logout] it restores none.  The user of a [login] has the identifier
    [1] and as name the part of the email before its first [@]: the name
    holds no [@], and the email is the name alone or the name, an [@] and
    a rest. *)
Theorem session_survives_a_reload
    (email password name : string) (stamp : JS.Date) (s : Auth.Session) :
  let signed := fst (AuthProvider.login email password s) in
  let registered := fst (AuthProvider.register name email password stamp s) in
  let left := fst (AuthProvider.logout signed) in
  AuthProvider.reload signed = (signed, [])
  /\ AuthProvider.reload registered = (registered, [])
  /\ AuthProvider.reload left = (left, [])
  /\ AuthProvider.isAuthenticated signed = true
  /\ AuthProvider.isAuthenticated registered = true
  /\ AuthProvider.isAuthenticated left = false
  /\ (exists u, Auth.user signed = Some u
        /\ Auth.id u = "1" /\ Auth.email u = email
        /\ lacks "@" (Auth.name u) = true
        /\ (email = Auth.name u
            \/ exists rest, email = Auth.name u +:+ String "@" rest))
  /\ Auth.user registered
     = Some {| Auth.id := JS.Number_toString stamp; Auth.email := email;
               Auth.name := name |}.
Proof.
  cbv zeta. repeat split.
  eexists. split; [reflexivity|]. cbn [Auth.id Auth.email Auth.name].
  split; [reflexivity|]. split; [reflexivity|].
  split; [apply split_head_lacks|].
  destruct (split_head_prefix "@" email) as [E|[rest E]]; [left|right]; eauto.
Qed.

(** X13.  Every login is the same user to the tracker.  Whatever the
    emails and passwords, two logins carry the identifier [1] and so share
    one storage key: the check-in that one account makes is, after its
    logout has emptied the tracker, loaded again as the record of the day
    of the next account that logs in on that day. *)
Theorem logins_share_one_identity
    (L : Locale) (email1 password1 email2 password2 : string)
    (ses : Auth.Session) (store : gmap string Local.Item)
    (now stamp later : JS.Date)
    (Hnone : store !! "attendance_1" = None)
    (Hday : toLocaleDateString L later = toLocaleDateString L now) :
  let ses1 := fst (AuthProvider.login email1 password1 ses) in
  let ses2 :=
    fst (AuthProvider.login email2 password2 (fst (AuthProvider.logout ses1))) in
  let st1 :=
    fst (Local.checkIn L now stamp
           (fst (Local.onUserChange L (Auth.user ses1) now store Local.initial),
            store)) in
  let gone := fst (Local.onUserChange L None later (snd st1) (fst st1)) in
  let st2 := fst (Local.onUserChange L (Auth.user ses2) later (snd st1) gone) in
  option_map Local.key (Auth.user ses1) = Some "attendance_1"
  /\ option_map Local.key (Auth.user ses2) = Some "attendance_1"
  /\ Local.todayRecord (fst st1)
     = Some {| Local.id := JS.Number_toString stamp; Local.userId := "1";
               Local.checkInTime := now; Local.checkOutTime := None;
               Local.date := toLocaleDateString L now |}
  /\ Local.todayRecord gone = None /\ Local.recentRecords gone = []
  /\ option_map Auth.email (Local.user st2) = Some email2
  /\ Local.todayRecord st2 = Local.todayRecord (fst st1)
  /\ Local.recentRecords st2 = Local.recentRecords (fst st1).
Proof.
  intros ses1 ses2 st1 gone st2.
  assert (H1 : st1
    = ({| Local.user := Auth.user ses1;
          Local.todayRecord :=
            Some {| Local.id := JS.Number_toString stamp; Local.userId := "1";
                    Local.checkInTime := now; Local.checkOutTime := None;
                    Local.date := toLocaleDateString L now |};
          Local.recentRecords :=
            [{| Local.id := JS.Number_toString stamp; Local.userId := "1";
                Local.checkInTime := now; Local.checkOutTime := None;
                Local.date := toLocaleDateString L now |}] |},
       <["attendance_1" :=
           Local.Encoded
             [{| Local.id := JS.Number_toString stamp; Local.userId := "1";
                 Local.checkInTime := now; Local.checkOutTime := None;
                 Local.date := toLocaleDateString L now |}]]> store)).
  { unfold st1, ses1, Local.onUserChange, Local.loadAttendanceRecords.
    cbn [AuthProvider.login fst Auth.user Local.setUser Local.user].
    change (Local.key _) with "attendance_1". rewrite Hnone.
    reflexivity. }
  split; [reflexivity|]. split; [reflexivity|].
  split; [rewrite H1; reflexivity|].
  split; [reflexivity|]. split; [reflexivity|].
  unfold st2, gone. rewrite H1.
  unfold ses2, Local.onUserChange, Local.loadAttendanceRecords.
  cbn [AuthProvider.login fst snd Auth.user Local.setUser Local.user].
  change (Local.key _) with "attendance_1". rewrite lookup_insert_eq.
  cbn [List.find Local.date]. rewrite Hday, String.eqb_refl.
  repeat split.
Qed.

Lemma logins_share_one_identity_witness :
  let st1 :=
    fst (Local.checkIn sample_locale 1704096000000 1704096000001
           ({| Local.user :=
                 Auth.user (fst (AuthProvider.login "ann@example.org" "a"
                                   {| Auth.user := None; Auth.stored := None |}));
               Local.todayRecord := None; Local.recentRecords := [] |},
            sample_store)) in
  Local.todayRecord
    (fst (Local.onUserChange sample_locale
            (Auth.user (fst (AuthProvider.login "ben@example.org" "b"
                               {| Auth.user := None; Auth.stored := None |})))
            1704100000000 (snd st1) Local.initial))
  = Local.todayRecord (fst st1).
Proof.
  pose proof (logins_share_one_identity sample_locale "ann@example.org" "a"
                "ben@example.org" "b"
                {| Auth.user := None; Auth.stored := None |} sample_store
                1704096000000 1704096000001 1704100000000 eq_refl eq_refl) as H.
  cbv zeta in H. destruct H as (_ & _ & _ & _ & _ & _ & H & _). exact H.
Defined.

(** X14.  Registrations are told apart by their instant.  The identifier
    of a registered user is the printed [Date.now()], so two registrations
    at different instants get different identifiers, different storage
    keys for the local tracker and different selects for the record of the
    day of the remote one; at the same instant they get the same. *)
Theorem registrations_differ_by_their_instant
    (name1 email1 password1 name2 email2 password2 : string)
    (stamp1 stamp2 : JS.Date) (ses1 ses2 : Auth.Session) (today : string)
    (u1 u2 : Auth.User)
    (H1 : Auth.user (fst (AuthProvider.register name1 email1 password1 stamp1 ses1))
          = Some u1)
    (H2 : Auth.user (fst (AuthProvider.register name2 email2 password2 stamp2 ses2))
          = Some u2) :
  (stamp1 = stamp2 <-> Auth.id u1 = Auth.id u2)
  /\ (stamp1 = stamp2 <-> Local.key u1 = Local.key u2)
  /\ (stamp1 = stamp2 <-> Remote.todayQuery u1 today = Remote.todayQuery u2 today).
Proof.
  cbn in H1, H2. injection H1 as <-. injection H2 as <-.
  cbn [Auth.id]. unfold Local.key, Remote.todayQuery. cbn [Auth.id].
  repeat split; try (intros ->; reflexivity).
  - apply Number_toString_inj.
  - intros H. apply Number_toString_inj. now apply append_inj_r in H.
  - intros H. apply Number_toString_inj. congruence.
Qed.

Lemma registrations_differ_by_their_instant_witness :
  Local.key {| Auth.id := JS.Number_toString 1704096000000;
               Auth.email := "ann@example.org"; Auth.name := "Ann" |}
  <> Local.key {| Auth.id := JS.Number_toString 1704096000001;
                  Auth.email := "ben@example.org"; Auth.name := "Ben" |}.
Proof.
  intros E.
  destruct (registrations_differ_by_their_instant "Ann" "ann@example.org" "a"
              "Ben" "ben@example.org" "b" 1704096000000 1704096000001
              {| Auth.user := None; Auth.stored := None |}
              {| Auth.user := None; Auth.stored := None |} "2024-01-01"
              _ _ eq_refl eq_refl) as (_ & H & _).
  apply H in E. discriminate E.
Defined.

(** X15.  Without a user nothing happens.  While no user is signed in,
    no sequence of check-ins and check-outs changes the tracker, the table
    or the storage, none reports anything, a load does nothing, and a
    fetch by date range returns no records without touching the table's
    answer; this holds for the remote tracker and for the local one. *)
Theorem without_a_user_nothing_happens
    (L : Locale) (s : Remote.State) (sl : Local.State)
    (table : list Supabase.Row) (store : gmap string Local.Item)
    (acts : list Remote.Action) (cs : list Remote.Call) (lcs : list Local.Call)
    (range : Remote.DateRange) (net netToday netRecent : option string)
    (now : JS.Date) (since : string)
    (Hu : Remote.user s = None) (Hl : Local.user sl = None) :
  Remote.perform L acts (s, table) = (s, table)
  /\ Remote.run L cs s = (s, [])
  /\ Remote.fetchAttendanceByDateRange net table range s = (s, [], [])
  /\ Remote.load now since netToday netRecent table s = (s, [])
  /\ Local.run L lcs (sl, store) = (sl, store)
  /\ Local.loadAttendanceRecords L now store sl = (sl, []).
Proof.
  split; [now apply perform_no_user|]. split; [now apply run_no_user|].
  split.
  { unfold Remote.fetchAttendanceByDateRange, Remote.fetch_begin.
    now rewrite Hu. }
  split; [unfold Remote.load; now rewrite Hu|].
  split; [now apply local_run_no_user|].
  unfold Local.loadAttendanceRecords. now rewrite Hl.
Qed.

Lemma without_a_user_nothing_happens_witness :
  Remote.perform sample_locale
    [Remote.do_checkIn 1704096000000 "r7" None;
     Remote.do_checkOut 1704124800000 None]
    (Remote.initial, sample_table)
  = (Remote.initial, sample_table).
Proof.
  exact (proj1 (without_a_user_nothing_happens sample_locale Remote.initial
                  Local.initial sample_table sample_store
                  [Remote.do_checkIn 1704096000000 "r7" None;
                   Remote.do_checkOut 1704124800000 None]
                  [] [] january None None None 1704096000000 "2023-12-02"
                  eq_refl eq_refl)).
Defined.

(** ** The reports page: from the range to the file *)

Section ReportPage.

Variable format : JS.Date -> string -> string.
Variable new_Date : string -> JS.Date.

Lemma lacks_append c s t :
  lacks c (s +:+ t) = lacks c s && lacks c t.
Proof.
  induction s as [|c' s IH]; [reflexivity|]. simpl.
  now rewrite IH, andb_assoc.
Qed.

Lemma digit_not_comma c d :
  JS.digit_val c = Some d -> d < 10 -> Ascii.eqb c "," = false.
Proof.
  intros Hc Hd. destruct (Ascii.eqb_spec c ",") as [->|]; [|reflexivity].
  vm_compute in Hc. discriminate Hc.
Qed.

Lemma all_digits_lacks_comma s : all_digits s = true -> lacks "," s = true.
Proof.
  induction s as [|c s IH]; [reflexivity|]. simpl.
  destruct (JS.digit_val c) as [d|] eqn:Hc; [|discriminate].
  intros H. apply andb_prop in H as [Hd Hs].
  rewrite (digit_not_comma c d Hc) by now apply Z.ltb_lt.
  simpl. auto.
Qed.

Lemma Number_toString_lacks_comma n : lacks "," (JS.Number_toString n) = true.
Proof.
  destruct (Z_lt_le_dec n 0) as [Hn|Hn].
  - rewrite Number_toString_neg by exact Hn.
    destruct (Number_toString_nonneg (- n)) as (d & Hd & -> & Hv); [lia|].
    simpl. apply all_digits_lacks_comma, string_of_uint_all_digits.
  - destruct (Number_toString_nonneg n) as (d & Hd & -> & Hv); [lia|].
    apply all_digits_lacks_comma, string_of_uint_all_digits.
Qed.

Lemma duration_of_lacks_comma record :
  lacks "," (Reports.duration_of record) = true.
Proof.
  unfold Reports.duration_of.
  destruct (Remote.check_out_time record); [|reflexivity].
  unfold Reports.hm.
  now rewrite !lacks_append, !Number_toString_lacks_comma.
Qed.

Lemma split_on_single sep s : lacks sep s = true -> split_on sep s = [s].
Proof.
  induction s as [|c s IH]; [reflexivity|]. simpl.
  intros H. apply andb_prop in H as [Hc Hs]. apply negb_true_iff in Hc.
  rewrite Hc, IH by exact Hs. reflexivity.
Qed.

Lemma split_on_append sep s rest :
  lacks sep s = true ->
  split_on sep (s +:+ String sep EmptyString +:+ rest) = s :: split_on sep rest.
Proof.
  change (String sep EmptyString +:+ rest) with (String sep rest).
  induction s as [|c s IH]; simpl.
  - now rewrite Ascii.eqb_refl.
  - intros H. apply andb_prop in H as [Hc Hs]. apply negb_true_iff in Hc.
    rewrite Hc. now rewrite IH.
Qed.

Lemma generateReport_with_range net table dateRange s reportData f t :
  Remote.from dateRange = Some f -> Remote.to dateRange = Some t ->
  Reports.generateReport format new_Date net table dateRange s reportData
  = (fst (Remote.fetchAttendanceByDateRange net table dateRange s),
     Reports.formattedReport format new_Date
       (snd (Remote.fetchAttendanceByDateRange net table dateRange s))).
Proof.
  intros Hf Ht. unfold Reports.generateReport. rewrite Hf, Ht.
  destruct (Remote.fetchAttendanceByDateRange net table dateRange s)
    as [[s' evs] records].
  reflexivity.
Qed.

End ReportPage.

(** X16.  The report follows the fetch.  [generateReport] never touches
    the user or the records of the tracker.  Without both ends of the
    range it leaves the report as it is.  With both ends, a fetch that
    fails replaces the report by the empty one, for which the summary
    shows no average, no file is offered and the download button is
    disabled; a fetch that the table answers for a user makes the report
    the rows of that user inside the range, one report row per table row,
    with the busy flag down, so that the download button is enabled
    exactly when the range holds a row of the user. *)
Theorem report_follows_the_fetch
    (format : JS.Date -> string -> string) (new_Date : string -> JS.Date)
    (net : option string) (table : list Supabase.Row)
    (dateRange : Remote.DateRange) (s : Remote.State)
    (reportData : list Reports.AttendanceReport) (now : JS.Date) :
  let result :=
    Reports.generateReport format new_Date net table dateRange s reportData in
  let s' := fst (fst result) in
  let report := snd result in
  (Remote.user s' = Remote.user s
   /\ Remote.todayRecord s' = Remote.todayRecord s
   /\ Remote.recentRecords s' = Remote.recentRecords s)
  /\ (Remote.from dateRange = None \/ Remote.to dateRange = None ->
      result = (s, [], reportData))
  /\ (forall f t u,
        Remote.from dateRange = Some f -> Remote.to dateRange = Some t ->
        Remote.user s = Some u ->
        let mine :=
          List.filter
            (in_rangeb (Auth.id u) (JS.toISODate f) (JS.toISODate t)) table in
        Remote.isLoading s' = false
        /\ (net <> None ->
            report = []
            /\ Reports.averageHoursPerDay report = Some Reports.zero
            /\ Reports.downloadCSV format now report = None
            /\ Reports.download_disabled report s' = true)
        /\ (net = None ->
            snd (fst result) = []
            /\ report
               ≡ₚ map (fun row =>
                         Reports.report_of format new_Date (Remote.format row))
                    mine
            /\ Reports.totalDays report = Z.of_nat (length mine)
            /\ Reports.download_disabled report s' = (length mine =? 0)%nat)).
Proof.
  intros result s' report. split; [|split].
  - unfold s', result, Reports.generateReport.
    destruct (Remote.from dateRange) as [f|]; [|auto].
    destruct (Remote.to dateRange) as [t|]; [|auto].
    pose proof (remote_fetch_frame net table dateRange s) as H.
    destruct (Remote.fetchAttendanceByDateRange net table dateRange s)
      as [[s1 evs] records].
    exact H.
  - unfold result, Reports.generateReport.
    intros [->| ->]; [reflexivity|].
    destruct (Remote.from dateRange); reflexivity.
  - intros f t u Hf Ht Hu mine.
    assert (Hres : result
      = (fst (Remote.fetchAttendanceByDateRange net table dateRange s),
         Reports.formattedReport format new_Date
           (snd (Remote.fetchAttendanceByDateRange net table dateRange s))))
      by now apply (generateReport_with_range format new_Date _ _ _ _ _ f t).
    unfold s', report. rewrite Hres. clear Hres. cbn [fst snd].
    unfold Remote.fetchAttendanceByDateRange, Remote.fetch_begin.
    rewrite Hu, Hf, Ht. unfold Remote.fetch_resume.
    destruct net as [e|]; cbn [Supabase.answer Supabase.failed Supabase.ok
      Supabase.error Supabase.data fst snd].
    + split; [reflexivity|]. split; [|discriminate].
      intros _. repeat split.
    + split; [reflexivity|]. split; [congruence|]. intros _.
      destruct (select_rangeQuery table u (JS.toISODate f) (JS.toISODate t))
        as (_ & Hperm & _). cbv zeta in Hperm.
      assert (Hrep : Reports.formattedReport format new_Date
                (map Remote.format
                   (Supabase.select table
                      (Remote.rangeQuery u (JS.toISODate f) (JS.toISODate t))))
              ≡ₚ map (fun row =>
                        Reports.report_of format new_Date (Remote.format row))
                   mine).
      { unfold Reports.formattedReport. rewrite Hperm.
        unfold mine. now rewrite map_map. }
      split; [reflexivity|]. split; [exact Hrep|].
      assert (Hlen : length (Reports.formattedReport format new_Date
                (map Remote.format
                   (Supabase.select table
                      (Remote.rangeQuery u (JS.toISODate f) (JS.toISODate t)))))
              = length mine).
      { rewrite (Permutation_length Hrep). apply length_map. }
      split.
      * unfold Reports.totalDays. now rewrite Hlen.
      * unfold Reports.download_disabled. rewrite Hlen.
        cbn [Remote.isLoading Remote.setIsLoading]. apply orb_false_r.
Qed.

Lemma report_follows_the_fetch_witness :
  map Reports.id
    (snd (Reports.generateReport sample_format sample_new_Date None
            sample_table january signed_in []))
  ≡ₚ ["r1"; "r2"]
  /\ Reports.download_disabled
       (snd (Reports.generateReport sample_format sample_new_Date None
               sample_table january signed_in []))
       (fst (fst (Reports.generateReport sample_format sample_new_Date None
               sample_table january signed_in [])))
     = false.
Proof.
  pose proof (report_follows_the_fetch sample_format sample_new_Date None
                sample_table january signed_in [] 1706700000000) as H.
  cbv zeta in H. destruct H as (_ & _ & H).
  destruct (H 1704067200000 1706659200000 alice eq_refl eq_refl eq_refl)
    as (_ & _ & H2).
  destruct (H2 eq_refl) as (_ & Hperm & _ & Hdis).
  split.
  - rewrite Hperm. vm_compute. reflexivity.
  - rewrite Hdis. vm_compute. reflexivity.
Defined.

(** X17.  A row of the export reads back as its four fields.  For a record
    whose day and times are printed without a comma, the line that the
    export writes for it splits at its commas into exactly the day, the
    check-in time, the check-out time or [Not checked out], and the
    duration; the duration never holds a comma. *)
Theorem csv_row_splits_into_its_four_fields
    (format : JS.Date -> string -> string) (new_Date : string -> JS.Date)
    (record : Remote.AttendanceRecord)
    (Hday : lacks "," (format (new_Date (Remote.date record)) "yyyy-MM-dd") = true)
    (Hin : lacks "," (format (Remote.check_in_time record) "HH:mm:ss") = true)
    (Hout : forall t, Remote.check_out_time record = Some t ->
              lacks "," (format t "HH:mm:ss") = true) :
  split_on ","
    (Reports.csvRow (Reports.report_of format new_Date record))
  = [format (new_Date (Remote.date record)) "yyyy-MM-dd";
     format (Remote.check_in_time record) "HH:mm:ss";
     Reports.or_else
       (option_map (fun t => format t "HH:mm:ss") (Remote.check_out_time record))
       "Not checked out";
     Reports.duration_of record].
Proof.
  unfold Reports.csvRow, Reports.report_of.
  cbn [Reports.date Reports.checkInTime Reports.checkOutTime Reports.duration].
  rewrite split_on_append by exact Hday.
  rewrite split_on_append by exact Hin.
  rewrite split_on_append.
  - rewrite split_on_single by apply duration_of_lacks_comma. reflexivity.
  - unfold Reports.or_else.
    destruct (Remote.check_out_time record) as [t|]; [|reflexivity].
    cbn [option_map]. destruct (String.eqb _ ""); [reflexivity|].
    now apply Hout.
Qed.

Lemma csv_row_splits_into_its_four_fields_witness :
  split_on ","
    (Reports.csvRow
       (Reports.report_of sample_format sample_new_Date sample_record))
  = ["2024-01-01"; "08:00:00"; "10:15:00"; "2h 15m"].
Proof.
  rewrite (csv_row_splits_into_its_four_fields sample_format sample_new_Date
             sample_record).
  - vm_compute. reflexivity.
  - vm_compute. reflexivity.
  - vm_compute. reflexivity.
  - intros t [= <-]. vm_compute. reflexivity.
Defined.

(** ** The list of recent records over check-ins and check-outs *)

Section RecentRecords.

Variable L : Locale.

Lemma replace_by_id_ids updated l :
  map Remote.id (Remote.replace_by_id updated l) = map Remote.id l.
Proof.
  unfold Remote.replace_by_id. rewrite map_map. apply map_ext. intros record.
  destruct (String.eqb_spec (Remote.id record) (Remote.id updated)); congruence.
Qed.

Lemma act_recent_ids a s table :
  let s' := fst (fst (Remote.act L a (s, table))) in
  map Remote.id (Remote.recentRecords s') = map Remote.id (Remote.recentRecords s)
  \/ Remote.todayRecord s = None /\ Remote.todayRecord s' <> None
     /\ exists fresh,
          map Remote.id (Remote.recentRecords s')
          = fresh :: map Remote.id (Remote.recentRecords s).
Proof.
  destruct a as [now fresh net|now net]; cbn [Remote.act].
  - unfold Remote.checkIn_begin.
    destruct (Remote.user s) as [u|]; [|cbn; auto].
    destruct (Remote.todayRecord s) as [today|] eqn:Ht; [cbn; auto|].
    destruct net as [e|]; cbn; [auto|].
    right. repeat split; [discriminate|]. eauto.
  - unfold Remote.checkOut_begin.
    destruct (Remote.user s) as [u|]; [|cbn; auto].
    destruct (Remote.todayRecord s) as [today|]; [|cbn; auto].
    destruct (Remote.check_out_time today); [cbn; auto|].
    destruct net as [e|]; [cbn; auto|].
    destruct (Supabase.update table _) as [table' resp].
    unfold Remote.checkOut_resume.
    destruct (Supabase.error resp), (Supabase.data resp) as [data|]; cbn; auto.
    left. apply (replace_by_id_ids (Remote.format_checked_out data)).
Qed.

Lemma local_step_recent_ids c s store :
  let s' := fst (fst (Local.step L c (s, store))) in
  map Local.id (Local.recentRecords s') = map Local.id (Local.recentRecords s)
  \/ Local.todayRecord s = None /\ Local.todayRecord s' <> None
     /\ exists fresh,
          map Local.id (Local.recentRecords s')
          = fresh :: map Local.id (Local.recentRecords s).
Proof.
  destruct c as [now stamp|now]; cbn [Local.step].
  - unfold Local.checkIn.
    destruct (Local.user s) as [u|]; [|cbn; auto].
    destruct (Local.todayRecord s) as [today|] eqn:Ht; [cbn; auto|].
    cbn. right. repeat split; [discriminate|]. eauto.
  - unfold Local.checkOut.
    destruct (Local.user s) as [u|]; [|cbn; auto].
    destruct (Local.todayRecord s) as [today|]; [|cbn; auto].
    destruct (Local.checkOutTime today); [cbn; auto|].
    cbn. left. rewrite map_map. apply map_ext. intros record.
    destruct (String.eqb_spec (Local.id record) (Local.id today)); cbn; congruence.
Qed.

End RecentRecords.

(** X18.  Check-ins and check-outs never drop or reorder a recent record.
    Over any sequence of them, on the remote tracker whatever the table
    answers and on the local one, the identifiers of the recent records
    are those from before, in their order, with at most one new identifier
    in front, and none when the day already had its record. *)
Theorem recent_records_are_kept_in_order
    (L : Locale) (acts : list Remote.Action) (s : Remote.State)
    (table : list Supabase.Row) (cs : list Local.Call) (sl : Local.State)
    (store : gmap string Local.Item) :
  (exists added,
     map Remote.id (Remote.recentRecords (fst (Remote.perform L acts (s, table))))
     = added ++ map Remote.id (Remote.recentRecords s)
     /\ (length added <= 1)%nat
     /\ (Remote.todayRecord s <> None -> added = []))
  /\ (exists added,
        map Local.id (Local.recentRecords (fst (Local.run L cs (sl, store))))
        = added ++ map Local.id (Local.recentRecords sl)
        /\ (length added <= 1)%nat
        /\ (Local.todayRecord sl <> None -> added = [])).
Proof.
  split.
  - revert s table. induction acts as [|a acts IH]; intros s table.
    + exists []. auto.
    + rewrite perform_cons.
      pose proof (act_recent_ids L a s table) as Hids.
      pose proof (act_effect L a s table) as (_ & Hmono & _).
      destruct (Remote.act L a (s, table)) as [[s1 table1] evs].
      cbn [fst snd] in *.
      destruct (IH s1 table1) as (added & Hk & Hlen & Hnone).
      destruct Hids as [Hsame|(Hn & Hsome & fresh & Hnew)].
      * exists added. rewrite Hk, Hsame. auto.
      * exists [fresh]. rewrite Hk, Hnew, (Hnone Hsome).
        repeat split; auto. congruence.
  - revert sl store. induction cs as [|c cs IH]; intros sl store.
    + exists []. auto.
    + rewrite local_run_cons.
      pose proof (local_step_recent_ids L c sl store) as Hids.
      pose proof (local_step_effect L c sl store) as (_ & Hmono & _).
      destruct (Local.step L c (sl, store)) as [[s1 store1] evs].
      cbn [fst snd] in *.
      destruct (IH s1 store1) as (added & Hk & Hlen & Hnone).
      destruct Hids as [Hsame|(Hn & Hsome & fresh & Hnew)].
      * exists added. rewrite Hk, Hsame. auto.
      * exists [fresh]. rewrite Hk, Hnew, (Hnone Hsome).
        repeat split; auto. congruence.
Qed.

Lemma recent_records_are_kept_in_order_witness :
  map Remote.id
    (Remote.recentRecords
       (fst (Remote.perform sample_locale
               [Remote.do_checkOut 1704124800000 None;
                Remote.do_checkIn 1704130000000 "r7" None]
               (checked_in_state, sample_table))))
  = ["r1"].
Proof.
  destruct (recent_records_are_kept_in_order sample_locale
              [Remote.do_checkOut 1704124800000 None;
               Remote.do_checkIn 1704130000000 "r7" None]
              checked_in_state sample_table [] Local.initial ∅)
    as [(added & Hids & _ & Hnone) _].
  rewrite Hids, Hnone; [reflexivity | discriminate].
Defined.
